(** * Tank data reader: a shallow embedding of [tank_data_reader.py] and
    [web_server.py], with the properties of the refresh pipeline.

    Layout:
    - [Py]: the Python values, exceptions and library calls the two
      modules rely on ([str.lower], [str.endswith], [datetime.strptime],
      [datetime.strftime], [datetime.isoformat], stable [list.sort]).
    - [ET]: the part of [xml.etree.ElementTree] used by the extractor.
    - [Reader]: [tank_data_reader.py].  A function with effects is a
      program: a sequence of atomic actions on the state of the
      process, which can be run to its end or one action at a time.
    - [WebServer]: [web_server.py], sequentially and as threads that
      share the state and [data_lock] and interleave action by action.

    A text is held as the bytes of its UTF-8 form.  The date patterns
    read it character by character, with [\d] and [\s] on all of
    Unicode as in Python; the order of two texts by bytes is their
    order by code points. *)

From Stdlib Require Import ZArith NArith QArith List String Ascii Lia Bool Sorted Permutation.
From stdpp Require Import base option list strings gmap.

Set Warnings "-register-all".

Open Scope string_scope.
Open Scope list_scope.
Open Scope nat_scope.

(* ===================================================================== *)
(** ** Python values, exceptions and library calls *)
(* ===================================================================== *)

Module Py.

(** The exception classes that occur along the modelled paths. *)
Inductive exn : Type :=
  | ValueError
  | TypeError
  | OSError
  | ParseError
  | TransportError.

(** A call either returns or raises. *)
Inductive result (A : Type) : Type :=
  | Ok (a : A)
  | Raise (e : exn).
Arguments Ok {A} a.
Arguments Raise {A} e.

#[export] Instance result_ret : MRet result := fun _ a => Ok a.
#[export] Instance result_bind : MBind result := fun _ _ f m =>
  match m with
  | Ok a => f a
  | Raise e => Raise e
  end.

(** [try: m except Exception: h] *)
Definition try_except {A} (m : result A) (h : exn -> A) : A :=
  match m with
  | Ok a => a
  | Raise e => h e
  end.

(** *** Floats

    [float(text)] and float addition are library calls on IEEE doubles;
    the development is parametric in them.  [float_of_str] is [None]
    where [float] raises [ValueError]. *)
Class FloatModel : Type := {
  float : Type;
  float_zero : float;
  float_of_str : string -> option float;
  float_add : float -> float -> float;
  float_eq_dec :: EqDecision float;
}.

(** The values stored in a transaction dict. *)
Inductive value `{FloatModel} : Type :=
  | VNone
  | VStr (s : string)
  | VFloat (x : float).

#[export] Instance value_eq_dec `{FloatModel} : EqDecision value.
Proof. solve_decision. Defined.

(** [float(x)] on an element text: [TypeError] on [None], [ValueError] on
    a text that is no number. *)
Definition py_float `{FloatModel} (text : option string) : result float :=
  match text with
  | None => Raise TypeError
  | Some s =>
      match float_of_str s with
      | Some x => Ok x
      | None => Raise ValueError
      end
  end.

Local Open Scope Z_scope.

(** *** Bytes of ASCII *)

Definition char_between (lo hi : nat) (c : ascii) : bool :=
  (lo <=? nat_of_ascii c)%nat && (nat_of_ascii c <=? hi)%nat.

Definition is_digit (c : ascii) : bool := char_between 48 57 c.

Definition digit_val (c : ascii) : Z := Z.of_nat (nat_of_ascii c) - 48.

Definition digit_char (n : Z) : ascii := ascii_of_nat (Z.to_nat (48 + n)).

(** [str.lower] on the letters of ASCII.  A character outside ASCII is
    left as it stands: in Python none of them has ['.'], ['x'], ['m']
    or ['l'] in its lower-case form, so the test of the extension
    [name.lower().endswith('.xml')] does not depend on them. *)
Definition lower_char (c : ascii) : ascii :=
  if char_between 65 90 c then ascii_of_nat (nat_of_ascii c + 32)%nat else c.

Fixpoint lower (s : string) : string :=
  match s with
  | EmptyString => EmptyString
  | String c r => String (lower_char c) (lower r)
  end.

(** [s.endswith(suffix)] *)
Definition endswith (s suffix : string) : bool :=
  let n := String.length s in
  let k := String.length suffix in
  (k <=? n)%nat && String.eqb (substring (n - k)%nat k s) suffix.

(** *** The characters of a text

    [utf8_decode] reads the bytes of a text as code points: [need] is
    the number of continuation bytes still due and [acc] the bits read
    of the character under way.  Bytes that are not UTF-8 stand for no
    Python text: a byte out of place is read as U+FFFD. *)
Definition REPLACEMENT : N := 65533%N.

Fixpoint utf8_decode (need : nat) (acc : N) (s : list ascii) : list N :=
  match s with
  | [] => match need with O => [] | S _ => [REPLACEMENT] end
  | c :: r =>
      let b := N_of_ascii c in
      match need with
      | O =>
          if (b <? 128)%N then b :: utf8_decode 0 0 r
          else if (192 <=? b)%N && (b <? 224)%N then utf8_decode 1 (b - 192) r
          else if (224 <=? b)%N && (b <? 240)%N then utf8_decode 2 (b - 224) r
          else if (240 <=? b)%N && (b <? 248)%N then utf8_decode 3 (b - 240) r
          else REPLACEMENT :: utf8_decode 0 0 r
      | S n =>
          if (128 <=? b)%N && (b <? 192)%N then
            match n with
            | O => (64 * acc + (b - 128))%N :: utf8_decode 0 0 r
            | S _ => utf8_decode n (64 * acc + (b - 128)) r
            end
          else REPLACEMENT :: utf8_decode 0 0 r
      end
  end.

Definition chars (s : string) : list N := utf8_decode 0 0 (list_ascii_of_string s).

(** The characters that [\s] matches in a [str] pattern: those of
    [str.isspace], in ASCII the tab, the line feed, the vertical tab,
    the form feed, the carriage return, the four separators 28..31 and
    the space. *)
Definition SPACES : list N :=
  [9; 10; 11; 12; 13; 28; 29; 30; 31; 32; 133; 160; 5760; 8192; 8193; 8194;
   8195; 8196; 8197; 8198; 8199; 8200; 8201; 8202; 8232; 8233; 8239; 8287;
   12288]%N.

Definition is_space (c : N) : bool := existsb (N.eqb c) SPACES.

(** The characters that [\d] matches in a [str] pattern are the decimal
    digits of Unicode (category Nd): runs of ten, zero to nine.  These
    are the zeros of the runs of Unicode 14.0, the version of CPython
    3.11; [int] reads a digit of any run as its value. *)
Definition DIGIT_ZEROS : list N :=
  [48; 1632; 1776; 1984; 2406; 2534; 2662; 2790; 2918; 3046; 3174; 3302;
   3430; 3558; 3664; 3792; 3872; 4160; 4240; 6112; 6160; 6470; 6608; 6784;
   6800; 6992; 7088; 7232; 7248; 42528; 43216; 43264; 43472; 43504; 43600;
   44016; 65296; 66720; 68912; 69734; 69872; 69942; 70096; 70384; 70736;
   70864; 71248; 71360; 71472; 71904; 72016; 72784; 73040; 73120; 92768;
   92864; 93008; 120782; 120792; 120802; 120812; 120822; 123200; 123632;
   125264; 130032]%N.

Definition decimal (c : N) : option Z :=
  match List.find (fun z => (z <=? c)%N && (c <? z + 10)%N) DIGIT_ZEROS with
  | Some z => Some (Z.of_N (c - z))
  | None => None
  end.

(** *** [datetime] *)

Record datetime : Type := Datetime {
  year : Z;
  month : Z;
  day : Z;
  hour : Z;
  minute : Z;
  second : Z;
}.

Definition is_leap (y : Z) : bool :=
  (y mod 4 =? 0) && (negb (y mod 100 =? 0) || (y mod 400 =? 0)).

Definition days_in_month (y m : Z) : Z :=
  match m with
  | 2 => if is_leap y then 29 else 28
  | 4 | 6 | 9 | 11 => 30
  | _ => 31
  end.

(** The checks of the [datetime] constructor (MINYEAR is 1). *)
Definition valid_datetime (d : datetime) : bool :=
  (1 <=? year d) && (year d <=? 9999)
  && (1 <=? month d) && (month d <=? 12)
  && (1 <=? day d) && (day d <=? days_in_month (year d) (month d))
  && (0 <=? hour d) && (hour d <=? 23)
  && (0 <=? minute d) && (minute d <=? 59)
  && (0 <=? second d) && (second d <=? 59).

(** *** The regular expressions of [_strptime]

    A pattern maps the remaining characters to its matches in the order
    in which the backtracking matcher finds them. *)
Definition rx (A : Type) : Type := list N -> list (A * list N).

Definition rx_ret {A} (a : A) : rx A := fun s => [(a, s)].

Definition rx_bind {A B} (p : rx A) (f : A -> rx B) : rx B := fun s =>
  flat_map (fun ar => f (fst ar) (snd ar)) (p s).

Definition rx_alt {A} (p q : rx A) : rx A := fun s => p s ++ q s.

(** A class of ASCII digits such as [[0-5]]: one digit in [lo..hi]. *)
Definition rx_digit (lo hi : N) : rx Z := fun s =>
  match s with
  | c :: r =>
      if (48 + lo <=? c)%N && (c <=? 48 + hi)%N then [(Z.of_N (c - 48), r)] else []
  | [] => []
  end.

(** [\d]: one decimal digit of any script. *)
Definition rx_decimal : rx Z := fun s =>
  match s with
  | c :: r => match decimal c with Some v => [(v, r)] | None => [] end
  | [] => []
  end.

(** A literal character. *)
Definition rx_char (c : ascii) : rx unit := fun s =>
  match s with
  | c' :: r => if (N_of_ascii c =? c')%N then [(tt, r)] else []
  | [] => []
  end.

(** Two digits, read as [int] reads them. *)
Definition rx_pair (p q : rx Z) : rx Z :=
  rx_bind p (fun a => rx_bind q (fun b => rx_ret (10 * a + b))).

(** The rests after zero or more spaces, longest run first. *)
Fixpoint spaces_star (s : list N) : list (list N) :=
  match s with
  | c :: r => if is_space c then spaces_star r ++ [s] else [s]
  | [] => [[]]
  end.

(** [\s+], which replaces a run of blanks of the format. *)
Definition rx_spaces : rx unit := fun s =>
  match s with
  | c :: r => if is_space c then map (pair tt) (spaces_star r) else []
  | [] => []
  end.

(** [%Y]: [\d\d\d\d] *)
Definition rx_Y : rx Z :=
  rx_bind rx_decimal (fun a => rx_bind rx_decimal (fun b =>
  rx_bind rx_decimal (fun c => rx_bind rx_decimal (fun d =>
  rx_ret (1000 * a + 100 * b + 10 * c + d))))).

(** [%m]: [1[0-2]|0[1-9]|[1-9]] *)
Definition rx_m : rx Z :=
  rx_alt (rx_pair (rx_digit 1 1) (rx_digit 0 2))
    (rx_alt (rx_pair (rx_digit 0 0) (rx_digit 1 9)) (rx_digit 1 9)).

(** [%d]: [3[0-1]|[1-2]\d|0[1-9]|[1-9]| [1-9]] *)
Definition rx_d : rx Z :=
  rx_alt (rx_pair (rx_digit 3 3) (rx_digit 0 1))
    (rx_alt (rx_pair (rx_digit 1 2) rx_decimal)
       (rx_alt (rx_pair (rx_digit 0 0) (rx_digit 1 9))
          (rx_alt (rx_digit 1 9)
             (rx_bind (rx_char " ") (fun _ => rx_digit 1 9))))).

(** [%H]: [2[0-3]|[0-1]\d|\d] *)
Definition rx_H : rx Z :=
  rx_alt (rx_pair (rx_digit 2 2) (rx_digit 0 3))
    (rx_alt (rx_pair (rx_digit 0 1) rx_decimal) rx_decimal).

(** [%M]: [[0-5]\d|\d] *)
Definition rx_M : rx Z :=
  rx_alt (rx_pair (rx_digit 0 5) rx_decimal) rx_decimal.

(** [%S]: [6[0-1]|[0-5]\d|\d] *)
Definition rx_S : rx Z :=
  rx_alt (rx_pair (rx_digit 6 6) (rx_digit 0 1))
    (rx_alt (rx_pair (rx_digit 0 5) rx_decimal) rx_decimal).

(** [\s+%H:%M:%S], the common tail of the two formats. *)
Definition rx_time (mk : Z -> Z -> Z -> datetime) : rx datetime :=
  rx_bind rx_spaces (fun _ => rx_bind rx_H (fun h =>
  rx_bind (rx_char ":") (fun _ => rx_bind rx_M (fun mi =>
  rx_bind (rx_char ":") (fun _ => rx_bind rx_S (fun s =>
  rx_ret (mk h mi s))))))).

(** The two formats of [parse_xml_file]. *)
Inductive format : Type :=
  | Fmt_Ymd_HMS   (* '%Y-%m-%d %H:%M:%S' *)
  | Fmt_dmY_HMS.  (* '%d.%m.%Y %H:%M:%S' *)

Definition format_regex (f : format) : rx datetime :=
  match f with
  | Fmt_Ymd_HMS =>
      rx_bind rx_Y (fun y => rx_bind (rx_char "-") (fun _ =>
      rx_bind rx_m (fun m => rx_bind (rx_char "-") (fun _ =>
      rx_bind rx_d (fun d => rx_time (Datetime y m d))))))
  | Fmt_dmY_HMS =>
      rx_bind rx_d (fun d => rx_bind (rx_char ".") (fun _ =>
      rx_bind rx_m (fun m => rx_bind (rx_char ".") (fun _ =>
      rx_bind rx_Y (fun y => rx_time (Datetime y m d))))))
  end.

(** [datetime.strptime(text, format)]: the first match of the pattern at
    the start of the text; [ValueError] without a match, when text
    remains after it, or when the fields are no date; [TypeError] when
    the text is [None]. *)
Definition strptime (text : option string) (f : format) : result datetime :=
  match text with
  | None => Raise TypeError
  | Some s =>
      match format_regex f (chars s) with
      | [] => Raise ValueError
      | (d, rest) :: _ =>
          match rest with
          | [] => if valid_datetime d then Ok d else Raise ValueError
          | _ :: _ => Raise ValueError
          end
      end
  end.

(** Zero-padded decimals. *)
Definition pad2 (n : Z) : list ascii :=
  [digit_char (n / 10 mod 10); digit_char (n mod 10)].

Definition pad4 (n : Z) : list ascii :=
  [digit_char (n / 1000 mod 10); digit_char (n / 100 mod 10);
   digit_char (n / 10 mod 10); digit_char (n mod 10)].

Definition sep (c : ascii) : list ascii := [c].

(** [d.isoformat()], microsecond 0: [YYYY-MM-DDTHH:MM:SS], the year
    with four digits. *)
Definition isoformat (d : datetime) : string :=
  string_of_list_ascii
    (pad4 (year d) ++ sep "-" ++ pad2 (month d) ++ sep "-" ++ pad2 (day d)
     ++ sep "T" ++ pad2 (hour d) ++ sep ":" ++ pad2 (minute d)
     ++ sep ":" ++ pad2 (second d)).

(** [%Y] of [strftime] is the C library's: glibc writes the year as a
    plain decimal, without leading zeros.  A platform that pads the
    year to four digits differs before the year 1000 only. *)
Definition strftime_Y (y : Z) : list ascii :=
  if y <? 10 then [digit_char y]
  else if y <? 100 then pad2 y
  else if y <? 1000 then digit_char (y / 100 mod 10) :: pad2 y
  else pad4 y.

(** [d.strftime('%d.%m.%Y %H:%M:%S')] *)
Definition strftime_dmY_HMS (d : datetime) : string :=
  string_of_list_ascii
    (pad2 (day d) ++ sep "." ++ pad2 (month d) ++ sep "." ++ strftime_Y (year d)
     ++ sep " " ++ pad2 (hour d) ++ sep ":" ++ pad2 (minute d)
     ++ sep ":" ++ pad2 (second d)).

(** *** ISO-8601 timestamps

    The reader of the fixed-width form [YYYY-MM-DDTHH:MM:SS]. *)
Definition num2 (a b : ascii) : option Z :=
  if is_digit a && is_digit b then Some (10 * digit_val a + digit_val b) else None.

Definition iso_fields (s : list ascii) : option datetime :=
  match s with
  | [y1; y2; y3; y4; d1; m1; m2; d2; a1; a2; t; h1; h2; c1; i1; i2; c2; s1; s2] =>
      if Ascii.eqb d1 "-" && Ascii.eqb d2 "-" && Ascii.eqb t "T"
         && Ascii.eqb c1 ":" && Ascii.eqb c2 ":"
      then
        yh ← num2 y1 y2; yl ← num2 y3 y4;
        m ← num2 m1 m2; d ← num2 a1 a2;
        h ← num2 h1 h2; mi ← num2 i1 i2; sc ← num2 s1 s2;
        Some (Datetime (100 * yh + yl) m d h mi sc)
      else None
  | _ => None
  end.

(** A text is a valid ISO-8601 timestamp when it has the fixed-width form
    and its fields are a calendar date and a time of day. *)
Definition is_iso8601 (s : string) : bool :=
  match iso_fields (list_ascii_of_string s) with
  | Some d =>
      (1 <=? month d) && (month d <=? 12)
      && (1 <=? day d) && (day d <=? days_in_month (year d) (month d))
      && (hour d <=? 23) && (minute d <=? 59) && (second d <=? 59)
  | None => false
  end.


(** *** [list.sort(key=..., reverse=True)]

    The sort of CPython is stable, with [reverse=True] too: elements with
    equal keys keep the order they had.  A stable sort has one possible
    result, so the insertion sort below computes the very list that
    [list.sort] leaves. *)
Section Sort.
Context {A K : Type} (ltb : K -> K -> bool) (key : A -> K).

(** [x] stood before every element of [l]: it goes in front of the
    first element whose key is not greater than its own. *)
Fixpoint insert_desc (x : A) (l : list A) : list A :=
  match l with
  | [] => [x]
  | y :: l' => if ltb (key x) (key y) then y :: insert_desc x l' else x :: l
  end.

Definition sort_desc (l : list A) : list A := foldr insert_desc [] l.

(** [a] may stand before [b] in a descending list. *)
Definition desc (a b : A) : Prop := ltb (key a) (key b) = false.
End Sort.

End Py.
(* ===================================================================== *)
(** ** [xml.etree.ElementTree] *)
(* ===================================================================== *)

Module ET.
Import Py.

(** An element: its tag, its text ([None] for an element without text,
    such as [<a/>]) and its children in document order. *)
Inductive element : Type :=
  | Element (tag : string) (text : option string) (children : list element).

Definition tag (e : element) : string :=
  match e with Element t _ _ => t end.

Definition text (e : element) : option string :=
  match e with Element _ x _ => x end.

Definition children (e : element) : list element :=
  match e with Element _ _ cs => cs end.

(** The elements below [e] in document order, [e] itself left out: what
    [e.iter()] yields after [e]. *)
Fixpoint descendants (e : element) : list element :=
  match e with
  | Element _ _ cs =>
      (fix below (l : list element) : list element :=
         match l with
         | [] => []
         | c :: l' => c :: descendants c ++ below l'
         end) cs
  end.

Definition has_tag (t : string) (e : element) : bool := String.eqb (tag e) t.

(** [e.find('./t')]: the first child with tag [t]. *)
Definition find_child (t : string) (e : element) : option element :=
  List.find (has_tag t) (children e).

(** [e.find('.//t')]: the first element below [e] with tag [t]. *)
Definition find_desc (t : string) (e : element) : option element :=
  List.find (has_tag t) (descendants e).

(** A file as [ET.parse] sees it. *)
Inductive xml_file : Type :=
  | Malformed
  | WellFormed (root : element).

(** The local files, by path. *)
Abbreviation filesystem := (gmap string xml_file).

(** [ET.parse(file_path).getroot()] *)
Definition parse (fs : filesystem) (file_path : string) : result element :=
  match fs !! file_path with
  | None => Raise OSError
  | Some Malformed => Raise ParseError
  | Some (WellFormed root) => Ok root
  end.

End ET.
(* ===================================================================== *)
(** ** [tank_data_reader.py] *)
(* ===================================================================== *)

Module Reader.
Import Py ET.

Definition SFTP_PATH : string := "/DiskC/Datatransfers/Upload/Data".
Definition DATA_DIR : string := "/data/tank_data".
Definition MAX_FILES : Z := 10.

(** The defaults of the MQTT credentials. *)
Definition MQTT_USERNAME : string := "".
Definition MQTT_PASSWORD : string := "".

Definition EPOCH : string := "1970-01-01T00:00:00".

(** A transaction dict. *)
Abbreviation record := (gmap string value).

(** The keys of a transaction dict. *)
Definition FIELDS : list string :=
  ["TransactionNumber"; "TransactionStartDate"; "RawDate"; "DispenserNumber";
   "ArticleNumber"; "RawArticleNumber"; "TransactionQuantity"; "RawQuantity";
   "Kennzeichen"].

Section Extractor.
Context `{FM : FloatModel}.

(** [element.text] as a dict value. *)
Definition text_value (e : element) : value :=
  match text e with
  | Some s => VStr s
  | None => VNone
  end.

(** [try: body except ValueError: handler] *)
Definition except_ValueError {A} (body handler : result A) : result A :=
  match body with
  | Raise ValueError => handler
  | other => other
  end.

(** The start date: lines 157-177. *)
Definition extract_date (transaction : element) (transaction_data : record)
  : result record :=
  match find_child "TransactionStartDate" transaction with
  | Some transaction_start_date =>
      except_ValueError
        (date_obj ← strptime (text transaction_start_date) Fmt_Ymd_HMS;
         let formatted_date := strftime_dmY_HMS date_obj in
         Ok (<["RawDate" := VStr (isoformat date_obj)]>
               (<["TransactionStartDate" := VStr formatted_date]> transaction_data)))
        (let transaction_data :=
           <["TransactionStartDate" := text_value transaction_start_date]> transaction_data in
         except_ValueError
           (date_obj ← strptime (text transaction_start_date) Fmt_dmY_HMS;
            Ok (<["RawDate" := VStr (isoformat date_obj)]> transaction_data))
           (Ok (<["RawDate" := text_value transaction_start_date]> transaction_data)))
  | None =>
      Ok (<["RawDate" := VStr EPOCH]>
            (<["TransactionStartDate" := VStr "N/A"]> transaction_data))
  end.

(** The article number: lines 186-201. *)
Definition extract_article (transaction : element) (transaction_data : record)
  : record :=
  match find_desc "ArticleNumber" transaction with
  | Some article_number =>
      if decide (text article_number = Some "1") then
        <["RawArticleNumber" := VStr "1"]>
          (<["ArticleNumber" := VStr "AVGAS"]> transaction_data)
      else if decide (text article_number = Some "2") then
        <["RawArticleNumber" := VStr "2"]>
          (<["ArticleNumber" := VStr "MOGAS"]> transaction_data)
      else
        <["RawArticleNumber" := text_value article_number]>
          (<["ArticleNumber" := text_value article_number]> transaction_data)
  | None =>
      <["RawArticleNumber" := VStr "N/A"]>
        (<["ArticleNumber" := VStr "N/A"]> transaction_data)
  end.

(** The quantity: lines 203-213. *)
Definition extract_quantity (transaction : element) (transaction_data : record)
  : result record :=
  match find_child "TransactionQuantity" transaction with
  | Some transaction_quantity =>
      let transaction_data :=
        <["TransactionQuantity" := text_value transaction_quantity]> transaction_data in
      except_ValueError
        (x ← py_float (text transaction_quantity);
         Ok (<["RawQuantity" := VFloat x]> transaction_data))
        (Ok (<["RawQuantity" := VFloat float_zero]> transaction_data))
  | None =>
      Ok (<["RawQuantity" := VFloat float_zero]>
            (<["TransactionQuantity" := VStr "N/A"]> transaction_data))
  end.

(** A field that is the text of an element or ['N/A']. *)
Definition extract_text (key : string) (found : option element)
    (transaction_data : record) : record :=
  match found with
  | Some e => <[key := text_value e]> transaction_data
  | None => <[key := VStr "N/A"]> transaction_data
  end.

(** The body of [parse_xml_file] below the root lookup. *)
Definition extract_transaction (transaction : element) : result record :=
  let transaction_data : record := ∅ in
  let transaction_data :=
    extract_text "TransactionNumber"
      (find_child "TransactionNumber" transaction) transaction_data in
  transaction_data ← extract_date transaction transaction_data;
  let transaction_data :=
    extract_text "DispenserNumber"
      (find_desc "DispenserNumber" transaction) transaction_data in
  let transaction_data := extract_article transaction transaction_data in
  transaction_data ← extract_quantity transaction transaction_data;
  let transaction_data :=
    extract_text "Kennzeichen"
      (find_desc "AdditionalEntry" transaction) transaction_data in
  Ok transaction_data.

(** *** What the extractor stores, case by case *)

(** The display date and the sort key. *)
Definition date_fields (t : element) (disp key : string) : Prop :=
  match find_child "TransactionStartDate" t with
  | None => disp = "N/A" /\ key = EPOCH
  | Some e =>
      exists txt, text e = Some txt /\
        match strptime (Some txt) Fmt_Ymd_HMS, strptime (Some txt) Fmt_dmY_HMS with
        | Ok d, _ => disp = strftime_dmY_HMS d /\ key = isoformat d
        | Raise _, Ok d => disp = txt /\ key = isoformat d
        | Raise _, Raise _ => disp = txt /\ key = txt
        end
  end.

(** The display amount and the numeric amount. *)
Definition quantity_fields (t : element) (disp : string) (x : float) : Prop :=
  match find_child "TransactionQuantity" t with
  | None => disp = "N/A" /\ x = float_zero
  | Some e =>
      exists txt, text e = Some txt /\ disp = txt
                  /\ x = default float_zero (float_of_str txt)
  end.

(** The category label and the category code. *)
Definition article_fields (t : element) : value * value :=
  match find_desc "ArticleNumber" t with
  | None => (VStr "N/A", VStr "N/A")
  | Some e =>
      if decide (text e = Some "1") then (VStr "AVGAS", VStr "1")
      else if decide (text e = Some "2") then (VStr "MOGAS", VStr "2")
      else (text_value e, text_value e)
  end.

(** The element that lines 138-145 locate, if any. *)
Definition located_transaction (fs : filesystem) (file_path : string)
  : option element :=
  match parse fs file_path with
  | Ok root => find_desc "Transaction" root
  | Raise _ => None
  end.

(** [parse_xml_file(file_path)]: [None] is Python's [None]. *)
Definition parse_xml_file (fs : filesystem) (file_path : string) : option record :=
  try_except
    (root ← parse fs file_path;
     match find_desc "Transaction" root with
     | None => Ok None
     | Some transaction =>
         transaction_data ← extract_transaction transaction;
         Ok (Some transaction_data)
     end)
    (fun _ => None).

End Extractor.

(** *** The transport and the channel *)

(** An entry of a remote listing. *)
Record SFTPAttributes : Type := {
  filename : string;
  st_mtime : Z;
}.

(** An open SFTP session: what [listdir_attr] returns for a path and what
    [get] writes to the local path for a remote one, unless they raise,
    and whether closing the session, [sftp.close()] and then
    [ssh.close()], returns or raises.  A [get] that raises is taken to
    leave the local file as it was. *)
Record SFTPClient : Type := {
  listdir_attr : string -> result (list SFTPAttributes);
  get : string -> result xml_file;
  close : result unit;
}.

(** The calls made on the transport, in order; [Close] is the closing
    of the session in the [finally] block. *)
Inductive sftp_call : Type :=
  | Connect
  | ListDir (path : string)
  | Get (remote_file local_file : string)
  | Close.


Section Pipeline.
Context `{FM : FloatModel}.

Inductive topic : Type :=
  | TStatus
  | TLastUpdate
  | TTransactions
  | TTransaction (transaction_id : value)
  | TTotalQuantity
  | TArticleCounts.

(** The running value of [sum(...)], which starts from the int 0. *)
Inductive number : Type :=
  | Int0
  | Float (x : float).

Inductive payload : Type :=
  | PStatus (status : string)
  | PTimestamp (now : Z)
  | PJsonList (data_list : list record)
  | PJson (data : record)
  | PStr (total : number)
  | PJsonCounts (article_counts : list (value * nat)).

(** A connected MQTT client: [publish] raises where [accepts] is false;
    [loop_stop()] and [disconnect()] return or raise. *)
Record MqttClient : Type := {
  accepts : topic -> payload -> bool;
  loop_stop : result unit;
  disconnect : result unit;
}.

(** The rendered page: the time it shows and the six cells of each row. *)
Record html : Type := {
  generated_at : Z;
  rows : list (list value);
}.

(** The file [OUTPUT_FILE]: a page written in full, or what is left
    when the file was opened for writing, which empties it, and the
    page was not written to its end. *)
Inductive report : Type :=
  | Page (html_content : html)
  | Truncated.

(** What the process reads and writes: the downloaded files, the report
    ([None] before any was written), and the calls made so far on the
    transport and the publish calls made so far on the channel, each
    with whether it returned. *)
Record io : Type := {
  files : filesystem;
  output_file : option report;
  sftp_calls : list sftp_call;
  mqtt_calls : list (topic * payload * bool);
}.

(** *** Programs

    A function with effects is a program: it has returned or raised, or
    it performs one atomic action, which takes the state [s] to [f s],
    and goes on as [k s], the rest of the program for what it read in
    [s]. *)
Inductive IO (A : Type) : Type :=
  | Return (r : result A)
  | Act (f : io -> io) (k : io -> IO A).
Arguments Return {A} r.
Arguments Act {A} f k.

(** A program run to its end from a state: the effects made before a
    raise stay.  A program applied to a state is its run from there. *)
Fixpoint run {A} (m : IO A) (s : io) : result A * io :=
  match m with
  | Return r => (r, s)
  | Act f k => run (k s) (f s)
  end.

Fixpoint io_bind {A B} (k : A -> IO B) (m : IO A) : IO B :=
  match m with
  | Return (Ok a) => k a
  | Return (Raise e) => Return (Raise e)
  | Act f c => Act f (fun s => io_bind k (c s))
  end.

#[export] Instance IO_ret : MRet IO := fun _ a => Return (Ok a).
#[export] Instance IO_bind : MBind IO := fun _ _ k m => io_bind k m.

(** The outcome of a call that leaves the state as it is. *)
Definition io_lift {A} (r : result A) : IO A := Return r.

(** [try: m except Exception as e: h e] *)
Fixpoint io_try {A} (m : IO A) (h : exn -> IO A) : IO A :=
  match m with
  | Return (Ok a) => Return (Ok a)
  | Return (Raise e) => h e
  | Act f c => Act f (fun s => io_try (c s) h)
  end.

(** [try: m finally: f]: what [f] raises replaces the outcome of [m]. *)
Fixpoint io_finally {A} (m : IO A) (f : IO unit) : IO A :=
  match m with
  | Return r => io_bind (fun _ => Return r) f
  | Act g c => Act g (fun s => io_finally (c s) f)
  end.

(** A program that returns, with a value in [P], whatever the state it
    meets at each of its actions. *)
Inductive yields {A : Type} (P : A -> Prop) : IO A -> Prop :=
  | yields_now a : P a -> yields P (Return (Ok a))
  | yields_act f k : (forall s, yields P (k s)) -> yields P (Act f k).

Definition returns {A : Type} (m : IO A) : Prop := yields (fun _ => True) m.

(** The state after further calls on the transport. *)
Definition called (c : list sftp_call) (s : io) : io :=
  {| files := files s; output_file := output_file s;
     sftp_calls := sftp_calls s ++ c; mqtt_calls := mqtt_calls s |}.

Definition log_sftp (c : sftp_call) : IO unit :=
  Act (called [c]) (fun _ => Return (Ok tt)).

Definition write_file (local_file : string) (content : xml_file) : IO unit :=
  Act (fun s => {| files := <[local_file := content]> (files s);
                   output_file := output_file s;
                   sftp_calls := sftp_calls s; mqtt_calls := mqtt_calls s |})
      (fun _ => Return (Ok tt)).

Definition read_files : IO filesystem :=
  Act (fun s => s) (fun s => Return (Ok (files s))).

(** *** The surroundings of a run *)

(** The server: the session that [ssh.connect] and [open_sftp] give,
    unless they raise. *)
Record server : Type := {
  connect : result SFTPClient;
}.

(** The broker and the MQTT library: whether [mqtt.Client()],
    [username_pw_set] and [will_set] return or raise; the client that
    [connect] and [loop_start] leave connected, unless they raise; and
    the return code of the broker's answer, which the network thread
    hands to [on_connect], [None] when no answer arrives. *)
Record broker : Type := {
  new_client : result unit;
  username_pw_set : result unit;
  will_set : result unit;
  client_connect : result MqttClient;
  connack : option Z;
}.

(** The machine and the network: what
    [Path(directory).mkdir(parents=True, exist_ok=True)] does, the
    server, the broker, and whether [open(OUTPUT_FILE, 'w')] and then
    writing the page and closing the file return or raise. *)
Record world : Type := {
  mkdir : string -> result unit;
  sftp_server : server;
  mqtt_broker : broker;
  output_open : result unit;
  output_write : result unit;
}.

(** *** [ensure_directory_exists] *)

Definition ensure_directory_exists (w : world) (directory : string) : IO unit :=
  io_lift (mkdir w directory).

(** *** [connect_to_sftp] *)

Definition connect_to_sftp (srv : server) : IO (option SFTPClient) :=
  io_try
    (log_sftp Connect;;
     sftp ← io_lift (connect srv);
     mret (Some sftp))
    (fun _ => mret None).

(** *** [get_newest_files] *)

(** [l[:n]] *)
Definition slice_to {A} (n : Z) (l : list A) : list A :=
  if (0 <=? n)%Z then take (Z.to_nat n) l
  else take (length l - Z.to_nat (- n)) l.

Definition is_xml (f : SFTPAttributes) : bool :=
  endswith (lower (filename f)) ".xml".

Definition get_newest_files (sftp : SFTPClient) (path : string) (max_files : Z)
  : IO (list SFTPAttributes) :=
  io_try
    (log_sftp (ListDir path);;
     file_list ← io_lift (listdir_attr sftp path);
     let xml_files := List.filter is_xml file_list in
     let xml_files := sort_desc Z.ltb st_mtime xml_files in
     let newest_files := slice_to max_files xml_files in
     mret newest_files)
    (fun _ => mret []).

(** The listing ordered: the matching entries, newest first. *)
Definition ordered (file_list : list SFTPAttributes) : list SFTPAttributes :=
  sort_desc Z.ltb st_mtime (List.filter is_xml file_list).

(** *** [download_files] *)

Definition sftp_get (sftp : SFTPClient) (remote_file local_file : string) : IO unit :=
  log_sftp (Get remote_file local_file);;
  content ← io_lift (get sftp remote_file);
  write_file local_file content.

Fixpoint download_loop (sftp : SFTPClient) (remote_path : string)
    (files : list SFTPAttributes) (local_dir : string)
    (downloaded_files : list string) : IO (list string) :=
  match files with
  | [] => mret downloaded_files
  | file_attr :: files' =>
      let remote_file := remote_path +:+ "/" +:+ filename file_attr in
      let local_file := local_dir +:+ "/" +:+ filename file_attr in
      downloaded_files ←
        io_try
          (sftp_get sftp remote_file local_file;;
           mret (downloaded_files ++ [local_file]))
          (fun _ => mret downloaded_files);
      download_loop sftp remote_path files' local_dir downloaded_files
  end.

Definition download_files (sftp : SFTPClient) (remote_path : string)
    (files : list SFTPAttributes) (local_dir : string) : IO (list string) :=
  download_loop sftp remote_path files local_dir [].

(** *** [generate_html] *)

(** [if data:] on a dict. *)
Definition truthy (data : record) : bool := bool_decide (data ≠ ∅).

(** [data.get(key, 'N/A')] *)
Definition cell (data : record) (key : string) : value :=
  default (VStr "N/A") (data !! key).

Definition generate_html (data_list : list record) (now : Z) : html :=
  {| generated_at := now;
     rows := map (fun data =>
                    map (cell data)
                      ["TransactionNumber"; "TransactionStartDate"; "DispenserNumber";
                       "ArticleNumber"; "TransactionQuantity"; "Kennzeichen"])
                 (List.filter truthy data_list) |}.

(** *** [publish_to_mqtt] *)

(** The state after further publish calls. *)
Definition published (calls : list (topic * payload * bool)) (s : io) : io :=
  {| files := files s; output_file := output_file s;
     sftp_calls := sftp_calls s; mqtt_calls := mqtt_calls s ++ calls |}.

(** [client.publish(topic, payload)] *)
Definition publish (client : MqttClient) (t : topic) (p : payload) : IO unit :=
  let ok := accepts client t p in
  Act (published [(t, p, ok)])
      (fun _ => Return (if ok then Ok tt else Raise ValueError)).

(** The loop over the transactions: lines 481-486. *)
Fixpoint publish_each (client : MqttClient) (data_list : list record) : IO unit :=
  match data_list with
  | [] => mret tt
  | data :: rest =>
      (if truthy data then
         match data !! "TransactionNumber" with
         | Some transaction_id => publish client (TTransaction transaction_id) (PJson data)
         | None => mret tt
         end
       else mret tt);;
      publish_each client rest
  end.

(** One step of [sum]: the addend is [data.get('RawQuantity', 0)]. *)
Definition add_quantity (acc : number) (addend : option value) : result number :=
  match acc, addend with
  | Int0, None => Ok Int0
  | Int0, Some (VFloat x) => Ok (Float (float_add float_zero x))
  | Float a, None => Ok (Float (float_add a float_zero))
  | Float a, Some (VFloat x) => Ok (Float (float_add a x))
  | _, Some _ => Raise TypeError
  end.

Fixpoint sum_quantities (acc : number) (data_list : list record) : result number :=
  match data_list with
  | [] => Ok acc
  | data :: rest =>
      if truthy data then
        acc ← add_quantity acc (data !! "RawQuantity");
        sum_quantities acc rest
      else sum_quantities acc rest
  end.

(** [article_counts[article] += 1], or [= 1] for a new key. *)
Fixpoint count_article (article : value) (article_counts : list (value * nat))
  : list (value * nat) :=
  match article_counts with
  | [] => [(article, 1)]
  | (a, n) :: rest =>
      if decide (a = article) then (a, S n) :: rest
      else (a, n) :: count_article article rest
  end.

Fixpoint count_articles (data_list : list record) (article_counts : list (value * nat))
  : list (value * nat) :=
  match data_list with
  | [] => article_counts
  | data :: rest =>
      count_articles rest
        (if truthy data then
           match data !! "RawArticleNumber" with
           | Some article => count_article article article_counts
           | None => article_counts
           end
         else article_counts)
  end.

(** The five sub-steps inside the one [try]. *)
Definition publish_body (client : MqttClient) (data_list : list record) (now : Z)
  : IO unit :=
  publish client TLastUpdate (PTimestamp now);;
  publish client TTransactions (PJsonList data_list);;
  publish_each client data_list;;
  total_quantity ← io_lift (sum_quantities Int0 data_list);
  publish client TTotalQuantity (PStr total_quantity);;
  let article_counts := count_articles data_list [] in
  publish client TArticleCounts (PJsonCounts article_counts).

Definition publish_to_mqtt (client : option MqttClient) (data_list : list record)
    (now : Z) : IO unit :=
  match client with
  | None => mret tt
  | Some client =>
      io_try (publish_body client data_list now) (fun _ => mret tt)
  end.

(** *** The publish calls of a run, as a function of the client *)

(** The messages of the loop over the transactions. *)
Fixpoint each_messages (data_list : list record) : list (topic * payload) :=
  match data_list with
  | [] => []
  | data :: rest =>
      (if truthy data then
         match data !! "TransactionNumber" with
         | Some transaction_id => [(TTransaction transaction_id, PJson data)]
         | None => []
         end
       else [])
      ++ each_messages rest
  end.

(** The messages of the five sub-steps, in order; the last two are
    reached when the sum does not raise. *)
Definition schedule (data_list : list record) (now : Z) : list (topic * payload) :=
  [(TLastUpdate, PTimestamp now); (TTransactions, PJsonList data_list)]
  ++ each_messages data_list
  ++ match sum_quantities Int0 data_list with
     | Ok total_quantity =>
         [(TTotalQuantity, PStr total_quantity);
          (TArticleCounts, PJsonCounts (count_articles data_list []))]
     | Raise _ => []
     end.

(** The calls made for a list of messages: up to the first that the
    client rejects, that one included. *)
Fixpoint attempts (client : MqttClient) (messages : list (topic * payload))
  : list (topic * payload * bool) :=
  match messages with
  | [] => []
  | (t, p) :: rest =>
      if accepts client t p then (t, p, true) :: attempts client rest
      else [(t, p, false)]
  end.

Definition accepted (client : MqttClient) (m : topic * payload) : bool :=
  accepts client (fst m) (snd m).

(** The outcome of publishing a list of messages one after the other. *)
Definition outcome (client : MqttClient) (messages : list (topic * payload))
  : result unit :=
  if forallb (accepted client) messages then Ok tt else Raise ValueError.

(** *** [fetch_and_process_data] *)

(** The key of the sort: [x.get('RawDate', '1970-01-01T00:00:00')]. *)
Definition sort_key (x : record) : value := default (VStr EPOCH) (x !! "RawDate").

Definition is_str (v : value) : bool :=
  match v with VStr _ => true | _ => false end.

Definition str_of (v : value) : string :=
  match v with VStr s => s | _ => "" end.

(** [data_list.sort(key=..., reverse=True)]: keys that are all [str] are
    compared by code points; a list of two or more with a key that is
    [None] or a float next to a [str] raises [TypeError] (lists whose
    keys are all floats are not modelled: no record has such a key). *)
Definition sort_by_date (data_list : list record) : result (list record) :=
  if forallb (fun x => is_str (sort_key x)) data_list then
    Ok (sort_desc String.ltb (fun x => str_of (sort_key x)) data_list)
  else if (length data_list <=? 1)%nat then Ok data_list
  else Raise TypeError.

(** The loop over the downloaded files, lines 531-535: each file is
    read when its turn comes. *)
Fixpoint parse_loop (downloaded_files : list string) (data_list : list record)
  : IO (list record) :=
  match downloaded_files with
  | [] => mret data_list
  | file_path :: rest =>
      fs ← read_files;
      match parse_xml_file fs file_path with
      | Some data =>
          if truthy data then parse_loop rest (data_list ++ [data])
          else parse_loop rest data_list
      | None => parse_loop rest data_list
      end
  end.

(** The body of the [try]: lines 520-543. *)
Definition process_files (sftp : SFTPClient) : IO (option (list record)) :=
  newest_files ← get_newest_files sftp SFTP_PATH MAX_FILES;
  match newest_files with
  | [] => mret None
  | _ :: _ =>
      downloaded_files ← download_files sftp SFTP_PATH newest_files DATA_DIR;
      data_list ← parse_loop downloaded_files [];
      data_list ← io_lift (sort_by_date data_list);
      mret (Some data_list)
  end.

(** The [finally] block: lines 547-553. *)
Definition close_connections (sftp : SFTPClient) : IO unit :=
  log_sftp Close;;
  io_lift (close sftp).

Definition fetch_and_process_data (w : world) : IO (option (list record)) :=
  ensure_directory_exists w DATA_DIR;;
  sftp ← connect_to_sftp (sftp_server w);
  match sftp with
  | None => mret None
  | Some sftp =>
      io_finally
        (io_try (process_files sftp) (fun _ => mret None))
        (close_connections sftp)
  end.

(** *** What a fetch leaves, as functions of the server *)

Definition remote_of (remote_path : string) (f : SFTPAttributes) : string :=
  remote_path +:+ "/" +:+ filename f.

Definition local_of (local_dir : string) (f : SFTPAttributes) : string :=
  local_dir +:+ "/" +:+ filename f.

(** The local paths of the files whose download returned. *)
Fixpoint downloaded_paths (sftp : SFTPClient) (remote_path local_dir : string)
    (files : list SFTPAttributes) : list string :=
  match files with
  | [] => []
  | f :: rest =>
      match get sftp (remote_of remote_path f) with
      | Ok _ => local_of local_dir f :: downloaded_paths sftp remote_path local_dir rest
      | Raise _ => downloaded_paths sftp remote_path local_dir rest
      end
  end.

(** The local files after the downloads. *)
Fixpoint downloaded_fs (sftp : SFTPClient) (remote_path local_dir : string)
    (files : list SFTPAttributes) (fs : filesystem) : filesystem :=
  match files with
  | [] => fs
  | f :: rest =>
      downloaded_fs sftp remote_path local_dir rest
        match get sftp (remote_of remote_path f) with
        | Ok content => <[local_of local_dir f := content]> fs
        | Raise _ => fs
        end
  end.

Definition get_calls (remote_path local_dir : string) (files : list SFTPAttributes)
  : list sftp_call :=
  map (fun f => Get (remote_of remote_path f) (local_of local_dir f)) files.

(** The files that a session selects. *)
Definition selected_files (sftp : SFTPClient) : list SFTPAttributes :=
  match listdir_attr sftp SFTP_PATH with
  | Ok file_list => slice_to MAX_FILES (ordered file_list)
  | Raise _ => []
  end.

(** The records of the selected files in the order of extraction,
    before they are sorted: one for each downloaded file that the
    extractor does not give up on. *)
Definition extracted (sftp : SFTPClient) (fs : filesystem) : list record :=
  omap (parse_xml_file
          (downloaded_fs sftp SFTP_PATH DATA_DIR (selected_files sftp) fs))
    (downloaded_paths sftp SFTP_PATH DATA_DIR (selected_files sftp)).

(** The state after a fetch that downloaded [newest]. *)
Definition fetched (sftp : SFTPClient) (newest : list SFTPAttributes) (s : io) : io :=
  {| files := downloaded_fs sftp SFTP_PATH DATA_DIR newest (files s);
     output_file := output_file s;
     sftp_calls := sftp_calls s
                   ++ [Connect; ListDir SFTP_PATH]
                   ++ get_calls SFTP_PATH DATA_DIR newest ++ [Close];
     mqtt_calls := mqtt_calls s |}.

(** A record with a text under [RawDate]. *)
Definition dated (x : record) : Prop :=
  exists k, x !! "RawDate" = Some (VStr k).

(** The text of the sort key. *)
Definition raw_date (x : record) : string := str_of (sort_key x).

(** *** [connect_mqtt] *)

(** [if text:] on a [str]. *)
Definition nonempty (text : string) : bool := negb (String.eqb text "").

(** The callback [on_connect]: lines 438-444. *)
Definition on_connect (client : MqttClient) (rc : Z) : IO unit :=
  if (rc =? 0)%Z then publish client TStatus (PStatus "online") else mret tt.

(** The network thread that [loop_start] starts: when the answer of the
    broker arrives it calls [on_connect]; what the callback raises
    stays in that thread.  The call is placed where the thread is
    started. *)
Definition network_loop (client : MqttClient) (answer : option Z) : IO unit :=
  match answer with
  | Some rc => io_try (on_connect client rc) (fun _ => mret tt)
  | None => mret tt
  end.

Definition connect_mqtt (w : world) : IO (option MqttClient) :=
  let b := mqtt_broker w in
  io_lift (new_client b);;
  (if nonempty MQTT_USERNAME && nonempty MQTT_PASSWORD
   then io_lift (username_pw_set b)
   else mret tt);;
  io_lift (will_set b);;
  io_try
    (client ← io_lift (client_connect b);
     network_loop client (connack b);;
     mret (Some client))
    (fun _ => mret None).

(** *** [main] *)

(** The state with [content] in the file of the report. *)
Definition wrote (content : report) (s : io) : io :=
  {| files := files s; output_file := Some content;
     sftp_calls := sftp_calls s; mqtt_calls := mqtt_calls s |}.

Definition set_output (content : report) : IO unit :=
  Act (wrote content) (fun _ => Return (Ok tt)).

(** [with open(OUTPUT_FILE, 'w') as f: f.write(html_content)]: opening
    the file empties it. *)
Definition write_output (w : world) (html_content : html) : IO unit :=
  io_lift (output_open w);;
  set_output Truncated;;
  io_lift (output_write w);;
  set_output (Page html_content).

(** [now] stands for what [datetime.now()] gives during the run: the
    page and the timestamp that is published carry it. *)
Definition main (w : world) (now : Z) : IO unit :=
  mqtt_client ← connect_mqtt w;
  data_list ← fetch_and_process_data w;
  match data_list with
  | Some ((_ :: _) as data_list) =>
      let html_content := generate_html data_list now in
      write_output w html_content;;
      match mqtt_client with
      | Some client =>
          publish_to_mqtt mqtt_client data_list now;;
          io_lift (loop_stop client);;
          io_lift (disconnect client)
      | None => mret tt
      end
  | _ => mret tt
  end.

(** *** What a run of [main] leaves, as functions of the surroundings *)

(** The outcome of [connect_mqtt]. *)
Definition mqtt_setup (w : world) : result (option MqttClient) :=
  let b := mqtt_broker w in
  new_client b;;
  (if nonempty MQTT_USERNAME && nonempty MQTT_PASSWORD
   then username_pw_set b
   else Ok tt);;
  will_set b;;
  Ok match client_connect b with
     | Ok client => Some client
     | Raise _ => None
     end.

(** The state after [connect_mqtt]. *)
Definition greeted (w : world) (s : io) : io :=
  match mqtt_setup w, connack (mqtt_broker w) with
  | Ok (Some client), Some rc =>
      if (rc =? 0)%Z
      then published [(TStatus, PStatus "online",
                       accepts client TStatus (PStatus "online"))] s
      else s
  | _, _ => s
  end.

(** The outcome of [write_output] and the report it leaves. *)
Definition written (w : world) (html_content : html) (s : io) : result unit * io :=
  match output_open w with
  | Raise e => (Raise e, s)
  | Ok _ =>
      match output_write w with
      | Raise e => (Raise e, wrote Truncated s)
      | Ok _ => (Ok tt, wrote (Page html_content) s)
      end
  end.

(** A world in which none of the calls outside a [try] raises: the
    set-up of the MQTT client, the making of [DATA_DIR], the closing of
    the session, the writing of the report and the shutdown of the
    client. *)
Definition steady (w : world) : Prop :=
  new_client (mqtt_broker w) = Ok tt
  /\ will_set (mqtt_broker w) = Ok tt
  /\ mkdir w DATA_DIR = Ok tt
  /\ (forall sftp, connect (sftp_server w) = Ok sftp -> close sftp = Ok tt)
  /\ output_open w = Ok tt
  /\ output_write w = Ok tt
  /\ (forall client, client_connect (mqtt_broker w) = Ok client ->
        loop_stop client = Ok tt /\ disconnect client = Ok tt).

End Pipeline.

Arguments Return {FM A} r.
Arguments Act {FM A} f k.
Arguments yields_now {FM A P} a _.
Arguments yields_act {FM A P} f k _.

Coercion run : IO >-> Funclass.

End Reader.

(* ===================================================================== *)
(** ** [web_server.py] *)
(* ===================================================================== *)

Module WebServer.
Import Py ET Reader.

Definition UPDATE_INTERVAL : Z := 300.

Section Server.
Context `{FM : FloatModel}.

(** The state of the process: the global [last_update_time] and what
    the reader reads and writes. *)
Record app : Type := {
  last_update_time : Z;
  disk : io;
}.

(** The two messages of [update_data]. *)
Inductive message : Type :=
  | DataUpdated                (* "Data updated successfully" *)
  | ErrorUpdating (e : exn).   (* f"Error updating data: {e}" *)

(** [update_data] once it holds [data_lock]: [now] is the clock during
    [main], [t] is [time.time()] after it. *)
Definition update_data (w : world) (now t : Z) (a : app) : (bool * message) * app :=
  match main w now (disk a) with
  | (Ok _, d) =>
      ((true, DataUpdated), {| last_update_time := t; disk := d |})
  | (Raise e, d) =>
      ((false, ErrorUpdating e),
       {| last_update_time := last_update_time a; disk := d |})
  end.

(** [scheduled_update]: whether the loop calls [update_data] at [now]. *)
Definition update_due (now : Z) (a : app) : bool :=
  (UPDATE_INTERVAL <=? now - last_update_time a)%Z.

(** The JSON answers of [/api/tankdata], without their time stamps. *)
Inductive records_response : Type :=
  | Data (data : list record) (count : nat)
  | NoData                       (* 'No data available' *)
  | ErrorRetrieving (e : exn).

(** The answer for an outcome of [fetch_and_process_data]: lines
    149-168. *)
Definition records_of (r : result (option (list record))) : records_response :=
  match r with
  | Ok (Some ((_ :: _) as data_list)) => Data data_list (length data_list)
  | Ok _ => NoData
  | Raise e => ErrorRetrieving e
  end.

Definition api_tankdata (w : world) (a : app) : records_response * app :=
  match fetch_and_process_data w (disk a) with
  | (r, d) => (records_of r, {| last_update_time := last_update_time a; disk := d |})
  end.

(** *** The handlers as threads

    Flask serves each request on a thread of its own, and the scheduler
    runs on another.  A thread is at a point of its handler; a step
    moves one thread by one atomic action of the program it runs, so
    the actions of the threads interleave on the state that they
    share.  Every call of an action returns: a call that blocks for
    good is not modelled. *)
Inductive handler : Type :=
  | UpdateData      (* [/reload] and the scheduler *)
  | ApiTankdata.    (* [/api/tankdata] *)

Inductive response : Type :=
  | Reloaded (success : bool) (msg : message)
  | Records (r : records_response).

(** [InMain p]: [data_lock] is held and [p] is what is left of
    [main()], which has ended when [p] is a [Return].  [InFetch p]: [p]
    is what is left of [fetch_and_process_data()], no lock held. *)
Inductive pc : Type :=
  | Called
  | InMain (p : IO unit)
  | InFetch (p : IO (option (list record)))
  | Returned (r : response).

(** [cycles] and [updates] are history variables: the runs of [main]
    started under the lock and the assignments to [last_update_time]. *)
Record system : Type := {
  state : app;
  data_lock : bool;
  threads : list (handler * pc);
  cycles : nat;
  updates : nat;
}.

Definition initial (a : app) (handlers : list handler) : system :=
  {| state := a; data_lock := false;
     threads := map (fun h => (h, Called)) handlers;
     cycles := 0; updates := 0 |}.

(** The state of the process after an action [f] of the reader. *)
Definition acted (f : io -> io) (a : app) : app :=
  {| last_update_time := last_update_time a; disk := f (disk a) |}.

Inductive step (w : world) : system -> system -> Prop :=
  | step_acquire s i now :
      threads s !! i = Some (UpdateData, Called) ->
      data_lock s = false ->
      step w s {| state := state s; data_lock := true;
                  threads := <[i := (UpdateData, InMain (main w now))]> (threads s);
                  cycles := S (cycles s); updates := updates s |}
  | step_main s i f k :
      threads s !! i = Some (UpdateData, InMain (Act f k)) ->
      step w s {| state := acted f (state s);
                  data_lock := data_lock s;
                  threads := <[i := (UpdateData, InMain (k (disk (state s))))]> (threads s);
                  cycles := cycles s; updates := updates s |}
  | step_updated s i t u :
      threads s !! i = Some (UpdateData, InMain (Return (Ok u))) ->
      step w s {| state := {| last_update_time := t; disk := disk (state s) |};
                  data_lock := false;
                  threads := <[i := (UpdateData, Returned (Reloaded true DataUpdated))]>
                               (threads s);
                  cycles := cycles s; updates := S (updates s) |}
  | step_failed s i e :
      threads s !! i = Some (UpdateData, InMain (Return (Raise e))) ->
      step w s {| state := state s;
                  data_lock := false;
                  threads := <[i := (UpdateData, Returned (Reloaded false (ErrorUpdating e)))]>
                               (threads s);
                  cycles := cycles s; updates := updates s |}
  | step_api_call s i :
      threads s !! i = Some (ApiTankdata, Called) ->
      step w s {| state := state s; data_lock := data_lock s;
                  threads := <[i := (ApiTankdata, InFetch (fetch_and_process_data w))]>
                               (threads s);
                  cycles := cycles s; updates := updates s |}
  | step_api_fetch s i f k :
      threads s !! i = Some (ApiTankdata, InFetch (Act f k)) ->
      step w s {| state := acted f (state s);
                  data_lock := data_lock s;
                  threads := <[i := (ApiTankdata, InFetch (k (disk (state s))))]> (threads s);
                  cycles := cycles s; updates := updates s |}
  | step_api_return s i r :
      threads s !! i = Some (ApiTankdata, InFetch (Return r)) ->
      step w s {| state := state s; data_lock := data_lock s;
                  threads := <[i := (ApiTankdata, Returned (Records (records_of r)))]>
                               (threads s);
                  cycles := cycles s; updates := updates s |}.

(** A thread inside the block of [with data_lock:]. *)
Definition in_cycle (t : handler * pc) : bool :=
  match t with
  | (UpdateData, InMain _) => true
  | _ => false
  end.

Definition has_returned (t : handler * pc) : bool :=
  match t with
  | (_, Returned _) => true
  | _ => false
  end.

Definition reloaded_ok (t : handler * pc) : bool :=
  match t with
  | (UpdateData, Returned (Reloaded true _)) => true
  | _ => false
  end.

(** A call of [update_data] that took the lock at some time. *)
Definition past_entry (t : handler * pc) : bool :=
  match t with
  | (UpdateData, Called) => false
  | (UpdateData, _) => true
  | _ => false
  end.

(** A call of [update_data] whose [main] does not raise. *)
Definition healthy (t : handler * pc) : Prop :=
  match t with
  | (UpdateData, Called) => True
  | (UpdateData, InMain p) => returns p
  | (UpdateData, Returned (Reloaded true _)) => True
  | (UpdateData, _) => False
  | (ApiTankdata, _) => True
  end.

(** The system after the call of thread [i] to [update_data] ran from
    its entry to its return, [main] at clock [now] and the assignment
    at [t]. *)
Definition after_update (w : world) (now t : Z) (i : nat) (s : system) : system :=
  let result := update_data w now t (state s) in
  let success := fst (fst result) in
  {| state := snd result;
     data_lock := false;
     threads := <[i := (UpdateData, Returned (Reloaded success (snd (fst result))))]>
                  (threads s);
     cycles := S (cycles s);
     updates := if success then S (updates s) else updates s |}.

(** The system after the call of thread [i] to [/api/tankdata] ran
    from its entry to its return. *)
Definition after_read (w : world) (i : nat) (s : system) : system :=
  let result := api_tankdata w (state s) in
  {| state := snd result;
     data_lock := data_lock s;
     threads := <[i := (ApiTankdata, Returned (Records (fst result)))]> (threads s);
     cycles := cycles s;
     updates := updates s |}.

(** The points that each handler passes through. *)
Definition placed (t : handler * pc) : bool :=
  match t with
  | (UpdateData, Called) | (UpdateData, InMain _)
  | (UpdateData, Returned (Reloaded _ _)) => true
  | (ApiTankdata, Called) | (ApiTankdata, InFetch _)
  | (ApiTankdata, Returned (Records _)) => true
  | _ => false
  end.

Definition is_update_data (h : handler) : bool :=
  match h with UpdateData => true | ApiTankdata => false end.

Definition b2n (b : bool) : nat := if b then 1 else 0.

(** What holds in every state that the threads reach. *)
Record invariant (handlers : list handler) (s : system) : Prop := {
  inv_handlers : fst <$> threads s = handlers;
  inv_lock : length (List.filter in_cycle (threads s)) = b2n (data_lock s);
  inv_cycles : cycles s = length (List.filter past_entry (threads s));
  inv_updates : updates s = length (List.filter reloaded_ok (threads s));
}.

End Server.

End WebServer.
(* ===================================================================== *)
(** ** Sample inputs *)
(* ===================================================================== *)

Module Examples.
Import Py ET Reader WebServer.

(** Plain decimals ([12.5], [-3], [+0.25]) read as exact rationals: a
    stand-in for [float] on which the samples below run. *)
Fixpoint fraction (seen : bool) (acc : Z) (scale : positive) (s : list ascii)
  : option Q :=
  match s with
  | [] => if seen then Some (Qmake acc scale) else None
  | c :: r =>
      if is_digit c then fraction true (10 * acc + digit_val c)%Z (10 * scale)%positive r
      else None
  end.

Fixpoint unsigned_decimal (seen : bool) (acc : Z) (s : list ascii) : option Q :=
  match s with
  | [] => if seen then Some (inject_Z acc) else None
  | c :: r =>
      if is_digit c then unsigned_decimal true (10 * acc + digit_val c)%Z r
      else if Ascii.eqb c "." then fraction seen acc 1 r
      else None
  end.

Definition decimal_of_str (s : string) : option Q :=
  match list_ascii_of_string s with
  | c :: r =>
      if Ascii.eqb c "-" then Qopp <$> unsigned_decimal false 0 r
      else if Ascii.eqb c "+" then unsigned_decimal false 0 r
      else unsigned_decimal false 0 (c :: r)
  | [] => None
  end.

#[export] Instance Q_eq_dec : EqDecision Q.
Proof. solve_decision. Defined.

#[export] Instance DecimalFloat : FloatModel := {|
  float := Q;
  float_zero := 0%Q;
  float_of_str := decimal_of_str;
  float_add := Qplus;
|}.

Definition leaf (t x : string) : element := Element t (Some x) [].

(** A complete document. *)
Definition doc_full : element :=
  Element "Envelope" None
    [Element "Body" None
       [Element "Transaction" None
          [leaf "TransactionNumber" "4711";
           leaf "TransactionStartDate" "2024-03-05 10:11:12";
           Element "DispenserData" None [leaf "DispenserNumber" "2"];
           Element "ArticleData" None [leaf "ArticleNumber" "7"];
           leaf "TransactionQuantity" "12.5";
           Element "MediaData" None [leaf "AdditionalEntry" "D-EABC"]]]].

(** A document whose date is in neither format. *)
Definition doc_odd_date : element :=
  Element "Envelope" None
    [Element "Transaction" None
       [leaf "TransactionNumber" "4712";
        leaf "TransactionStartDate" "5 March 2024";
        leaf "ArticleNumber" "1"]].


(** A document of the year 999. *)
Definition doc_year_999 : element :=
  Element "Envelope" None
    [Element "Transaction" None
       [leaf "TransactionNumber" "999";
        leaf "TransactionStartDate" "0999-03-05 10:11:12"]].

(** The no-break space U+00A0 and the Arabic-Indic digits of 2024, in
    UTF-8. *)
Definition nbsp : string := String "194" (String "160" "").

Definition arabic_2024 : string :=
  String "217" (String "162" (String "217" (String "160"
    (String "217" (String "162" (String "217" (String "164" ""))))))).

(** A document whose date is written with them. *)
Definition doc_unicode_date : element :=
  Element "Envelope" None
    [Element "Transaction" None
       [leaf "TransactionNumber" "4713";
        leaf "TransactionStartDate" (arabic_2024 +:+ "-03-05" +:+ nbsp +:+ "10:11:12")]].

(** A document with [<TransactionNumber/>]. *)
Definition doc_empty_number : element :=
  Element "Envelope" None
    [Element "Transaction" None
       [Element "TransactionNumber" None [];
        leaf "TransactionStartDate" "05.03.2024 10:11:12";
        leaf "ArticleNumber" "2"]].

Definition one_file (root : element) : filesystem := {["t.xml" := WellFormed root]}.

(** The record extracted from a document, when there is one. *)
Definition record_of (root : element) : record :=
  default ∅ (parse_xml_file (one_file root) "t.xml").

Definition disk0 : io :=
  {| files := ∅; output_file := None; sftp_calls := []; mqtt_calls := [] |}.

(** A session over a listing and the documents of the server. *)
Definition open_session (listing : result (list SFTPAttributes))
    (content : string -> result xml_file) (closing : result unit) : SFTPClient :=
  {| listdir_attr := fun _ => listing; get := content; close := closing |}.

(** Servers. *)
Definition unreachable : server := {| connect := Raise TransportError |}.

Definition serving (listing : result (list SFTPAttributes))
    (content : string -> result xml_file) : server :=
  {| connect := Ok (open_session listing content (Ok tt)) |}.

Definition session (listing : result (list SFTPAttributes)) : SFTPClient :=
  open_session listing (fun _ => Raise OSError) (Ok tt).

Definition attr (name : string) (mtime : Z) : SFTPAttributes :=
  {| filename := name; st_mtime := mtime |}.

(** Twelve matching files with distinct modification times. *)
Definition twelve : list SFTPAttributes :=
  [attr "a.xml" 50; attr "b.XML" 10; attr "c.xml" 120; attr "d.xml" 70;
   attr "e.Xml" 30; attr "f.xml" 110; attr "g.xml" 20; attr "h.xml" 90;
   attr "i.xml" 60; attr "j.xml" 100; attr "k.xml" 40; attr "l.xml" 80].

(** A listing without a matching file. *)
Definition no_match : list SFTPAttributes :=
  [attr "readme.txt" 5; attr "xml" 7].

(** A server with two documents. *)
Definition two_docs : server :=
  serving (Ok [attr "old.xml" 10; attr "new.xml" 20])
    (fun remote_file =>
       if String.eqb remote_file (SFTP_PATH +:+ "/old.xml") then Ok (WellFormed doc_odd_date)
       else if String.eqb remote_file (SFTP_PATH +:+ "/new.xml") then Ok (WellFormed doc_full)
       else Raise OSError).


(** The server with two documents, whose session does not close. *)
Definition two_docs_stuck : server :=
  {| connect :=
       Ok (open_session (Ok [attr "old.xml" 10; attr "new.xml" 20])
             (fun remote_file =>
                if String.eqb remote_file (SFTP_PATH +:+ "/old.xml")
                then Ok (WellFormed doc_odd_date)
                else if String.eqb remote_file (SFTP_PATH +:+ "/new.xml")
                then Ok (WellFormed doc_full)
                else Raise OSError)
             (Raise TransportError)) |}.

(** Clients. *)
Definition accept_all : MqttClient :=
  {| accepts := fun _ _ => true; loop_stop := Ok tt; disconnect := Ok tt |}.

Definition reject_transactions : MqttClient :=
  {| accepts := fun t _ => match t with TTransactions => false | _ => true end;
     loop_stop := Ok tt; disconnect := Ok tt |}.

(** A broker that connects [client]; [answer] is the return code that
    reaches [on_connect] during the run, if any. *)
Definition connecting (client : MqttClient) (answer : option Z) : broker :=
  {| new_client := Ok tt; username_pw_set := Ok tt; will_set := Ok tt;
     client_connect := Ok client; connack := answer |}.

(** A world in which nothing but the server can fail; the answer of
    the broker arrives after the run. *)
Definition plain_world (srv : server) : world :=
  {| mkdir := fun _ => Ok tt; sftp_server := srv;
     mqtt_broker := connecting accept_all None;
     output_open := Ok tt; output_write := Ok tt |}.

(** The same with a broker that has answered when the network thread
    starts. *)
Definition answering_world (srv : server) : world :=
  {| mkdir := fun _ => Ok tt; sftp_server := srv;
     mqtt_broker := connecting accept_all (Some 0%Z);
     output_open := Ok tt; output_write := Ok tt |}.

(** A world whose report cannot be opened for writing. *)
Definition read_only_world (srv : server) : world :=
  {| mkdir := fun _ => Ok tt; sftp_server := srv;
     mqtt_broker := connecting accept_all None;
     output_open := Raise OSError; output_write := Ok tt |}.

(** A world whose report is opened and then cannot be written. *)
Definition full_disk_world (srv : server) : world :=
  {| mkdir := fun _ => Ok tt; sftp_server := srv;
     mqtt_broker := connecting accept_all None;
     output_open := Ok tt; output_write := Raise OSError |}.

(** A world in which [DATA_DIR] cannot be made. *)
Definition no_data_dir_world (srv : server) : world :=
  {| mkdir := fun _ => Raise OSError; sftp_server := srv;
     mqtt_broker := connecting accept_all None;
     output_open := Ok tt; output_write := Ok tt |}.

(** A process that refreshed at time 100 and wrote a report then. *)
Definition report0 : html :=
  {| generated_at := 100; rows := [[VStr "4711"; VStr "05.03.2024 10:11:12";
                                    VStr "2"; VStr "7"; VStr "12.5"; VStr "D-EABC"]] |}.

Definition app0 : app :=
  {| last_update_time := 100;
     disk := {| files := ∅; output_file := Some (Page report0);
                sftp_calls := []; mqtt_calls := [] |} |}.

(** The records that a fetch from a server returns. *)
Definition fetched_records (srv : server) : list record :=
  match fst (fetch_and_process_data (plain_world srv) disk0) with
  | Ok (Some data_list) => data_list
  | _ => []
  end.

Definition sample_record : record :=
  <["RawQuantity" := VFloat (Qmake 25 2)]>
    (<["RawArticleNumber" := VStr "1"]> (<["TransactionNumber" := VStr "4711"]> ∅)).

End Examples.
(* ===================================================================== *)
(** ** Facts about the library calls *)
(* ===================================================================== *)

Section PyFacts.
Import Py.
Local Open Scope Z_scope.

Lemma digit_char_val (n : Z) :
  0 <= n < 10 -> is_digit (digit_char n) = true /\ digit_val (digit_char n) = n.
Proof.
  intros Hn. unfold is_digit, digit_val, digit_char, char_between.
  rewrite nat_ascii_embedding by lia. split.
  - apply andb_true_intro; split; apply Nat.leb_le; lia.
  - lia.
Qed.

Lemma num2_digits (a b : Z) :
  0 <= a < 10 -> 0 <= b < 10 ->
  num2 (digit_char a) (digit_char b) = Some (10 * a + b).
Proof.
  intros Ha Hb. unfold num2.
  destruct (digit_char_val a Ha) as [-> ->].
  destruct (digit_char_val b Hb) as [-> ->]. reflexivity.
Qed.

Lemma digit_bounds (n k : Z) : 0 <= n -> 0 < k -> 0 <= n / k mod 10 < 10.
Proof. intros. apply Z.mod_pos_bound. lia. Qed.

(** Reading an ISO timestamp back gives the fields it was written from. *)
Lemma iso_fields_isoformat (d : datetime) :
  0 <= year d < 10000 -> 0 <= month d < 100 -> 0 <= day d < 100 ->
  0 <= hour d < 100 -> 0 <= minute d < 100 -> 0 <= second d < 100 ->
  iso_fields (list_ascii_of_string (isoformat d)) = Some d.
Proof.
  intros Hy Hm Hd Hh Hmi Hs. destruct d as [y m dd h mi sc].
  cbn [year month day hour minute second] in *.
  unfold isoformat. rewrite list_ascii_of_string_of_list_ascii.
  unfold pad4, pad2, sep; cbn [app year month day hour minute second].
  unfold iso_fields. cbn [Ascii.eqb Bool.eqb andb].
  assert (D1 : forall n, 0 <= n -> 0 <= n mod 10 < 10)
    by (intros; apply Z.mod_pos_bound; lia).
  rewrite !num2_digits by (first [apply digit_bounds; lia | apply D1; lia]).
  cbn [mbind option_bind].
  f_equal. f_equal; Z.div_mod_to_equations; lia.
Qed.

Lemma valid_datetime_bounds (d : datetime) :
  valid_datetime d = true ->
  1 <= year d <= 9999 /\ 1 <= month d <= 12
  /\ 1 <= day d <= days_in_month (year d) (month d)
  /\ 0 <= hour d <= 23 /\ 0 <= minute d <= 59 /\ 0 <= second d <= 59.
Proof.
  unfold valid_datetime. rewrite !andb_true_iff, !Z.leb_le. lia.
Qed.

Lemma days_in_month_le (y m : Z) : days_in_month y m <= 31.
Proof. unfold days_in_month. repeat case_match; lia. Qed.

Lemma isoformat_is_iso8601 (d : datetime) :
  valid_datetime d = true -> is_iso8601 (isoformat d) = true.
Proof.
  intros H. apply valid_datetime_bounds in H.
  pose proof (days_in_month_le (year d) (month d)).
  unfold is_iso8601. rewrite iso_fields_isoformat by lia.
  rewrite !andb_true_iff, !Z.leb_le. lia.
Qed.

Lemma strptime_valid text f d :
  strptime text f = Ok d -> valid_datetime d = true.
Proof.
  unfold strptime. destruct text as [s|]; [|discriminate].
  destruct (format_regex f _) as [|[d' rest] ?]; [discriminate|].
  destruct rest; [|discriminate].
  destruct (valid_datetime d') eqn:E; [|discriminate].
  intros [= <-]. exact E.
Qed.

(** **** The order of texts *)







Lemma Z_ltb_asym (a b : Z) : (a <? b) = true -> (b <? a) = false.
Proof. rewrite Z.ltb_lt, Z.ltb_ge. lia. Qed.

Lemma Z_ltb_negtrans (a b c : Z) :
  (a <? b) = false -> (b <? c) = false -> (a <? c) = false.
Proof. rewrite !Z.ltb_ge. lia. Qed.

End PyFacts.

(** **** The stable sort *)

Section SortFacts.
Import Py.
Context {A K : Type} (ltb : K -> K -> bool) (key : A -> K).
Hypothesis ltb_asym : forall a b, ltb a b = true -> ltb b a = false.
Hypothesis ltb_negtrans :
  forall a b c, ltb a b = false -> ltb b c = false -> ltb a c = false.

Local Abbreviation desc := (desc ltb key).

Lemma insert_desc_perm (x : A) (l : list A) :
  Permutation (x :: l) (insert_desc ltb key x l).
Proof.
  induction l as [|y l IH]; simpl; [reflexivity|].
  destruct (ltb (key x) (key y)); [|reflexivity].
  rewrite perm_swap. apply perm_skip. exact IH.
Qed.

Lemma sort_desc_perm (l : list A) : Permutation l (sort_desc ltb key l).
Proof.
  induction l as [|x l IH]; simpl; [reflexivity|].
  rewrite <- insert_desc_perm. apply perm_skip. exact IH.
Qed.

Lemma insert_desc_sorted (x : A) (l : list A) :
  StronglySorted desc l -> StronglySorted desc (insert_desc ltb key x l).
Proof.
  induction l as [|y l IH]; simpl; intros Hs.
  - repeat constructor.
  - apply StronglySorted_inv in Hs as [Hl Hy].
    destruct (ltb (key x) (key y)) eqn:E.
    + constructor; [auto|].
      rewrite <- insert_desc_perm. constructor; [|exact Hy].
      apply ltb_asym. exact E.
    + constructor; [constructor; assumption|].
      constructor; [exact E|].
      eapply Forall_impl; [exact Hy|].
      intros z Hz. eapply ltb_negtrans; eassumption.
Qed.

Lemma sort_desc_sorted (l : list A) : StronglySorted desc (sort_desc ltb key l).
Proof.
  induction l as [|x l IH]; simpl; [constructor|].
  apply insert_desc_sorted. exact IH.
Qed.

(** Stability: the elements of a class of equal keys come out in the
    order in which they went in. *)
Lemma insert_desc_stable (same : A -> bool) (x : A) (l : list A) :
  (forall a b, same a = true -> same b = true -> ltb (key a) (key b) = false) ->
  List.filter same (insert_desc ltb key x l) = List.filter same (x :: l).
Proof.
  intros Hsame. induction l as [|y l IH]; [reflexivity|].
  simpl. destruct (ltb (key x) (key y)) eqn:E; [|reflexivity].
  simpl in *. rewrite IH.
  destruct (same x) eqn:Ex, (same y) eqn:Ey; try reflexivity.
  rewrite (Hsame x y Ex Ey) in E. discriminate.
Qed.

Lemma sort_desc_stable (same : A -> bool) (l : list A) :
  (forall a b, same a = true -> same b = true -> ltb (key a) (key b) = false) ->
  List.filter same (sort_desc ltb key l) = List.filter same l.
Proof.
  intros Hsame. induction l as [|x l IH]; [reflexivity|].
  simpl. rewrite insert_desc_stable by exact Hsame.
  simpl. rewrite IH. reflexivity.
Qed.

Lemma sort_desc_length (l : list A) : length (sort_desc ltb key l) = length l.
Proof. symmetry. apply Permutation_length, sort_desc_perm. Qed.

End SortFacts.

(** **** The order of ISO timestamps *)

Section IsoOrder.
Import Py.
Local Open Scope Z_scope.







End IsoOrder.

(* ===================================================================== *)
(** ** The record extractor *)
(* ===================================================================== *)

Section ExtractorFacts.
Import Py ET Reader.
Context `{FM : FloatModel}.

Local Arguments strptime : simpl never.

Ltac lookups :=
  repeat first
    [ rewrite lookup_insert_eq
    | rewrite lookup_insert_ne by discriminate
    | rewrite lookup_empty ].

(** [strptime] on a text returns or raises [ValueError]. *)
Lemma strptime_text (txt : string) (f : format) :
  (exists d, strptime (Some txt) f = Ok d) \/ strptime (Some txt) f = Raise ValueError.
Proof.
  unfold strptime. destruct (format_regex f _) as [|[d rest] ?]; [by right|].
  destruct rest; [|by right]. destruct (valid_datetime d); eauto.
Qed.

Lemma parse_xml_file_inv fs file_path (r : record) :
  parse_xml_file fs file_path = Some r ->
  exists t, located_transaction fs file_path = Some t
            /\ extract_transaction t = Ok r.
Proof.
  unfold parse_xml_file, located_transaction.
  destruct (parse fs file_path) as [root|e]; simpl; [|discriminate].
  destruct (find_desc "Transaction" root) as [t|]; simpl; [|discriminate].
  destruct (extract_transaction t) as [r'|e] eqn:E; simpl; [|discriminate].
  intros [= ->]. eauto.
Qed.

Lemma extract_text_insert key found (td : record) :
  extract_text key found td
  = <[key := match found with Some e => text_value e | None => VStr "N/A" end]> td.
Proof. destruct found; reflexivity. Qed.

Lemma extract_date_inv t (td td' : record) :
  extract_date t td = Ok td' ->
  exists disp key,
    td' = <["RawDate" := VStr key]> (<["TransactionStartDate" := VStr disp]> td)
    /\ date_fields t disp key.
Proof.
  unfold extract_date, date_fields.
  destruct (find_child "TransactionStartDate" t) as [e|].
  - unfold text_value. destruct (text e) as [txt|]; [|discriminate].
    destruct (strptime_text txt Fmt_Ymd_HMS) as [[d E1]|E1]; rewrite E1; simpl.
    { intros [= <-]. do 2 eexists. split; [reflexivity|].
      exists txt. rewrite E1. auto. }
    destruct (strptime_text txt Fmt_dmY_HMS) as [[d E2]|E2]; rewrite E2; simpl;
      intros [= <-]; do 2 eexists; (split; [reflexivity|]);
      exists txt; rewrite E1, E2; auto.
  - intros [= <-]. eauto.
Qed.

Lemma extract_quantity_inv t (td td' : record) :
  extract_quantity t td = Ok td' ->
  exists disp x,
    td' = <["RawQuantity" := VFloat x]> (<["TransactionQuantity" := VStr disp]> td)
    /\ quantity_fields t disp x.
Proof.
  unfold extract_quantity, quantity_fields.
  destruct (find_child "TransactionQuantity" t) as [e|].
  - unfold text_value, py_float. destruct (text e) as [txt|]; [|discriminate].
    destruct (float_of_str txt) as [x|] eqn:E; simpl; intros [= <-];
      do 2 eexists; (split; [reflexivity|]); exists txt; rewrite E; auto.
  - intros [= <-]. eauto.
Qed.

Lemma extract_article_insert t (td : record) :
  extract_article t td
  = <["RawArticleNumber" := snd (article_fields t)]>
      (<["ArticleNumber" := fst (article_fields t)]> td).
Proof.
  unfold extract_article, article_fields.
  destruct (find_desc "ArticleNumber" t); [|reflexivity].
  repeat case_decide; reflexivity.
Qed.

(** An extracted record, key by key. *)
Lemma extract_transaction_inv t (r : record) :
  extract_transaction t = Ok r ->
  exists disp key qdisp x,
    date_fields t disp key /\ quantity_fields t qdisp x
    /\ r = <["Kennzeichen" :=
               match find_desc "AdditionalEntry" t with
               | Some e => text_value e | None => VStr "N/A" end]>
           (<["RawQuantity" := VFloat x]>
           (<["TransactionQuantity" := VStr qdisp]>
           (<["RawArticleNumber" := snd (article_fields t)]>
           (<["ArticleNumber" := fst (article_fields t)]>
           (<["DispenserNumber" :=
               match find_desc "DispenserNumber" t with
               | Some e => text_value e | None => VStr "N/A" end]>
           (<["RawDate" := VStr key]>
           (<["TransactionStartDate" := VStr disp]>
           (<["TransactionNumber" :=
               match find_child "TransactionNumber" t with
               | Some e => text_value e | None => VStr "N/A" end]> ∅)))))))).
Proof.
  unfold extract_transaction.
  destruct (extract_date t _) as [td1|] eqn:Hd; simpl; [|discriminate].
  destruct (extract_quantity t _) as [td2|] eqn:Hq; simpl; [|discriminate].
  intros [= <-].
  apply extract_date_inv in Hd as (disp & key & -> & Hd).
  apply extract_quantity_inv in Hq as (qdisp & x & -> & Hq).
  exists disp, key, qdisp, x. split; [exact Hd|]. split; [exact Hq|].
  rewrite !extract_text_insert, extract_article_insert. reflexivity.
Qed.

Lemma article_fields_inv t :
  match find_desc "ArticleNumber" t with
  | None => article_fields t = (VStr "N/A", VStr "N/A")
  | Some e =>
      (text e = Some "1" /\ article_fields t = (VStr "AVGAS", VStr "1"))
      \/ (text e = Some "2" /\ article_fields t = (VStr "MOGAS", VStr "2"))
      \/ (text e <> Some "1" /\ text e <> Some "2"
          /\ article_fields t = (text_value e, text_value e))
  end.
Proof.
  unfold article_fields. destruct (find_desc "ArticleNumber" t); [|reflexivity].
  repeat case_decide; auto.
Qed.


(** The extractor never returns an empty dict. *)
Lemma parse_xml_file_truthy fs file_path (r : record) :
  parse_xml_file fs file_path = Some r -> r ≠ ∅.
Proof.
  intros H. apply parse_xml_file_inv in H as (t & _ & H).
  apply extract_transaction_inv in H as (disp & key & qdisp & x & _ & _ & ->).
  apply insert_non_empty.
Qed.

Lemma is_iso8601_EPOCH : is_iso8601 EPOCH = true.
Proof. reflexivity. Qed.

(** C1 (amended).  The sort key [RawDate] of an extracted record is a
    text.  It is the epoch-zero sentinel when the document has no date
    element, and the ISO-8601 form of the date, a valid timestamp, when
    the text of the element is in one of the two known formats, the
    first format that matches deciding.  When the text is in neither
    format the sort key is that text itself, unchanged. *)
Theorem sort_key_of_extracted_record fs file_path (r : record) :
  parse_xml_file fs file_path = Some r ->
  exists t key,
    located_transaction fs file_path = Some t
    /\ r !! "RawDate" = Some (VStr key)
    /\ match find_child "TransactionStartDate" t with
       | None => key = EPOCH /\ is_iso8601 key = true
       | Some e =>
           exists txt, text e = Some txt /\
             match strptime (Some txt) Fmt_Ymd_HMS, strptime (Some txt) Fmt_dmY_HMS with
             | Ok d, _ => key = isoformat d /\ is_iso8601 key = true
             | Raise _, Ok d => key = isoformat d /\ is_iso8601 key = true
             | Raise _, Raise _ => key = txt
             end
       end.
Proof.
  intros H. apply parse_xml_file_inv in H as (t & Ht & H).
  apply extract_transaction_inv in H as (disp & key & qdisp & x & Hd & _ & ->).
  exists t, key. split; [exact Ht|]. split; [by lookups|].
  unfold date_fields in Hd.
  destruct (find_child "TransactionStartDate" t) as [e|].
  - destruct Hd as (txt & Htxt & Hd). exists txt. split; [exact Htxt|].
    destruct (strptime (Some txt) Fmt_Ymd_HMS) as [d|] eqn:E1.
    + destruct Hd as [_ ->]. split; [reflexivity|].
      eapply isoformat_is_iso8601, strptime_valid, E1.
    + destruct (strptime (Some txt) Fmt_dmY_HMS) as [d|] eqn:E2.
      * destruct Hd as [_ ->]. split; [reflexivity|].
        eapply isoformat_is_iso8601, strptime_valid, E2.
      * tauto.
  - destruct Hd as [_ ->]. split; reflexivity.
Qed.


(** C8.  For a document with a category code element, code "1" gives
    the label "AVGAS" and the code "1", code "2" gives the label
    "MOGAS" and the code "2", and any other code is both the label and
    the code, unchanged. *)
Theorem category_code_translation fs file_path (r : record) t e :
  parse_xml_file fs file_path = Some r ->
  located_transaction fs file_path = Some t ->
  find_desc "ArticleNumber" t = Some e ->
  (text e = Some "1" ->
   r !! "ArticleNumber" = Some (VStr "AVGAS")
   /\ r !! "RawArticleNumber" = Some (VStr "1"))
  /\ (text e = Some "2" ->
      r !! "ArticleNumber" = Some (VStr "MOGAS")
      /\ r !! "RawArticleNumber" = Some (VStr "2"))
  /\ (text e <> Some "1" -> text e <> Some "2" ->
      r !! "ArticleNumber" = Some (text_value e)
      /\ r !! "RawArticleNumber" = Some (text_value e)).
Proof.
  intros H Ht He. apply parse_xml_file_inv in H as (t' & Ht' & H).
  assert (t' = t) as -> by congruence.
  apply extract_transaction_inv in H as (disp & key & qdisp & x & _ & _ & ->).
  pose proof (article_fields_inv t) as Ha. rewrite He in Ha.
  lookups.
  destruct Ha as [[H1 ->]|[[H2 ->]|(Hn1 & Hn2 & ->)]]; simpl;
    repeat split; intros; try congruence.
Qed.

End ExtractorFacts.

Section ExtractorExamples.
Import Py ET Reader Examples.

(** C1, witness: the complete document, whose date is in the first
    format. *)
Lemma sort_key_of_extracted_record_witness :
  parse_xml_file (one_file doc_full) "t.xml" = Some (record_of doc_full)
  /\ exists t key,
       located_transaction (one_file doc_full) "t.xml" = Some t
       /\ record_of doc_full !! "RawDate" = Some (VStr key)
       /\ match find_child "TransactionStartDate" t with
          | None => key = EPOCH /\ is_iso8601 key = true
          | Some e =>
              exists txt, text e = Some txt /\
                match strptime (Some txt) Fmt_Ymd_HMS, strptime (Some txt) Fmt_dmY_HMS with
                | Ok d, _ => key = isoformat d /\ is_iso8601 key = true
                | Raise _, Ok d => key = isoformat d /\ is_iso8601 key = true
                | Raise _, Raise _ => key = txt
                end
          end.
Proof.
  assert (H : parse_xml_file (one_file doc_full) "t.xml" = Some (record_of doc_full))
    by reflexivity.
  split; [exact H|].
  exact (sort_key_of_extracted_record _ _ _ H).
Defined.

(** C1, counterexample: a date element whose text is in neither format.
    The sort key is that text: no ISO-8601 timestamp, and not the
    sentinel. *)
Lemma sort_key_raw_text :
  exists r : record,
    parse_xml_file (one_file doc_odd_date) "t.xml" = Some r
    /\ r !! "RawDate" = Some (VStr "5 March 2024")
    /\ is_iso8601 "5 March 2024" = false
    /\ r !! "RawDate" <> Some (VStr EPOCH).
Proof.
  exists (record_of doc_odd_date).
  assert (E : record_of doc_odd_date !! "RawDate" = Some (VStr "5 March 2024"))
    by reflexivity.
  split; [reflexivity|]. split; [exact E|]. split; [reflexivity|].
  rewrite E. discriminate.
Qed.



(** C8, witness: code "7" is the label and the code. *)
Lemma category_code_translation_witness :
  parse_xml_file (one_file doc_full) "t.xml" = Some (record_of doc_full)
  /\ record_of doc_full !! "ArticleNumber" = Some (VStr "7")
  /\ record_of doc_full !! "RawArticleNumber" = Some (VStr "7").
Proof.
  assert (H : parse_xml_file (one_file doc_full) "t.xml" = Some (record_of doc_full))
    by reflexivity.
  split; [exact H|].
  destruct (category_code_translation (one_file doc_full) "t.xml" (record_of doc_full)
              (Element "Transaction" None
                 [leaf "TransactionNumber" "4711";
                  leaf "TransactionStartDate" "2024-03-05 10:11:12";
                  Element "DispenserData" None [leaf "DispenserNumber" "2"];
                  Element "ArticleData" None [leaf "ArticleNumber" "7"];
                  leaf "TransactionQuantity" "12.5";
                  Element "MediaData" None [leaf "AdditionalEntry" "D-EABC"]])
              (leaf "ArticleNumber" "7") H)
    as (_ & _ & Hother); [reflexivity | reflexivity |].
  apply Hother; discriminate.
Defined.

Example category_code_1 :
  record_of doc_odd_date !! "ArticleNumber" = Some (VStr "AVGAS")
  /\ record_of doc_odd_date !! "RawArticleNumber" = Some (VStr "1").
Proof. split; reflexivity. Qed.

Example category_code_2 :
  record_of doc_empty_number !! "ArticleNumber" = Some (VStr "MOGAS")
  /\ record_of doc_empty_number !! "RawArticleNumber" = Some (VStr "2").
Proof. split; reflexivity. Qed.

(** A date written with Arabic-Indic digits and a no-break space is a
    date in the first format. *)
Example unicode_date_is_read :
  record_of doc_unicode_date !! "RawDate" = Some (VStr "2024-03-05T10:11:12")
  /\ record_of doc_unicode_date !! "TransactionStartDate"
     = Some (VStr "05.03.2024 10:11:12").
Proof. split; reflexivity. Qed.

(** The year 999 is shown with three digits and sorted with four. *)
Example year_999_fields :
  record_of doc_year_999 !! "TransactionStartDate" = Some (VStr "05.03.999 10:11:12")
  /\ record_of doc_year_999 !! "RawDate" = Some (VStr "0999-03-05T10:11:12").
Proof. split; reflexivity. Qed.

End ExtractorExamples.

(* ===================================================================== *)
(** ** Programs and their runs *)
(* ===================================================================== *)

Section ProgramFacts.
Import Py ET Reader WebServer.
Context `{FM : FloatModel}.

Lemma io_bind_run {A B} (m : IO A) (k : A -> IO B) (s : io) :
  (m ≫= k) s
  = match m s with
    | (Ok a, s') => k a s'
    | (Raise e, s') => (Raise e, s')
    end.
Proof.
  revert s. induction m as [[a|e]|f c IH]; intros s; try reflexivity.
  apply IH.
Qed.

Lemma io_try_run {A} (m : IO A) (h : exn -> IO A) (s : io) :
  io_try m h s
  = match m s with
    | (Ok a, s') => (Ok a, s')
    | (Raise e, s') => h e s'
    end.
Proof.
  revert s. induction m as [[a|e]|f c IH]; intros s; try reflexivity.
  apply IH.
Qed.

Lemma io_finally_run {A} (m : IO A) (f : IO unit) (s : io) :
  io_finally m f s
  = match m s with
    | (r, s') =>
        match f s' with
        | (Ok _, s'') => (r, s'')
        | (Raise e, s'') => (Raise e, s'')
        end
    end.
Proof.
  revert s. induction m as [r|g c IH]; intros s; [|apply IH].
  simpl. change (io_bind (fun _ : unit => Return r) f) with (f ≫= fun _ => Return r).
  rewrite io_bind_run. destruct (run f s) as [[[]|e] s']; reflexivity.
Qed.

Lemma io_lift_run {A} (r : result A) (s : io) : io_lift r s = (r, s).
Proof. reflexivity. Qed.

Lemma log_sftp_run c (s : io) : log_sftp c s = (Ok tt, called [c] s).
Proof. reflexivity. Qed.

(** **** Programs that return *)

Lemma yields_run {A} (P : A -> Prop) (m : IO A) (s : io) :
  yields P m -> exists a, fst (m s) = Ok a /\ P a.
Proof.
  intros H. revert s. induction H as [a Ha|f k _ IH]; intros s; simpl; eauto.
Qed.

Lemma returns_run {A} (m : IO A) (s : io) :
  returns m -> exists a, fst (m s) = Ok a.
Proof. intros H. destruct (yields_run _ m s H) as (a & Ha & _). eauto. Qed.

Lemma yields_bind {A B} (P : A -> Prop) (Q : B -> Prop) (m : IO A) (k : A -> IO B) :
  yields P m -> (forall a, P a -> yields Q (k a)) -> yields Q (m ≫= k).
Proof.
  intros H Hk. induction H as [a Ha|f c _ IH]; [apply Hk, Ha|].
  apply (yields_act f). exact IH.
Qed.

Lemma returns_bind {A B} (m : IO A) (k : A -> IO B) :
  returns m -> (forall a, returns (k a)) -> returns (m ≫= k).
Proof. intros H Hk. eapply yields_bind; [exact H|]. intros a _. apply Hk. Qed.

Lemma returns_try {A} (m : IO A) (h : exn -> IO A) :
  (forall e, returns (h e)) -> returns (io_try m h).
Proof.
  intros Hh. induction m as [[a|e]|f c IH]; simpl.
  - by apply yields_now.
  - apply Hh.
  - apply (yields_act f). exact IH.
Qed.

Lemma yields_finally {A} (P : A -> Prop) (m : IO A) (f : IO unit) :
  yields P m -> returns f -> yields P (io_finally m f).
Proof.
  intros H Hf. induction H as [a Ha|g c _ IH]; simpl.
  - apply (yields_bind (fun _ => True) P f (fun _ => Return (Ok a)) Hf).
    intros. by apply yields_now.
  - apply (yields_act g). exact IH.
Qed.

Lemma returns_ret {A} (a : A) : returns (mret a : IO A).
Proof. by apply yields_now. Qed.

Lemma returns_log_sftp c : returns (log_sftp c).
Proof. apply yields_act. intros. by apply yields_now. Qed.

Lemma yields_weaken {A} (P Q : A -> Prop) (m : IO A) :
  (forall a, P a -> Q a) -> yields P m -> yields Q m.
Proof.
  intros HPQ H. induction H as [a Ha|f c _ IH]; [apply yields_now; auto|].
  apply (yields_act f). exact IH.
Qed.

End ProgramFacts.

(* ===================================================================== *)
(** ** The fetch selector *)
(* ===================================================================== *)

Section StringFacts.
Import Py.

Lemma substring_all (s : string) : substring 0 (String.length s) s = s.
Proof. induction s as [|c s IH]; simpl; [reflexivity|]. by rewrite IH. Qed.

Lemma substring_append (a b : string) :
  substring (String.length a) (String.length b) (a +:+ b) = b.
Proof.
  induction a as [|c a IH]; simpl; [apply substring_all|]. exact IH.
Qed.

Lemma length_append (a b : string) :
  String.length (a +:+ b) = (String.length a + String.length b)%nat.
Proof. induction a as [|c a IH]; simpl; [reflexivity|]. by rewrite IH. Qed.

Lemma substring_split (s : string) (i : nat) :
  (i <= String.length s)%nat ->
  s = substring 0 i s +:+ substring i (String.length s - i) s.
Proof.
  revert i. induction s as [|c s IH]; intros [|i] Hi; simpl in *;
    try reflexivity; try lia.
  - by rewrite substring_all.
  - change (String c s
            = String c (substring 0 i s +:+ substring i (String.length s - i) s)).
    f_equal. apply IH. lia.
Qed.

Lemma endswith_iff (s suffix : string) :
  endswith s suffix = true <-> exists stem, s = stem +:+ suffix.
Proof.
  unfold endswith. rewrite andb_true_iff, Nat.leb_le, String.eqb_eq. split.
  - intros [Hk Hs].
    exists (substring 0 (String.length s - String.length suffix) s).
    pose proof (substring_split s (String.length s - String.length suffix)) as H.
    replace (String.length s - (String.length s - String.length suffix))%nat
      with (String.length suffix) in H by lia.
    rewrite Hs in H. apply H. lia.
  - intros [stem ->]. rewrite length_append. split; [lia|].
    replace (String.length stem + String.length suffix - String.length suffix)%nat
      with (String.length stem) by lia.
    apply substring_append.
Qed.

Lemma lower_append (a b : string) : lower (a +:+ b) = lower a +:+ lower b.
Proof. induction a as [|c a IH]; simpl; [reflexivity|]. by rewrite IH. Qed.

Lemma lower_split (s x y : string) :
  lower s = x +:+ y -> exists a b, s = a +:+ b /\ lower a = x /\ lower b = y.
Proof.
  revert s. induction x as [|c x IH]; intros s H; simpl in H.
  - exists EmptyString, s. auto.
  - destruct s as [|c' s]; [discriminate|]. simpl in H.
    injection H as Hc Hs. apply IH in Hs as (a & b & -> & <- & <-).
    exists (String c' a), b. simpl. rewrite Hc. auto.
Qed.

(** The characters that [str.lower] takes to those of the extension. *)
Lemma lower_char_dot (c : ascii) : lower_char c = "."%char <-> c = "."%char.
Proof.
  destruct c as [[] [] [] [] [] [] [] []]; vm_compute; split; intros H;
    first [discriminate H | reflexivity].
Qed.

Lemma lower_char_x (c : ascii) :
  lower_char c = "x"%char <-> c = "x"%char \/ c = "X"%char.
Proof.
  destruct c as [[] [] [] [] [] [] [] []]; vm_compute; split; intros H;
    first [discriminate H | by left | by right | by destruct H as [H|H]].
Qed.

Lemma lower_char_m (c : ascii) :
  lower_char c = "m"%char <-> c = "m"%char \/ c = "M"%char.
Proof.
  destruct c as [[] [] [] [] [] [] [] []]; vm_compute; split; intros H;
    first [discriminate H | by left | by right | by destruct H as [H|H]].
Qed.

Lemma lower_char_l (c : ascii) :
  lower_char c = "l"%char <-> c = "l"%char \/ c = "L"%char.
Proof.
  destruct c as [[] [] [] [] [] [] [] []]; vm_compute; split; intros H;
    first [discriminate H | by left | by right | by destruct H as [H|H]].
Qed.

(** The texts that [str.lower] takes to the extension. *)
Lemma lower_xml (ext : string) :
  lower ext = ".xml" <->
  exists x m l,
    ext = String "." (String x (String m (String l "")))
    /\ (x = "x" \/ x = "X")%char /\ (m = "m" \/ m = "M")%char
    /\ (l = "l" \/ l = "L")%char.
Proof.
  split.
  - destruct ext as [|a [|b [|c [|d [|]]]]]; try discriminate.
    simpl. intros [= Ha Hb Hc Hd].
    apply lower_char_dot in Ha as ->.
    apply lower_char_x in Hb. apply lower_char_m in Hc. apply lower_char_l in Hd.
    eauto 10.
  - intros (x & m & l & -> & Hx & Hm & Hl). simpl.
    apply lower_char_x in Hx. apply lower_char_m in Hm. apply lower_char_l in Hl.
    rewrite Hx, Hm, Hl. reflexivity.
Qed.

End StringFacts.

Section SelectorFacts.
Import Py ET Reader.
Context `{FM : FloatModel}.

Lemma get_newest_files_eq sftp path max_files s :
  get_newest_files sftp path max_files s
  = (Ok match listdir_attr sftp path with
        | Ok file_list =>
            slice_to max_files (sort_desc Z.ltb st_mtime (List.filter is_xml file_list))
        | Raise _ => []
        end,
     called [ListDir path] s).
Proof.
  unfold get_newest_files. destruct (listdir_attr sftp path); reflexivity.
Qed.

Lemma is_xml_iff (f : SFTPAttributes) :
  is_xml f = true <->
  exists stem ext, filename f = stem +:+ ext /\ lower ext = ".xml".
Proof.
  unfold is_xml. rewrite endswith_iff. split.
  - intros [stem H]. apply lower_split in H as (a & b & H & _ & Hb). eauto.
  - intros (stem & ext & -> & H). exists (lower stem).
    rewrite lower_append, H. reflexivity.
Qed.

(** A name matches when it ends with a dot and the letters x, m and l,
    each in either case. *)
Lemma is_xml_letters (f : SFTPAttributes) :
  is_xml f = true <->
  exists stem x m l,
    filename f = stem +:+ String "." (String x (String m (String l "")))
    /\ (x = "x" \/ x = "X")%char /\ (m = "m" \/ m = "M")%char
    /\ (l = "l" \/ l = "L")%char.
Proof.
  rewrite is_xml_iff. split.
  - intros (stem & ext & Hf & Hext).
    apply lower_xml in Hext as (x & m & l & -> & H). exists stem, x, m, l. auto.
  - intros (stem & x & m & l & Hf & H). exists stem. eexists. split; [exact Hf|].
    apply lower_xml. eauto 10.
Qed.

Lemma StronglySorted_app_inv {A} (R : A -> A -> Prop) (l1 l2 : list A) :
  StronglySorted R (l1 ++ l2) ->
  forall a b, In a l1 -> In b l2 -> R a b.
Proof.
  induction l1 as [|x l1 IH]; simpl; intros Hs a b Ha Hb; [destruct Ha|].
  apply StronglySorted_inv in Hs as [Hs Hx].
  destruct Ha as [->|Ha]; [|eauto].
  rewrite List.Forall_forall in Hx. apply Hx, in_or_app. auto.
Qed.

Lemma NoDup_map_app_disjoint {A B} (f : A -> B) (l1 l2 : list A) :
  List.NoDup (map f (l1 ++ l2)) ->
  forall a b, In a l1 -> In b l2 -> f a <> f b.
Proof.
  rewrite map_app. induction l1 as [|x l1 IH]; simpl; intros Hn a b Ha Hb;
    [destruct Ha|].
  inversion Hn as [|? ? Hx Hn']; subst.
  destruct Ha as [->|Ha]; [|eauto].
  intros E. apply Hx. rewrite E. apply in_or_app. right. apply in_map. exact Hb.
Qed.

Lemma ordered_perm file_list :
  Permutation (List.filter is_xml file_list) (ordered file_list).
Proof. apply sort_desc_perm. Qed.

Lemma StronglySorted_weaken {A} (R R' : A -> A -> Prop) (l : list A) :
  (forall a b, R a b -> R' a b) -> StronglySorted R l -> StronglySorted R' l.
Proof.
  intros HR. induction 1 as [|a l Hs IH Hf]; constructor; [exact IH|].
  eapply Forall_impl; [exact Hf|]. intros b. apply HR.
Qed.

Lemma ordered_sorted file_list :
  StronglySorted (fun a b => (st_mtime b <= st_mtime a)%Z) (ordered file_list).
Proof.
  eapply StronglySorted_weaken;
    [|apply (sort_desc_sorted Z.ltb st_mtime Z_ltb_asym Z_ltb_negtrans)].
  intros a b H. unfold desc in H. apply Z.ltb_ge in H. exact H.
Qed.

(** C6.  Given a listing and a count that is not negative, the selector
    returns the first [max_files] entries of the listing ordered: the
    ordered listing holds exactly the entries whose name ends with a
    dot and the letters x, m and l, each of them in upper or in lower
    case, newest first, entries of equal modification time in the order
    of the listing.  Of twelve matching files with distinct
    modification times and a count of ten, the ten selected are newer
    than the two that are dropped. *)
Theorem newest_files_selected sftp path (max_files : Z) file_list s :
  listdir_attr sftp path = Ok file_list ->
  (0 <= max_files)%Z ->
  let selected := take (Z.to_nat max_files) (ordered file_list) in
  fst (get_newest_files sftp path max_files s) = Ok selected
  /\ (forall f, In f (ordered file_list) <-> In f file_list /\ is_xml f = true)
  /\ (forall f, is_xml f = true <->
                exists stem x m l,
                  filename f = stem +:+ String "." (String x (String m (String l "")))
                  /\ (x = "x" \/ x = "X")%char /\ (m = "m" \/ m = "M")%char
                  /\ (l = "l" \/ l = "L")%char)
  /\ Permutation (List.filter is_xml file_list) (ordered file_list)
  /\ StronglySorted (fun a b => (st_mtime b <= st_mtime a)%Z) (ordered file_list)
  /\ (forall m, List.filter (fun f => (st_mtime f =? m)%Z) (ordered file_list)
                = List.filter (fun f => (st_mtime f =? m)%Z)
                    (List.filter is_xml file_list))
  /\ (length file_list = 12%nat ->
      (forall f, In f file_list -> is_xml f = true) ->
      List.NoDup (map st_mtime file_list) ->
      max_files = 10%Z ->
      length selected = 10%nat
      /\ exists dropped,
           length dropped = 2%nat
           /\ Permutation file_list (selected ++ dropped)
           /\ forall a b, In a selected -> In b dropped ->
                          (st_mtime b < st_mtime a)%Z).
Proof.
  intros Hlist Hmax selected.
  split.
  { rewrite get_newest_files_eq, Hlist. simpl. unfold slice_to.
    destruct (Z.leb_spec 0 max_files); [reflexivity|lia]. }
  split.
  { intros f. rewrite <- List.filter_In.
    split; apply Permutation_in;
      [symmetry|]; apply ordered_perm. }
  split; [apply is_xml_letters|].
  split; [apply ordered_perm|].
  split; [apply ordered_sorted|].
  split.
  { intros m. apply sort_desc_stable. intros a b Ha Hb.
    apply Z.eqb_eq in Ha, Hb. apply Z.ltb_ge. lia. }
  intros Hlen Hall Hnodup ->.
  assert (Hf : List.filter is_xml file_list = file_list).
  { clear -Hall. induction file_list as [|x l IH]; [reflexivity|].
    simpl. rewrite (Hall x) by (left; reflexivity).
    f_equal. apply IH. intros f Hf. apply Hall. right. exact Hf. }
  pose proof (ordered_perm file_list) as Hperm. rewrite Hf in Hperm.
  assert (Hlen' : length (ordered file_list) = 12%nat).
  { rewrite <- Hlen. symmetry. apply Permutation_length, Hperm. }
  split.
  { subst selected. rewrite length_take. lia. }
  exists (drop 10 (ordered file_list)).
  assert (Hsplit : selected ++ drop 10 (ordered file_list) = ordered file_list)
    by apply take_drop.
  split; [rewrite length_drop; lia|].
  split; [rewrite Hsplit; exact Hperm|].
  intros a b Ha Hb.
  pose proof (ordered_sorted file_list) as Hs. rewrite <- Hsplit in Hs.
  pose proof (StronglySorted_app_inv _ _ _ Hs a b Ha Hb) as Hle.
  assert (Hn : List.NoDup (map st_mtime (selected ++ drop 10 (ordered file_list)))).
  { rewrite Hsplit. eapply Permutation_NoDup; [|exact Hnodup].
    apply Permutation_map, Hperm. }
  pose proof (NoDup_map_app_disjoint _ _ _ Hn a b Ha Hb). simpl in Hle. lia.
Qed.

End SelectorFacts.

(* ===================================================================== *)
(** ** The orchestrator *)
(* ===================================================================== *)

Section PipelineFacts.
Import Py ET Reader.
Context `{FM : FloatModel}.

Lemma called_called c1 c2 (s : io) : called c2 (called c1 s) = called (c1 ++ c2) s.
Proof. unfold called. simpl. by rewrite <- app_assoc. Qed.

Lemma called_nil (s : io) : called [] s = s.
Proof. unfold called. rewrite app_nil_r. by destruct s. Qed.

Lemma connect_to_sftp_eq srv s :
  connect_to_sftp srv s
  = (Ok match connect srv with Ok sftp => Some sftp | Raise _ => None end,
     called [Connect] s).
Proof. unfold connect_to_sftp. destruct (connect srv); reflexivity. Qed.

Lemma download_loop_eq sftp remote_path local_dir files downloaded s :
  download_loop sftp remote_path files local_dir downloaded s
  = (Ok (downloaded ++ downloaded_paths sftp remote_path local_dir files),
     {| files := downloaded_fs sftp remote_path local_dir files (Reader.files s);
        output_file := output_file s;
        sftp_calls := sftp_calls s ++ get_calls remote_path local_dir files;
        mqtt_calls := mqtt_calls s |}).
Proof.
  revert downloaded s. induction files as [|f rest IH]; intros downloaded s.
  - simpl. rewrite !app_nil_r. by destruct s.
  - cbn [download_loop downloaded_paths downloaded_fs get_calls map].
    fold (remote_of remote_path f). fold (local_of local_dir f).
    rewrite io_bind_run, io_try_run. unfold sftp_get.
    destruct (get sftp (remote_of remote_path f)) as [content|e]; simpl;
      rewrite IH; simpl; rewrite <- ?app_assoc; reflexivity.
Qed.

Lemma selected_files_eq sftp s :
  get_newest_files sftp SFTP_PATH MAX_FILES s
  = (Ok (selected_files sftp), called [ListDir SFTP_PATH] s).
Proof. rewrite get_newest_files_eq. reflexivity. Qed.

(** The loop over the downloaded files gives one record for each file
    that the extractor does not give up on, in the order of the
    files. *)
Lemma parse_loop_eq downloaded (data_list : list record) s :
  parse_loop downloaded data_list s
  = (Ok (data_list ++ omap (parse_xml_file (files s)) downloaded), s).
Proof.
  revert data_list. induction downloaded as [|p rest IH]; intros data_list.
  - simpl. rewrite app_nil_r. reflexivity.
  - cbn [parse_loop omap list_omap]. rewrite io_bind_run.
    change (read_files s) with (Ok (files s), s). cbn iota.
    destruct (parse_xml_file (files s) p) as [data|] eqn:E.
    + unfold truthy.
      rewrite bool_decide_eq_true_2 by (eapply parse_xml_file_truthy, E).
      rewrite IH, <- app_assoc. reflexivity.
    + apply IH.
Qed.

(** **** The records that reach the sort *)

Lemma parse_xml_file_RawDate fs file_path (r : record) :
  parse_xml_file fs file_path = Some r -> dated r.
Proof.
  intros H. apply parse_xml_file_inv in H as (t & _ & H).
  apply extract_transaction_inv in H as (disp & key & qdisp & x & _ & _ & ->).
  exists key.
  repeat first [rewrite lookup_insert_eq | rewrite lookup_insert_ne by discriminate].
  reflexivity.
Qed.

Lemma In_omap_parse fs downloaded (x : record) :
  In x (omap (parse_xml_file fs) downloaded) <->
  exists p, In p downloaded /\ parse_xml_file fs p = Some x.
Proof.
  rewrite <- !list_elem_of_In, list_elem_of_omap.
  split; intros (p & Hp & Hx); exists p; [rewrite <- list_elem_of_In|rewrite list_elem_of_In];
    auto.
Qed.

Lemma extracted_dated sftp fs : Forall dated (extracted sftp fs).
Proof.
  apply List.Forall_forall. intros x Hx. apply In_omap_parse in Hx as (p & _ & Hx).
  eapply parse_xml_file_RawDate, Hx.
Qed.

Lemma dated_is_str (l : list record) :
  Forall dated l -> forallb (fun x => is_str (sort_key x)) l = true.
Proof.
  induction 1 as [|x l [k Hk] _ IH]; [reflexivity|].
  simpl. unfold sort_key at 1. rewrite Hk, IH. reflexivity.
Qed.

Lemma sort_by_date_extracted sftp fs :
  sort_by_date (extracted sftp fs)
  = Ok (sort_desc String.ltb raw_date (extracted sftp fs)).
Proof.
  unfold sort_by_date. rewrite dated_is_str by apply extracted_dated.
  reflexivity.
Qed.

(** The body of the [try], in closed form. *)
Lemma process_files_eq sftp s :
  process_files sftp s
  = match selected_files sftp with
    | [] => (Ok None, called [ListDir SFTP_PATH] s)
    | _ :: _ =>
        (Ok (Some (sort_desc String.ltb raw_date (extracted sftp (files s)))),
         {| files := downloaded_fs sftp SFTP_PATH DATA_DIR (selected_files sftp) (files s);
            output_file := output_file s;
            sftp_calls := sftp_calls s ++ [ListDir SFTP_PATH]
                          ++ get_calls SFTP_PATH DATA_DIR (selected_files sftp);
            mqtt_calls := mqtt_calls s |})
    end.
Proof.
  unfold process_files. rewrite io_bind_run, selected_files_eq.
  pose proof (sort_by_date_extracted sftp (files s)) as Hsort. unfold extracted in *.
  destruct (selected_files sftp) as [|f newest]; [reflexivity|].
  unfold download_files. rewrite io_bind_run, download_loop_eq.
  rewrite io_bind_run, parse_loop_eq.
  cbn [app files output_file sftp_calls mqtt_calls called].
  rewrite io_bind_run, io_lift_run, Hsort.
  cbn [app]. rewrite <- app_assoc. reflexivity.
Qed.

(** A fetch, in closed form. *)
Lemma fetch_and_process_data_eq w s :
  fetch_and_process_data w s
  = match mkdir w DATA_DIR with
    | Raise e => (Raise e, s)
    | Ok _ =>
        match connect (sftp_server w) with
        | Raise _ => (Ok None, called [Connect] s)
        | Ok sftp =>
            match selected_files sftp with
            | [] =>
                (match close sftp with Ok _ => Ok None | Raise e => Raise e end,
                 called [Connect; ListDir SFTP_PATH; Close] s)
            | _ :: _ =>
                (match close sftp with
                 | Ok _ => Ok (Some (sort_desc String.ltb raw_date
                                       (extracted sftp (files s))))
                 | Raise e => Raise e
                 end,
                 fetched sftp (selected_files sftp) s)
            end
        end
    end.
Proof.
  unfold fetch_and_process_data, ensure_directory_exists.
  rewrite io_bind_run, io_lift_run.
  destruct (mkdir w DATA_DIR) as [[]|e]; [|reflexivity].
  rewrite io_bind_run, connect_to_sftp_eq.
  destruct (connect (sftp_server w)) as [sftp|e]; [|reflexivity].
  rewrite io_finally_run, io_try_run, process_files_eq. unfold close_connections.
  destruct (selected_files sftp) as [|f newest] eqn:E;
    rewrite io_bind_run, log_sftp_run, io_lift_run;
    destruct (close sftp) as [[]|e']; unfold fetched, called; simpl;
    rewrite <- ?app_assoc; reflexivity.
Qed.


(** **** A fetch reads nothing that it did not download *)

Lemma parse_xml_file_local (fs1 fs2 : filesystem) file_path :
  fs1 !! file_path = fs2 !! file_path ->
  parse_xml_file fs1 file_path = parse_xml_file fs2 file_path.
Proof. intros H. unfold parse_xml_file, parse. rewrite H. reflexivity. Qed.

Lemma omap_parse_local (fs1 fs2 : filesystem) downloaded :
  (forall p, In p downloaded -> fs1 !! p = fs2 !! p) ->
  omap (parse_xml_file fs1) downloaded = omap (parse_xml_file fs2) downloaded.
Proof.
  induction downloaded as [|p rest IH]; intros H; [reflexivity|].
  cbn [omap list_omap].
  rewrite (parse_xml_file_local fs1 fs2 p) by (apply H; left; reflexivity).
  rewrite IH by (intros q Hq; apply H; right; exact Hq). reflexivity.
Qed.

Lemma downloaded_fs_agree sftp remote_path local_dir files :
  forall (seen : list string) (fs1 fs2 : filesystem),
    (forall p, In p seen -> fs1 !! p = fs2 !! p) ->
    forall p, In p (seen ++ downloaded_paths sftp remote_path local_dir files) ->
      downloaded_fs sftp remote_path local_dir files fs1 !! p
      = downloaded_fs sftp remote_path local_dir files fs2 !! p.
Proof.
  induction files as [|f rest IH]; intros seen fs1 fs2 Hseen p Hp; simpl in *.
  - rewrite app_nil_r in Hp. auto.
  - destruct (get sftp (remote_of remote_path f)) as [content|e].
    + apply (IH (seen ++ [local_of local_dir f])).
      * intros q Hq. apply in_app_or in Hq as [Hq|[<-|[]]].
        -- destruct (decide (local_of local_dir f = q)) as [<-|Hne].
           ++ by rewrite !lookup_insert_eq.
           ++ rewrite !lookup_insert_ne by exact Hne. auto.
        -- by rewrite !lookup_insert_eq.
      * rewrite <- app_assoc. exact Hp.
    + apply (IH seen); assumption.
Qed.

Lemma extracted_fresh sftp (fs1 fs2 : filesystem) :
  extracted sftp fs1 = extracted sftp fs2.
Proof.
  unfold extracted. apply omap_parse_local. intros p Hp.
  apply (downloaded_fs_agree sftp SFTP_PATH DATA_DIR (selected_files sftp) []);
    [intros q []|exact Hp].
Qed.

(** What a fetch returns is decided by the surroundings alone. *)
Lemma fetch_fresh w (s1 s2 : io) :
  fst (fetch_and_process_data w s1) = fst (fetch_and_process_data w s2).
Proof.
  rewrite !fetch_and_process_data_eq.
  destruct (mkdir w DATA_DIR) as [[]|e]; [|reflexivity].
  destruct (connect (sftp_server w)) as [sftp|e]; [|reflexivity].
  destruct (selected_files sftp); [reflexivity|].
  simpl. rewrite (extracted_fresh sftp (files s1) (files s2)). reflexivity.
Qed.

(** The calls of a fetch on the transport. *)
Lemma fetch_calls w (s : io) :
  sftp_calls (snd (fetch_and_process_data w s))
  = sftp_calls s
    ++ match mkdir w DATA_DIR with
       | Raise _ => []
       | Ok _ =>
           Connect
           :: match connect (sftp_server w) with
              | Raise _ => []
              | Ok sftp =>
                  ListDir SFTP_PATH
                  :: get_calls SFTP_PATH DATA_DIR (selected_files sftp) ++ [Close]
              end
       end.
Proof.
  rewrite fetch_and_process_data_eq.
  destruct (mkdir w DATA_DIR) as [[]|e]; [|simpl; by rewrite app_nil_r].
  destruct (connect (sftp_server w)) as [sftp|e]; [|reflexivity].
  destruct (selected_files sftp); reflexivity.
Qed.

Lemma fetch_keeps w (s : io) :
  output_file (snd (fetch_and_process_data w s)) = output_file s
  /\ mqtt_calls (snd (fetch_and_process_data w s)) = mqtt_calls s.
Proof.
  rewrite fetch_and_process_data_eq.
  destruct (mkdir w DATA_DIR) as [[]|e]; [|split; reflexivity].
  destruct (connect (sftp_server w)) as [sftp|e]; [|split; reflexivity].
  destruct (selected_files sftp); split; reflexivity.
Qed.

Lemma slice_to_nil {A} (n : Z) : slice_to n (@nil A) = [].
Proof. unfold slice_to. destruct (0 <=? n)%Z; apply take_nil. Qed.

(** C3 (amended).  The selector never raises.  A failure of the listing
    is caught and gives the empty sequence, which is also what a
    listing without a matching entry gives, with the same calls made on
    the transport.  Once [DATA_DIR] is there, the orchestrator returns
    [None] when the connection fails, and it ends alike when the
    listing fails and when no entry matches: with [None], or with what
    the closing of the session raises.  Its callers are told the same
    in the three cases. *)
Theorem selection_outcomes sftp path max_files w s e :
  (exists files, fst (get_newest_files sftp path max_files s) = Ok files)
  /\ (listdir_attr sftp path = Raise e ->
      get_newest_files sftp path max_files s = (Ok [], called [ListDir path] s))
  /\ (forall file_list,
        listdir_attr sftp path = Ok file_list ->
        List.filter is_xml file_list = [] ->
        get_newest_files sftp path max_files s = (Ok [], called [ListDir path] s))
  /\ (mkdir w DATA_DIR = Ok tt -> connect (sftp_server w) = Raise e ->
      fst (fetch_and_process_data w s) = Ok None)
  /\ (mkdir w DATA_DIR = Ok tt -> connect (sftp_server w) = Ok sftp ->
      listdir_attr sftp SFTP_PATH = Raise e ->
      fst (fetch_and_process_data w s)
      = match close sftp with Ok _ => Ok None | Raise e' => Raise e' end)
  /\ (forall file_list,
        mkdir w DATA_DIR = Ok tt -> connect (sftp_server w) = Ok sftp ->
        listdir_attr sftp SFTP_PATH = Ok file_list ->
        List.filter is_xml file_list = [] ->
        fst (fetch_and_process_data w s)
        = match close sftp with Ok _ => Ok None | Raise e' => Raise e' end).
Proof.
  split; [rewrite get_newest_files_eq; eauto|].
  split; [intros H; rewrite get_newest_files_eq, H; reflexivity|].
  split.
  { intros file_list H Hnone. rewrite get_newest_files_eq, H, Hnone.
    simpl. rewrite slice_to_nil. reflexivity. }
  split.
  { intros Hd Hc. rewrite fetch_and_process_data_eq, Hd, Hc. reflexivity. }
  split.
  { intros Hd Hc Hl. rewrite fetch_and_process_data_eq, Hd, Hc.
    unfold selected_files. rewrite Hl. reflexivity. }
  intros file_list Hd Hc Hl Hnone. rewrite fetch_and_process_data_eq, Hd, Hc.
  unfold selected_files, ordered. rewrite Hl, Hnone. reflexivity.
Qed.

(** **** The records of a fetch and the files they come from *)

Lemma downloaded_paths_length sftp remote_path local_dir files :
  (length (downloaded_paths sftp remote_path local_dir files) <= length files)%nat.
Proof.
  induction files as [|f rest IH]; simpl; [lia|].
  destruct (get sftp (remote_of remote_path f)); simpl; lia.
Qed.

Lemma downloaded_paths_In sftp remote_path local_dir files p :
  In p (downloaded_paths sftp remote_path local_dir files) <->
  exists f content,
    In f files /\ p = local_of local_dir f
    /\ get sftp (remote_of remote_path f) = Ok content.
Proof.
  induction files as [|f rest IH]; simpl.
  - split; [intros []|intros (f & c & [] & _)].
  - destruct (get sftp (remote_of remote_path f)) as [content|e] eqn:E; simpl;
      rewrite IH; split.
    + intros [<-|(f' & c & Hin & -> & Hc)]; eauto 10.
    + intros (f' & c & [<-|Hin] & -> & Hc); eauto 10.
    + intros (f' & c & Hin & -> & Hc). eauto 10.
    + intros (f' & c & [<-|Hin] & -> & Hc); [congruence|eauto 10].
Qed.

Lemma downloaded_paths_all sftp remote_path local_dir files :
  (forall f, In f files -> exists content, get sftp (remote_of remote_path f) = Ok content) ->
  downloaded_paths sftp remote_path local_dir files = map (local_of local_dir) files.
Proof.
  induction files as [|f rest IH]; intros H; simpl; [reflexivity|].
  destruct (H f (or_introl eq_refl)) as [content ->].
  rewrite IH; [reflexivity|]. intros f' Hf'. apply H. right. exact Hf'.
Qed.

(** The records that a fetch returns are those of the files that it
    downloaded, as the extractor reads them where the fetch left
    them. *)
Lemma fetched_records_iff w s data_list s' :
  fetch_and_process_data w s = (Ok (Some data_list), s') ->
  exists sftp,
    connect (sftp_server w) = Ok sftp
    /\ selected_files sftp <> []
    /\ data_list = sort_desc String.ltb raw_date (extracted sftp (files s))
    /\ s' = fetched sftp (selected_files sftp) s
    /\ forall r, In r data_list <->
         exists f content,
           In f (selected_files sftp)
           /\ get sftp (remote_of SFTP_PATH f) = Ok content
           /\ parse_xml_file (files s') (local_of DATA_DIR f) = Some r.
Proof.
  rewrite fetch_and_process_data_eq.
  destruct (mkdir w DATA_DIR) as [[]|e]; [|discriminate].
  destruct (connect (sftp_server w)) as [sftp|e]; [|discriminate].
  destruct (selected_files sftp) as [|f0 newest] eqn:Hsel;
    destruct (close sftp) as [[]|e]; try discriminate.
  rewrite <- Hsel. intros [= <- <-].
  exists sftp. split; [reflexivity|]. split; [congruence|].
  split; [reflexivity|]. split; [reflexivity|].
  intros r. cbn [fetched files].
  pose proof (sort_desc_perm String.ltb raw_date (extracted sftp (files s))) as Hperm.
  split.
  - intros Hr. apply (Permutation_in _ (Permutation_sym Hperm)) in Hr.
    unfold extracted in Hr. apply In_omap_parse in Hr as (p & Hp & Hr).
    apply downloaded_paths_In in Hp as (f & content & Hf & -> & Hc). eauto 10.
  - intros (f & content & Hf & Hc & Hr). apply (Permutation_in _ Hperm).
    unfold extracted. apply In_omap_parse. exists (local_of DATA_DIR f).
    split; [|exact Hr]. apply downloaded_paths_In. eauto 10.
Qed.

(** A fetch in a world where [DATA_DIR] is there and the session
    closes, from a session that selects a file. *)
Lemma fetch_and_process_data_ok w s sftp :
  mkdir w DATA_DIR = Ok tt ->
  connect (sftp_server w) = Ok sftp ->
  close sftp = Ok tt ->
  selected_files sftp <> [] ->
  fetch_and_process_data w s
  = (Ok (Some (sort_desc String.ltb raw_date (extracted sftp (files s)))),
     fetched sftp (selected_files sftp) s).
Proof.
  intros Hd Hc Hcl Hsel. rewrite fetch_and_process_data_eq, Hd, Hc, Hcl.
  destruct (selected_files sftp); [congruence|reflexivity].
Qed.

End PipelineFacts.

Section SelectorExamples.
Import Py ET Reader Examples.

(** C6, witness: the twelve files and a count of ten; the names of two
    of them end in [.XML] and [.Xml]. *)
Lemma newest_files_selected_witness :
  listdir_attr (session (Ok twelve)) SFTP_PATH = Ok twelve
  /\ (0 <= 10)%Z
  /\ fst (get_newest_files (session (Ok twelve)) SFTP_PATH 10 disk0)
     = Ok (take (Z.to_nat 10) (ordered twelve))
  /\ map filename (take (Z.to_nat 10) (ordered twelve))
     = ["c.xml"; "f.xml"; "j.xml"; "h.xml"; "l.xml"; "d.xml"; "i.xml"; "a.xml";
        "k.xml"; "e.Xml"].
Proof.
  assert (H : listdir_attr (session (Ok twelve)) SFTP_PATH = Ok twelve)
    by reflexivity.
  assert (H0 : (0 <= 10)%Z) by lia.
  split; [exact H|]. split; [exact H0|].
  split; [exact (proj1 (newest_files_selected _ _ _ _ disk0 H H0))|].
  vm_compute. reflexivity.
Defined.

(** The two oldest files are dropped, one of them with the extension in
    upper case; a name without the dot does not match. *)
Example twelve_dropped :
  map filename (drop 10 (ordered twelve)) = ["g.xml"; "b.XML"]
  /\ List.filter is_xml no_match = [].
Proof. split; vm_compute; reflexivity. Qed.

(** C3, witness: a server whose listing fails. *)
Lemma selection_outcomes_witness :
  listdir_attr (session (Raise OSError)) SFTP_PATH = Raise OSError
  /\ get_newest_files (session (Raise OSError)) SFTP_PATH MAX_FILES disk0
     = (Ok [], called [ListDir SFTP_PATH] disk0).
Proof.
  assert (H : listdir_attr (session (Raise OSError)) SFTP_PATH = Raise OSError)
    by reflexivity.
  split; [exact H|].
  exact (proj1 (proj2 (selection_outcomes (session (Raise OSError)) SFTP_PATH
                         MAX_FILES (plain_world unreachable) disk0 OSError)) H).
Defined.

(** C3, counterexample: a listing that fails and a listing without a
    matching entry give the selector's caller the same value and leave
    the same state; the orchestrator's caller gets [None] from both and
    from a server that cannot be reached. *)
Lemma failure_looks_like_nothing_to_do :
  get_newest_files (session (Raise OSError)) SFTP_PATH MAX_FILES disk0
  = get_newest_files (session (Ok no_match)) SFTP_PATH MAX_FILES disk0
  /\ fst (get_newest_files (session (Raise OSError)) SFTP_PATH MAX_FILES disk0) = Ok []
  /\ fst (fetch_and_process_data
            (plain_world (serving (Raise OSError) (fun _ => Raise OSError))) disk0)
     = Ok None
  /\ fst (fetch_and_process_data
            (plain_world (serving (Ok no_match) (fun _ => Raise OSError))) disk0)
     = Ok None
  /\ fst (fetch_and_process_data (plain_world unreachable) disk0) = Ok None.
Proof.
  split; [reflexivity|]. split; [reflexivity|]. split; [reflexivity|].
  split; reflexivity.
Qed.

End SelectorExamples.

(* ===================================================================== *)
(** ** The publication step *)
(* ===================================================================== *)

Section PublishFacts.
Import Py ET Reader.
Context `{FM : FloatModel}.

Lemma published_nil (s : io) : published [] s = s.
Proof. unfold published. rewrite app_nil_r. by destruct s. Qed.

Lemma published_published c1 c2 (s : io) :
  published c2 (published c1 s) = published (c1 ++ c2) s.
Proof. unfold published. simpl. by rewrite <- app_assoc. Qed.

Lemma attempts_app client l1 l2 :
  attempts client (l1 ++ l2)
  = if forallb (accepted client) l1 then attempts client l1 ++ attempts client l2
    else attempts client l1.
Proof.
  induction l1 as [|[t p] l1 IH]; [reflexivity|].
  simpl. unfold accepted at 1. simpl.
  destruct (accepts client t p); [|reflexivity].
  simpl. rewrite IH. by destruct (forallb _ l1).
Qed.

Lemma publish_run client t p s :
  publish client t p s
  = (if accepts client t p then Ok tt else Raise ValueError,
     published [(t, p, accepts client t p)] s).
Proof. reflexivity. Qed.

Lemma publish_eq client t p s :
  publish client t p s
  = (outcome client [(t, p)], published (attempts client [(t, p)]) s).
Proof.
  rewrite publish_run. unfold outcome, accepted. simpl.
  by destruct (accepts client t p).
Qed.

Lemma publish_each_eq client data_list s :
  publish_each client data_list s
  = (outcome client (each_messages data_list),
     published (attempts client (each_messages data_list)) s).
Proof.
  revert s. induction data_list as [|data rest IH]; intros s.
  - simpl. rewrite published_nil. reflexivity.
  - cbn [publish_each each_messages]. rewrite io_bind_run.
    destruct (truthy data); [destruct (data !! "TransactionNumber") as [id|]|].
    + rewrite publish_run. unfold outcome. cbn [app attempts forallb].
      change (accepted client (TTransaction id, PJson data))
        with (accepts client (TTransaction id) (PJson data)).
      destruct (accepts client (TTransaction id) (PJson data)); simpl.
      * rewrite IH. unfold published, outcome. simpl.
        rewrite <- app_assoc. reflexivity.
      * reflexivity.
    + simpl. apply IH.
    + simpl. apply IH.
Qed.

Lemma attempts_all client messages :
  forallb (accepted client) messages = true ->
  attempts client messages = map (fun m => (m, true)) messages.
Proof.
  induction messages as [|[t p] rest IH]; [reflexivity|].
  simpl. unfold accepted at 1. simpl.
  destruct (accepts client t p); [|discriminate].
  simpl. intros H. rewrite IH by exact H. reflexivity.
Qed.

Lemma attempts_stop client before m after :
  forallb (accepted client) before = true ->
  accepted client m = false ->
  attempts client (before ++ m :: after)
  = map (fun m => (m, true)) before ++ [(m, false)].
Proof.
  intros Hb Hm. rewrite attempts_app, Hb, (attempts_all _ _ Hb).
  f_equal. destruct m as [t p]. unfold accepted in Hm. simpl in *.
  rewrite Hm. reflexivity.
Qed.

Lemma publish_body_eq client data_list now s :
  exists r,
    publish_body client data_list now s
    = (r, published (attempts client (schedule data_list now)) s).
Proof.
  unfold publish_body, schedule.
  rewrite io_bind_run, publish_run. cbn [app attempts].
  destruct (accepts client TLastUpdate (PTimestamp now)); [|eauto].
  rewrite io_bind_run, publish_run.
  destruct (accepts client TTransactions (PJsonList data_list));
    [|eexists; unfold published; simpl; rewrite <- app_assoc; reflexivity].
  rewrite io_bind_run, publish_each_eq, attempts_app. unfold outcome.
  destruct (forallb (accepted client) (each_messages data_list));
    [|eexists; unfold published; simpl; rewrite <- !app_assoc; reflexivity].
  rewrite io_bind_run, io_lift_run.
  destruct (sum_quantities Int0 data_list) as [total|e].
  - rewrite io_bind_run, publish_run. cbn [attempts].
    destruct (accepts client TTotalQuantity (PStr total));
      [cbn zeta; rewrite publish_run; destruct (accepts client TArticleCounts _)|];
      eexists; unfold published; simpl; rewrite <- !app_assoc; reflexivity.
  - eexists. unfold published. simpl. rewrite app_nil_r, <- !app_assoc.
    reflexivity.
Qed.

Lemma publish_to_mqtt_eq client data_list now s :
  publish_to_mqtt (Some client) data_list now s
  = (Ok tt, published (attempts client (schedule data_list now)) s).
Proof.
  unfold publish_to_mqtt. rewrite io_try_run.
  destruct (publish_body_eq client data_list now s) as [r ->].
  destruct r as [[]|e]; reflexivity.
Qed.

(** C4 (amended).  The publication step never raises: a failure is
    caught and logged.  The publish calls it makes are the messages of
    the five sub-steps in order, up to the first that fails: nothing
    that comes after a failed call is attempted.  When no call fails,
    every message of the schedule is published. *)
Theorem publication_stops_at_first_failure client data_list now s :
  publish_to_mqtt (Some client) data_list now s
  = (Ok tt, published (attempts client (schedule data_list now)) s)
  /\ (forall before m after,
        schedule data_list now = before ++ m :: after ->
        forallb (accepted client) before = true ->
        accepted client m = false ->
        attempts client (schedule data_list now)
        = map (fun m => (m, true)) before ++ [(m, false)])
  /\ (forallb (accepted client) (schedule data_list now) = true ->
      attempts client (schedule data_list now)
      = map (fun m => (m, true)) (schedule data_list now)).
Proof.
  split.
  { unfold publish_to_mqtt. rewrite io_try_run.
    destruct (publish_body_eq client data_list now s) as [r ->].
    destruct r as [[]|e]; reflexivity. }
  split.
  { intros before m after -> Hb Hm. apply attempts_stop; assumption. }
  apply attempts_all.
Qed.

End PublishFacts.

Section PublishExamples.
Import Py ET Reader Examples.

(** C4, witness: a client that rejects the full transactions message. *)
Lemma publication_stops_at_first_failure_witness :
  schedule [sample_record] 5
  = [(TLastUpdate, PTimestamp 5)]
    ++ (TTransactions, PJsonList [sample_record])
       :: tl (tl (schedule [sample_record] 5))
  /\ attempts reject_transactions (schedule [sample_record] 5)
     = [(TLastUpdate, PTimestamp 5, true);
        (TTransactions, PJsonList [sample_record], false)].
Proof.
  assert (H : schedule [sample_record] 5
              = [(TLastUpdate, PTimestamp 5)]
                ++ (TTransactions, PJsonList [sample_record])
                   :: tl (tl (schedule [sample_record] 5))) by reflexivity.
  split; [exact H|].
  exact (proj1 (proj2 (publication_stops_at_first_failure
                         reject_transactions [sample_record] 5 disk0))
           _ _ _ H eq_refl eq_refl).
Defined.

(** C4, counterexample: the second sub-step fails; the per-record
    messages, the total quantity and the category counts, which a
    client without failure receives, are never attempted. *)
Lemma later_sub_steps_skipped :
  map (fun c => fst (fst c))
    (mqtt_calls (snd (publish_to_mqtt (Some reject_transactions) [sample_record] 5 disk0)))
  = [TLastUpdate; TTransactions]
  /\ map (fun c => fst (fst c))
       (mqtt_calls (snd (publish_to_mqtt (Some accept_all) [sample_record] 5 disk0)))
     = [TLastUpdate; TTransactions; TTransaction (VStr "4711");
        TTotalQuantity; TArticleCounts].
Proof. split; reflexivity. Qed.

End PublishExamples.

(* ===================================================================== *)
(** ** The web server *)
(* ===================================================================== *)

Section MainFacts.
Import Py ET Reader WebServer.
Context `{FM : FloatModel}.

Lemma connect_mqtt_eq w (s : io) : connect_mqtt w s = (mqtt_setup w, greeted w s).
Proof.
  unfold connect_mqtt, greeted, mqtt_setup, network_loop, on_connect.
  destruct (new_client (mqtt_broker w)) as [[]|e]; [|reflexivity]. simpl.
  destruct (will_set (mqtt_broker w)) as [[]|e]; [|reflexivity]. simpl.
  destruct (client_connect (mqtt_broker w)) as [client|e]; [|reflexivity]. simpl.
  destruct (connack (mqtt_broker w)) as [rc|]; [|reflexivity].
  destruct (rc =? 0)%Z; [|reflexivity]. simpl.
  destruct (accepts client TStatus (PStatus "online")); reflexivity.
Qed.

Lemma write_output_eq w html_content (s : io) :
  write_output w html_content s = written w html_content s.
Proof.
  unfold write_output, written.
  destruct (output_open w) as [[]|e]; [|reflexivity]. simpl.
  destruct (output_write w) as [[]|e]; reflexivity.
Qed.

(** A run of [main], in closed form. *)
Lemma main_eq w now (s : io) :
  main w now s
  = match mqtt_setup w with
    | Raise e => (Raise e, greeted w s)
    | Ok mqtt_client =>
        match fetch_and_process_data w (greeted w s) with
        | (Ok (Some (x :: l)), s1) =>
            match written w (generate_html (x :: l) now) s1 with
            | (Ok _, s2) =>
                match mqtt_client with
                | Some client =>
                    (loop_stop client;; disconnect client,
                     published (attempts client (schedule (x :: l) now)) s2)
                | None => (Ok tt, s2)
                end
            | (Raise e, s2) => (Raise e, s2)
            end
        | (Ok _, s1) => (Ok tt, s1)
        | (Raise e, s1) => (Raise e, s1)
        end
    end.
Proof.
  unfold main. rewrite io_bind_run, connect_mqtt_eq.
  destruct (mqtt_setup w) as [mqtt_client|e]; [|reflexivity].
  rewrite io_bind_run.
  destruct (fetch_and_process_data w (greeted w s)) as [[[[|x l]|]|e] s1];
    try reflexivity.
  rewrite io_bind_run, write_output_eq.
  destruct (written w (generate_html (x :: l) now) s1) as [[[]|e] s2];
    [|reflexivity].
  destruct mqtt_client as [client|]; [|reflexivity].
  rewrite io_bind_run, publish_to_mqtt_eq, io_bind_run, !io_lift_run.
  destruct (loop_stop client) as [[]|e]; [|reflexivity].
  simpl. destruct (disconnect client) as [[]|e]; reflexivity.
Qed.

(** A run without data changes neither the report nor the channel
    after the client is set up. *)
Lemma main_no_data w now (s : io) mqtt_client :
  mqtt_setup w = Ok mqtt_client ->
  fst (fetch_and_process_data w (greeted w s)) = Ok None ->
  main w now s = (Ok tt, snd (fetch_and_process_data w (greeted w s))).
Proof.
  intros Hm H. rewrite main_eq, Hm.
  destruct (fetch_and_process_data w (greeted w s)) as [r s1].
  simpl in H. subst r. reflexivity.
Qed.

(** **** In a steady world [main] returns *)

Lemma connect_mqtt_yields w :
  new_client (mqtt_broker w) = Ok tt ->
  will_set (mqtt_broker w) = Ok tt ->
  yields (fun o => forall client, o = Some client ->
                                  client_connect (mqtt_broker w) = Ok client)
    (connect_mqtt w).
Proof.
  intros Hn Hw. unfold connect_mqtt, network_loop, on_connect.
  rewrite Hn, Hw. simpl.
  destruct (client_connect (mqtt_broker w)) as [client|e]; simpl;
    [|apply yields_now; discriminate].
  destruct (connack (mqtt_broker w)) as [rc|]; simpl;
    [|apply yields_now; congruence].
  destruct (rc =? 0)%Z; simpl; [|apply yields_now; congruence].
  apply yields_act. intros _.
  destruct (accepts client TStatus (PStatus "online")); simpl;
    apply yields_now; congruence.
Qed.

Lemma connect_to_sftp_yields srv :
  yields (fun o => forall sftp, o = Some sftp -> connect srv = Ok sftp)
    (connect_to_sftp srv).
Proof.
  unfold connect_to_sftp. destruct (connect srv) as [sftp|e]; simpl;
    apply yields_act; intros _; apply yields_now; congruence.
Qed.

Lemma fetch_returns w :
  mkdir w DATA_DIR = Ok tt ->
  (forall sftp, connect (sftp_server w) = Ok sftp -> close sftp = Ok tt) ->
  returns (fetch_and_process_data w).
Proof.
  intros Hd Hc. unfold fetch_and_process_data, ensure_directory_exists.
  rewrite Hd. apply returns_bind; [by apply yields_now|]. intros _.
  eapply yields_bind; [apply connect_to_sftp_yields|].
  intros [sftp|] Hs; [|apply returns_ret].
  apply yields_finally.
  - apply returns_try. intros. apply returns_ret.
  - unfold close_connections. rewrite (Hc sftp (Hs sftp eq_refl)).
    apply returns_bind; [apply returns_log_sftp|]. intros _. by apply yields_now.
Qed.

Lemma write_output_returns w html_content :
  output_open w = Ok tt -> output_write w = Ok tt ->
  returns (write_output w html_content).
Proof.
  intros Ho Hw. unfold write_output. rewrite Ho, Hw. simpl.
  apply yields_act. intros _. apply yields_act. intros _. by apply yields_now.
Qed.

Lemma publish_to_mqtt_returns client data_list now :
  returns (publish_to_mqtt client data_list now).
Proof.
  destruct client as [client|]; unfold publish_to_mqtt; [|apply returns_ret].
  apply returns_try. intros. apply returns_ret.
Qed.

Lemma main_returns w now : steady w -> returns (main w now).
Proof.
  intros (Hn & Hw & Hd & Hc & Ho & Hwr & Hs). unfold main.
  eapply yields_bind; [apply connect_mqtt_yields; assumption|].
  intros mqtt_client Hclient. apply returns_bind; [apply fetch_returns; assumption|].
  intros [[|x l]|]; try apply returns_ret.
  apply returns_bind; [apply write_output_returns; assumption|]. intros _.
  destruct mqtt_client as [client|]; [|apply returns_ret].
  destruct (Hs client (Hclient client eq_refl)) as [Hl Hdis].
  apply returns_bind; [apply publish_to_mqtt_returns|]. intros _.
  rewrite Hl, Hdis. simpl. by apply yields_now.
Qed.

End MainFacts.

Section ServerFacts.
Import Py ET Reader WebServer.
Context `{FM : FloatModel}.
Variable w : world.

Lemma filter_insert_length (P : handler * pc -> bool) l i x y :
  l !! i = Some x ->
  (length (List.filter P (<[i := y]> l)) + b2n (P x)
   = length (List.filter P l) + b2n (P y))%nat.
Proof.
  revert i. induction l as [|z l IH]; intros [|i] H; simpl in *; try discriminate.
  - injection H as ->. destruct (P x), (P y); simpl; lia.
  - specialize (IH i H). destruct (P z); simpl; lia.
Qed.

Lemma fst_insert (l : list (handler * pc)) i h c c' :
  l !! i = Some (h, c) -> fst <$> <[i := (h, c')]> l = fst <$> l.
Proof.
  intros H. rewrite list_fmap_insert. simpl. apply list_insert_id.
  rewrite list_lookup_fmap, H. reflexivity.
Qed.

Lemma invariant_initial a handlers : invariant handlers (initial a handlers).
Proof.
  split; simpl.
  - induction handlers as [|h l IH]; [reflexivity|].
    simpl. f_equal. exact IH.
  - induction handlers as [|[] l IH]; simpl; auto.
  - induction handlers as [|[] l IH]; simpl; auto.
  - induction handlers as [|[] l IH]; simpl; auto.
Qed.

Ltac count_step H :=
  repeat match goal with
  | |- context [length (List.filter ?P (<[?i := ?y]> ?l))] =>
      let E := fresh "E" in
      pose proof (filter_insert_length P l i _ y H) as E;
      simpl in E;
      generalize dependent (length (List.filter P (<[i := y]> l)));
      intros
  end.

Lemma invariant_step handlers s s' :
  invariant handlers s -> step w s s' -> invariant handlers s'.
Proof.
  intros [Hh Hl Hc Hu] Hstep.
  destruct Hstep as [s i now Hi Hfree | s i f k Hi | s i t u Hi | s i e Hi
                    | s i Hi | s i f k Hi | s i r Hi];
    split; simpl;
    try (rewrite (fst_insert _ _ _ _ _ Hi); exact Hh);
    try rewrite Hfree in *; destruct (data_lock s); simpl in *;
    count_step Hi; lia.
Qed.

Lemma invariant_reachable a handlers s :
  rtc (step w) (initial a handlers) s -> invariant handlers s.
Proof.
  intros H. apply rtc_ind_r with (x := initial a handlers) (P := invariant handlers)
    in H; [exact H|apply invariant_initial|].
  intros y z _ Hstep IH. eapply invariant_step; eassumption.
Qed.

(** **** A thread that takes its steps one after the other *)

Lemma same_system (s : system) i t :
  threads s !! i = Some t ->
  {| state := {| last_update_time := last_update_time (state s);
                 disk := disk (state s) |};
     data_lock := data_lock s;
     threads := <[i := t]> (threads s);
     cycles := cycles s; updates := updates s |} = s.
Proof.
  intros H. rewrite (list_insert_id _ _ _ H). destruct s as [[] ? ? ? ?]. reflexivity.
Qed.

(** [main] under the lock runs to its end. *)
Lemma main_runs (p : IO unit) s i :
  threads s !! i = Some (UpdateData, InMain p) ->
  rtc (step w) s
    {| state := {| last_update_time := last_update_time (state s);
                   disk := snd (p (disk (state s))) |};
       data_lock := data_lock s;
       threads := <[i := (UpdateData, InMain (Return (fst (p (disk (state s))))))]>
                    (threads s);
       cycles := cycles s; updates := updates s |}.
Proof.
  revert s. induction p as [r|f k IH]; intros s Hi.
  - simpl. rewrite (same_system s i _ Hi). reflexivity.
  - assert (Hlen : (i < length (threads s))%nat) by (eapply lookup_lt_Some, Hi).
    eapply rtc_l; [apply (step_main w s i f k Hi)|].
    etransitivity; [apply (IH (disk (state s)) _)|]; simpl.
    + apply list_lookup_insert_eq. exact Hlen.
    + rewrite list_insert_insert_eq. reflexivity.
Qed.

(** A fetch of [/api/tankdata] runs to its end. *)
Lemma fetch_runs (p : IO (option (list record))) s i :
  threads s !! i = Some (ApiTankdata, InFetch p) ->
  rtc (step w) s
    {| state := {| last_update_time := last_update_time (state s);
                   disk := snd (p (disk (state s))) |};
       data_lock := data_lock s;
       threads := <[i := (ApiTankdata, InFetch (Return (fst (p (disk (state s))))))]>
                    (threads s);
       cycles := cycles s; updates := updates s |}.
Proof.
  revert s. induction p as [r|f k IH]; intros s Hi.
  - simpl. rewrite (same_system s i _ Hi). reflexivity.
  - assert (Hlen : (i < length (threads s))%nat) by (eapply lookup_lt_Some, Hi).
    eapply rtc_l; [apply (step_api_fetch w s i f k Hi)|].
    etransitivity; [apply (IH (disk (state s)) _)|]; simpl.
    + apply list_lookup_insert_eq. exact Hlen.
    + rewrite list_insert_insert_eq. reflexivity.
Qed.

(** A call of [update_data] that finds the lock free can run from its
    entry to its return, and leaves what [update_data] computes. *)
Lemma update_data_run now t i s :
  threads s !! i = Some (UpdateData, Called) ->
  data_lock s = false ->
  rtc (step w) s (after_update w now t i s).
Proof.
  intros Hi Hfree.
  assert (Hlen : (i < length (threads s))%nat) by (eapply lookup_lt_Some, Hi).
  eapply rtc_l; [apply (step_acquire w s i now Hi Hfree)|].
  etransitivity.
  { apply (main_runs (main w now) _ i). simpl.
    apply list_lookup_insert_eq. exact Hlen. }
  simpl. rewrite list_insert_insert_eq.
  unfold after_update, update_data.
  destruct (main w now (disk (state s))) as [[[]|e] d]; simpl.
  - eapply rtc_l.
    + eapply (step_updated w _ i t); simpl.
      apply list_lookup_insert_eq. exact Hlen.
    + simpl. rewrite !list_insert_insert_eq. reflexivity.
  - eapply rtc_l.
    + eapply (step_failed w _ i); simpl.
      apply list_lookup_insert_eq. exact Hlen.
    + simpl. rewrite !list_insert_insert_eq. reflexivity.
Qed.

(** A call of [/api/tankdata] can run from its entry to its return,
    whether the lock is held or not, and leaves what [api_tankdata]
    computes. *)
Lemma api_tankdata_run i s :
  threads s !! i = Some (ApiTankdata, Called) ->
  rtc (step w) s (after_read w i s).
Proof.
  intros Hi.
  assert (Hlen : (i < length (threads s))%nat) by (eapply lookup_lt_Some, Hi).
  eapply rtc_l; [apply (step_api_call w s i Hi)|].
  etransitivity.
  { apply (fetch_runs (fetch_and_process_data w) _ i). simpl.
    apply list_lookup_insert_eq. exact Hlen. }
  simpl. rewrite list_insert_insert_eq.
  eapply rtc_l.
  { eapply (step_api_return w _ i); simpl.
    apply list_lookup_insert_eq. exact Hlen. }
  simpl. rewrite !list_insert_insert_eq.
  unfold after_read, api_tankdata.
  destruct (fetch_and_process_data w (disk (state s))) as [r d]. simpl.
  reflexivity.
Qed.

(** Two calls of [update_data], one after the other. *)
Lemma two_updates_run a now1 t1 now2 t2 :
  rtc (step w) (initial a [UpdateData; UpdateData])
    (after_update w now2 t2 1
       (after_update w now1 t1 0 (initial a [UpdateData; UpdateData]))).
Proof.
  etransitivity; [apply (update_data_run now1 t1 0); reflexivity|].
  apply (update_data_run now2 t2 1); reflexivity.
Qed.

Lemma healthy_reachable a handlers s :
  steady w ->
  rtc (step w) (initial a handlers) s ->
  Forall healthy (threads s).
Proof.
  intros Hw H.
  apply rtc_ind_r with (x := initial a handlers)
    (P := fun s => Forall healthy (threads s)) in H;
    [exact H| |].
  - simpl. clear H. induction handlers as [|[] l IH]; simpl; constructor; simpl; auto.
  - intros y z _ Hstep IH.
    destruct Hstep as [s' i now Hi Hfree | s' i f k Hi | s' i t u Hi | s' i e Hi
                      | s' i Hi | s' i f k Hi | s' i r Hi];
      simpl; try (apply Forall_insert; [exact IH|exact I]).
    + apply Forall_insert; [exact IH|]. simpl. apply main_returns. exact Hw.
    + apply Forall_insert; [exact IH|]. simpl.
      pose proof (Forall_lookup_1 _ _ _ _ IH Hi) as Hp. simpl in Hp.
      inversion Hp as [|f' k' Hk]. apply Hk.
    + pose proof (Forall_lookup_1 _ _ _ _ IH Hi) as Hbad. simpl in Hbad.
      inversion Hbad.
Qed.

Lemma placed_reachable a handlers s :
  rtc (step w) (initial a handlers) s ->
  Forall (fun t => placed t = true) (threads s).
Proof.
  intros H.
  apply rtc_ind_r with (x := initial a handlers)
    (P := fun s => Forall (fun t => placed t = true) (threads s)) in H;
    [exact H| |].
  - simpl. clear H. induction handlers as [|[] l IH]; simpl; constructor; auto.
  - intros y z _ Hstep IH.
    destruct Hstep; simpl; apply Forall_insert; try exact IH; reflexivity.
Qed.

Lemma all_returned_counts (l : list (handler * pc)) :
  Forall (fun t => has_returned t = true) l ->
  length (List.filter in_cycle l) = 0%nat
  /\ length (List.filter past_entry l)
     = length (List.filter is_update_data (fst <$> l)).
Proof.
  induction 1 as [|[h c] l Hx _ [IH1 IH2]]; [split; reflexivity|].
  destruct h, c; simpl in *; try discriminate;
    (split; [exact IH1|]); first [exact IH2 | f_equal; exact IH2].
Qed.

Lemma healthy_returned_counts (l : list (handler * pc)) :
  Forall (fun t => has_returned t = true) l ->
  Forall healthy l ->
  length (List.filter reloaded_ok l)
  = length (List.filter is_update_data (fst <$> l)).
Proof.
  induction 1 as [|[h c] l Hx _ IH]; [reflexivity|].
  intros Hh. apply Forall_cons in Hh as [Hh Hl]. specialize (IH Hl).
  destruct h, c as [| | |[[] m|r]]; simpl in *; try discriminate;
    try contradiction; first [exact IH | f_equal; exact IH].
Qed.

(** C9 (amended).  Of the calls of [update_data] that run at the same
    time, at most one is inside the block that holds the lock, so at
    most one of their fetch cycles runs at a time.  A call that finds
    the lock taken waits and then runs a cycle of its own: when all
    calls have returned, as many cycles have run as there were calls,
    the lock is free, and [last_update_time] has been assigned once for
    every call that reported success, which is once per call in a world
    where [main] has no call that raises. *)
Theorem update_calls_run_one_at_a_time a handlers s :
  rtc (step w) (initial a handlers) s ->
  (length (List.filter in_cycle (threads s)) <= 1)%nat
  /\ cycles s = length (List.filter past_entry (threads s))
  /\ updates s = length (List.filter reloaded_ok (threads s))
  /\ (Forall (fun t => has_returned t = true) (threads s) ->
      data_lock s = false
      /\ cycles s = length (List.filter is_update_data handlers)
      /\ (steady w ->
          updates s = length (List.filter is_update_data handlers))).
Proof.
  intros Hreach.
  destruct (invariant_reachable a handlers s Hreach) as [Hh Hl Hc Hu].
  split; [rewrite Hl; destruct (data_lock s); simpl; lia|].
  split; [exact Hc|]. split; [exact Hu|].
  intros Hret. destruct (all_returned_counts _ Hret) as [H0 Hn].
  split; [|split].
  - rewrite H0 in Hl. destruct (data_lock s); [discriminate|reflexivity].
  - rewrite Hc, Hn, Hh. reflexivity.
  - intros Hw. rewrite Hu, <- Hh.
    apply healthy_returned_counts; [exact Hret|].
    eapply healthy_reachable; eassumption.
Qed.

End ServerFacts.

Section ReadFacts.
Import Py ET Reader WebServer.
Context `{FM : FloatModel}.
Variable w : world.

Lemma api_tankdata_eq a :
  api_tankdata w a
  = (records_of (fst (fetch_and_process_data w (disk a))),
     {| last_update_time := last_update_time a;
        disk := snd (fetch_and_process_data w (disk a)) |}).
Proof.
  unfold api_tankdata.
  destruct (fetch_and_process_data w (disk a)) as [r d]. reflexivity.
Qed.

Lemma records_of_Data r data n :
  records_of r = Data data n -> r = Ok (Some data) /\ n = length data.
Proof.
  destruct r as [[[|x l]|]|e]; simpl; try discriminate.
  intros [= <- <-]. auto.
Qed.

(** The steps of a call of [/api/tankdata] leave the lock alone, and
    no other step moves the call. *)
Lemma api_steps_leave_lock s s' i c :
  step w s s' ->
  threads s !! i = Some (ApiTankdata, c) ->
  threads s' !! i <> threads s !! i ->
  data_lock s' = data_lock s.
Proof.
  intros Hstep Hi Hmoved.
  destruct Hstep as [s j now Hj Hfree | s j f k Hj | s j t u Hj | s j e Hj
                    | s j Hj | s j f k Hj | s j r Hj];
    simpl in *; try reflexivity;
    (destruct (decide (j = i)) as [->|Hne]; [congruence|]);
    rewrite list_lookup_insert_ne in Hmoved by exact Hne; congruence.
Qed.

Lemma api_step_enabled a handlers s i c :
  rtc (step w) (initial a handlers) s ->
  threads s !! i = Some (ApiTankdata, c) ->
  has_returned (ApiTankdata, c) = false ->
  exists s',
    step w s s'
    /\ data_lock s' = data_lock s
    /\ cycles s' = cycles s
    /\ updates s' = updates s
    /\ forall j, j <> i -> threads s' !! j = threads s !! j.
Proof.
  intros Hreach Hi Hc.
  pose proof (placed_reachable w a handlers s Hreach) as Hp.
  pose proof (Forall_lookup_1 _ _ _ _ Hp Hi) as Hpt.
  destruct c as [|p|p|r]; try discriminate.
  - eexists. split; [apply (step_api_call w s i Hi)|]. simpl.
    repeat split. intros j Hj. apply list_lookup_insert_ne. congruence.
  - destruct p as [r|f k].
    + eexists. split; [apply (step_api_return w s i r Hi)|]. simpl.
      repeat split. intros j Hj. apply list_lookup_insert_ne. congruence.
    + eexists. split; [apply (step_api_fetch w s i f k Hi)|]. simpl.
      repeat split. intros j Hj. apply list_lookup_insert_ne. congruence.
Qed.

(** C10.  Every call of the records-read endpoint runs a fetch cycle of
    its own.  Run without another thread acting in between, it makes
    [DATA_DIR], connects and, when the server answers, lists the
    directory, downloads the selected files and closes; its answer is
    the outcome of that fetch: the records are those that the
    extractor gives for the files that this fetch downloaded, every
    one of them, sorted, and the answer is the same whatever the
    process had stored before.  The call leaves [last_update_time] and
    the report as they were.  Among the threads it neither waits for
    [data_lock] nor takes it: it can run from its entry to its return
    while the lock is held, each of its steps is enabled whatever the
    other threads do, and none of them changes the lock. *)
Theorem records_read_fetches_afresh a :
  sftp_calls (disk (snd (api_tankdata w a)))
  = sftp_calls (disk a)
    ++ match mkdir w DATA_DIR with
       | Raise _ => []
       | Ok _ =>
           Connect
           :: match connect (sftp_server w) with
              | Raise _ => []
              | Ok sftp =>
                  ListDir SFTP_PATH
                  :: get_calls SFTP_PATH DATA_DIR (selected_files sftp) ++ [Close]
              end
       end
  /\ fst (api_tankdata w a) = records_of (fst (fetch_and_process_data w (disk a)))
  /\ (forall data n,
        fst (api_tankdata w a) = Data data n ->
        exists sftp,
          connect (sftp_server w) = Ok sftp
          /\ data = sort_desc String.ltb raw_date (extracted sftp (files (disk a)))
          /\ n = length data
          /\ forall r, In r data <->
               exists f content,
                 In f (selected_files sftp)
                 /\ get sftp (remote_of SFTP_PATH f) = Ok content
                 /\ parse_xml_file (files (disk (snd (api_tankdata w a))))
                      (local_of DATA_DIR f) = Some r)
  /\ (forall sftp f content r,
        mkdir w DATA_DIR = Ok tt ->
        connect (sftp_server w) = Ok sftp ->
        close sftp = Ok tt ->
        In f (selected_files sftp) ->
        get sftp (remote_of SFTP_PATH f) = Ok content ->
        parse_xml_file (files (disk (snd (api_tankdata w a)))) (local_of DATA_DIR f)
        = Some r ->
        exists data, fst (api_tankdata w a) = Data data (length data) /\ In r data)
  /\ (forall a', fst (api_tankdata w a') = fst (api_tankdata w a))
  /\ last_update_time (snd (api_tankdata w a)) = last_update_time a
  /\ output_file (disk (snd (api_tankdata w a))) = output_file (disk a)
  /\ (forall s i,
        threads s !! i = Some (ApiTankdata, Called) ->
        rtc (step w) s (after_read w i s)
        /\ data_lock (after_read w i s) = data_lock s)
  /\ (forall handlers s i c,
        rtc (step w) (initial a handlers) s ->
        threads s !! i = Some (ApiTankdata, c) ->
        has_returned (ApiTankdata, c) = false ->
        exists s',
          step w s s'
          /\ data_lock s' = data_lock s
          /\ cycles s' = cycles s
          /\ updates s' = updates s
          /\ forall j, j <> i -> threads s' !! j = threads s !! j)
  /\ (forall s s' i c,
        step w s s' ->
        threads s !! i = Some (ApiTankdata, c) ->
        threads s' !! i <> threads s !! i ->
        data_lock s' = data_lock s).
Proof.
  rewrite api_tankdata_eq. cbn [fst snd disk last_update_time].
  split; [apply fetch_calls|]. split; [reflexivity|].
  split.
  { intros data n Hdata. apply records_of_Data in Hdata as [Hr ->].
    destruct (fetch_and_process_data w (disk a)) as [r s'] eqn:E.
    cbn [fst snd] in *. subst r.
    destruct (fetched_records_iff w _ _ _ E) as (sftp & Hc & _ & Hd & _ & Hin).
    exists sftp. auto. }
  split.
  { intros sftp f content r Hd Hc Hcl Hf Hget Hr.
    assert (Hsel : selected_files sftp <> []) by (intros E; rewrite E in Hf; destruct Hf).
    pose proof (fetch_and_process_data_ok w (disk a) sftp Hd Hc Hcl Hsel) as E.
    destruct (fetched_records_iff w _ _ _ E) as (sftp' & Hc' & _ & _ & _ & Hin).
    assert (sftp' = sftp) as -> by congruence.
    rewrite E in Hr |- *. cbn [fst snd] in *.
    assert (Hr' : In r (sort_desc String.ltb raw_date (extracted sftp (files (disk a)))))
      by (apply Hin; eauto 10).
    exists (sort_desc String.ltb raw_date (extracted sftp (files (disk a)))).
    split; [|exact Hr'].
    destruct (sort_desc String.ltb raw_date (extracted sftp (files (disk a))));
      [destruct Hr'|reflexivity]. }
  split.
  { intros a'. rewrite api_tankdata_eq. cbn [fst].
    rewrite (fetch_fresh w (disk a') (disk a)). reflexivity. }
  split; [reflexivity|]. split; [apply fetch_keeps|].
  split; [intros s i Hi; split; [apply api_tankdata_run; exact Hi|reflexivity]|].
  split; [apply api_step_enabled|apply api_steps_leave_lock].
Qed.

(** A run of [update_data] without data is reported as a success. *)
Lemma update_data_no_data now t a mqtt_client :
  mqtt_setup w = Ok mqtt_client ->
  fst (fetch_and_process_data w (greeted w (disk a))) = Ok None ->
  update_data w now t a
  = ((true, DataUpdated),
     {| last_update_time := t;
        disk := snd (fetch_and_process_data w (greeted w (disk a))) |}).
Proof.
  intros Hm H. unfold update_data. rewrite (main_no_data w now (disk a) _ Hm H).
  reflexivity.
Qed.

End ReadFacts.

Section ServerExamples.
Import Py ET Reader WebServer Examples.



Example two_docs_order :
  map raw_date (fetched_records two_docs) = ["5 March 2024"; "2024-03-05T10:11:12"].
Proof. reflexivity. Qed.

(** C2: the server cannot be reached, or its listing fails.  The
    refresh reports success and assigns [last_update_time], 100 before,
    the time of this run; the report stays as it was. *)
Theorem transport_failure_reported_as_success :
  update_data (plain_world unreachable) 400 401 app0
  = ((true, DataUpdated),
     {| last_update_time := 401; disk := called [Connect] (disk app0) |})
  /\ update_data (plain_world (serving (Raise OSError) (fun _ => Raise OSError)))
       400 401 app0
     = ((true, DataUpdated),
        {| last_update_time := 401;
           disk := called [Connect; ListDir SFTP_PATH; Close] (disk app0) |})
  /\ last_update_time app0 = 100%Z
  /\ output_file (called [Connect; ListDir SFTP_PATH; Close] (disk app0))
     = output_file (disk app0).
Proof.
  split; [|split; [|split; reflexivity]].
  - rewrite (update_data_no_data _ _ _ _ (Some accept_all)) by reflexivity. reflexivity.
  - rewrite (update_data_no_data _ _ _ _ (Some accept_all)) by reflexivity. reflexivity.
Qed.

(** The same with a broker that has answered: the status message is
    published, and the refresh reports success as before. *)
Example transport_failure_after_greeting :
  fst (update_data (answering_world unreachable) 400 401 app0) = (true, DataUpdated)
  /\ last_update_time (snd (update_data (answering_world unreachable) 400 401 app0))
     = 401%Z
  /\ mqtt_calls (disk (snd (update_data (answering_world unreachable) 400 401 app0)))
     = [(TStatus, PStatus "online", true)].
Proof. split; [reflexivity|]. split; reflexivity. Qed.

(** A failure that [update_data] does report: [main] raises because
    the report cannot be opened.  [last_update_time] stays. *)
Example write_failure_reported :
  fst (update_data (read_only_world two_docs) 400 401 app0)
  = (false, ErrorUpdating OSError)
  /\ last_update_time (snd (update_data (read_only_world two_docs) 400 401 app0))
     = 100%Z.
Proof. split; reflexivity. Qed.

(** C9, witness: two calls of [update_data], one after the other. *)
Lemma update_calls_run_one_at_a_time_witness :
  rtc (step (plain_world two_docs)) (initial app0 [UpdateData; UpdateData])
    (after_update (plain_world two_docs) 410 411 1
       (after_update (plain_world two_docs) 400 401 0
          (initial app0 [UpdateData; UpdateData])))
  /\ (length (List.filter in_cycle
                (threads
                   (after_update (plain_world two_docs) 410 411 1
                      (after_update (plain_world two_docs) 400 401 0
                         (initial app0 [UpdateData; UpdateData]))))) <= 1)%nat.
Proof.
  pose proof (two_updates_run (plain_world two_docs) app0 400 401 410 411) as H.
  split; [exact H|].
  exact (proj1 (update_calls_run_one_at_a_time (plain_world two_docs) app0 _ _ H)).
Defined.

(** C9, counterexample: two calls of [update_data] from [/reload].
    The second waits for the lock, then runs a fetch cycle of its own
    and returns its own result; [last_update_time] is assigned twice,
    and no call is turned away. *)
Lemma two_updates_two_assignments :
  exists s,
    rtc (step (plain_world two_docs)) (initial app0 [UpdateData; UpdateData]) s
    /\ threads s = [(UpdateData, Returned (Reloaded true DataUpdated));
                    (UpdateData, Returned (Reloaded true DataUpdated))]
    /\ cycles s = 2%nat
    /\ updates s = 2%nat
    /\ last_update_time (state s) = 411%Z.
Proof.
  exists (after_update (plain_world two_docs) 410 411 1
            (after_update (plain_world two_docs) 400 401 0
               (initial app0 [UpdateData; UpdateData]))).
  split; [apply two_updates_run|].
  split; [reflexivity|]. split; [reflexivity|]. split; reflexivity.
Qed.

(** C10, witness: a read that runs from its entry to its return while a
    call of [update_data] holds the lock, [main] not yet begun. *)
Lemma records_read_fetches_afresh_witness :
  let s := {| state := app0; data_lock := true;
              threads := [(UpdateData, InMain (main (plain_world two_docs) 400));
                          (ApiTankdata, Called)];
              cycles := 1; updates := 0 |} in
  threads s !! 1%nat = Some (ApiTankdata, Called)
  /\ rtc (step (plain_world two_docs)) s (after_read (plain_world two_docs) 1 s)
  /\ data_lock (after_read (plain_world two_docs) 1 s) = true.
Proof.
  intros s.
  assert (H : threads s !! 1%nat = Some (ApiTankdata, Called)) by reflexivity.
  split; [exact H|].
  exact (proj1 (proj2 (proj2 (proj2 (proj2 (proj2 (proj2 (proj2
           (records_read_fetches_afresh (plain_world two_docs) app0))))))))
           s 1%nat H).
Defined.

Example read_is_fresh :
  match fst (api_tankdata (plain_world two_docs) app0) with
  | Data data count => (map raw_date data, count)
  | _ => ([], 0%nat)
  end = (["5 March 2024"; "2024-03-05T10:11:12"], 2%nat).
Proof. reflexivity. Qed.

(** The read and the refresh interleave: the read downloads a file
    after [main] has connected and before [main] lists the
    directory. *)
Example read_interleaves_with_main :
  exists s,
    rtc (step (plain_world two_docs)) (initial app0 [UpdateData; ApiTankdata]) s
    /\ data_lock s = true
    /\ sftp_calls (disk (state s))
       = [Connect; Connect; ListDir SFTP_PATH;
          Get (SFTP_PATH +:+ "/new.xml") (DATA_DIR +:+ "/new.xml")]
    /\ Forall (fun t => has_returned t = false) (threads s).
Proof.
  eexists. split.
  { eapply rtc_l; [apply (step_acquire _ _ 0%nat 400%Z); reflexivity|].
    eapply rtc_l; [eapply (step_main _ _ 0%nat); reflexivity|].
    eapply rtc_l; [apply (step_api_call _ _ 1%nat); reflexivity|].
    eapply rtc_l; [eapply (step_api_fetch _ _ 1%nat); reflexivity|].
    eapply rtc_l; [eapply (step_api_fetch _ _ 1%nat); reflexivity|].
    eapply rtc_l; [eapply (step_api_fetch _ _ 1%nat); reflexivity|].
    reflexivity. }
  split; [reflexivity|]. split; [reflexivity|].
  repeat constructor.
Qed.

End ServerExamples.

(* ===================================================================== *)
(** ** Further properties of the reader *)
(* ===================================================================== *)

Section MoreExtractorFacts.
Import Py ET Reader.
Context `{FM : FloatModel}.

Local Arguments strptime : simpl never.

Lemma located_transaction_None fs file_path :
located_transaction fs file_path = None <->
fs !! file_path = None \/ fs !! file_path = Some Malformed
\/ exists root, fs !! file_path = Some (WellFormed root)
                /\ find_desc "Transaction" root = None.
Proof.
unfold located_transaction, parse.
destruct (fs !! file_path) as [[|root]|].
- split; auto.
- split.
  + intros H. right. right. eauto.
  + intros [H|[H|(root' & [= <-] & H)]]; [discriminate|discriminate|exact H].
- split; auto.
Qed.

Lemma extract_date_raises t (td : record) :
(exists e, extract_date t td = Raise e) <->
exists el, find_child "TransactionStartDate" t = Some el /\ text el = None.
Proof.
unfold extract_date.
destruct (find_child "TransactionStartDate" t) as [el|].
- destruct (text el) as [txt|] eqn:Htxt.
  + split; [|intros (el' & [= <-] & H); congruence].
    intros [e He]. exfalso.
    destruct (strptime_text txt Fmt_Ymd_HMS) as [[d E1]|E1]; rewrite E1 in He;
      simpl in He; [discriminate|].
    destruct (strptime_text txt Fmt_dmY_HMS) as [[d E2]|E2]; rewrite E2 in He;
      simpl in He; discriminate.
  + split; [eauto|]. intros _. exists TypeError. reflexivity.
- split; [intros [e He]; discriminate|intros (el & [=] & _)].
Qed.

Lemma extract_quantity_raises t (td : record) :
(exists e, extract_quantity t td = Raise e) <->
exists el, find_child "TransactionQuantity" t = Some el /\ text el = None.
Proof.
unfold extract_quantity, py_float.
destruct (find_child "TransactionQuantity" t) as [el|].
- destruct (text el) as [txt|] eqn:Htxt.
  + split; [|intros (el' & [= <-] & H); congruence].
    intros [e He]. exfalso.
    destruct (float_of_str txt); simpl in He; discriminate.
  + split; [eauto|]. intros _. exists TypeError. reflexivity.
- split; [intros [e He]; discriminate|intros (el & [=] & _)].
Qed.

(** X1.  The extractor gives up on a document, returning [None], in
    exactly these cases: the file is missing or is not well-formed XML;
    no [Transaction] element lies below the root; the date element is
    there without text; the quantity element is there without text.
    Every other absent or odd field leaves a record. *)
Theorem parse_xml_file_gives_up fs file_path :
parse_xml_file fs file_path = None <->
fs !! file_path = None
\/ fs !! file_path = Some Malformed
\/ (exists root, fs !! file_path = Some (WellFormed root)
                 /\ find_desc "Transaction" root = None)
\/ exists t,
     located_transaction fs file_path = Some t
     /\ ((exists el, find_child "TransactionStartDate" t = Some el /\ text el = None)
         \/ (exists el, find_child "TransactionQuantity" t = Some el /\ text el = None)).
Proof.
assert (H0 : parse_xml_file fs file_path = None <->
  located_transaction fs file_path = None
  \/ exists t,
       located_transaction fs file_path = Some t
       /\ ((exists el, find_child "TransactionStartDate" t = Some el /\ text el = None)
           \/ (exists el, find_child "TransactionQuantity" t = Some el
                          /\ text el = None))).
{ unfold parse_xml_file, located_transaction.
  destruct (parse fs file_path) as [root|e]; simpl; [|split; auto].
  destruct (find_desc "Transaction" root) as [t|]; simpl; [|split; auto].
  unfold extract_transaction.
  pose proof (extract_date_raises t
                (extract_text "TransactionNumber"
                   (find_child "TransactionNumber" t) ∅)) as Hd.
  destruct (extract_date t _) as [td1|e1] eqn:E1; simpl.
  - pose proof (extract_quantity_raises t
                  (extract_article t
                     (extract_text "DispenserNumber"
                        (find_desc "DispenserNumber" t) td1))) as Hq.
    destruct (extract_quantity t _) as [td2|e2] eqn:E2; simpl.
    + split; [discriminate|].
      intros [H|(t' & [= <-] & [H|H])]; [discriminate| |].
      * apply Hd in H as [e He]. discriminate.
      * apply Hq in H as [e He]. discriminate.
    + split; [|reflexivity]. intros _. right. exists t. split; [reflexivity|].
      right. apply Hq. eauto.
  - split; [|reflexivity]. intros _. right. exists t. split; [reflexivity|].
    left. apply Hd. eauto. }
rewrite H0, located_transaction_None. tauto.
Qed.

(** X2.  The amount of an extracted record: the display field is the
    text of the quantity element as it stands, and the numeric field is
    [float] of that text, or 0.0 when the text is no number.  The two may
    differ. *)
Theorem amount_fields fs file_path (r : record) t el txt :
parse_xml_file fs file_path = Some r ->
located_transaction fs file_path = Some t ->
find_child "TransactionQuantity" t = Some el ->
text el = Some txt ->
r !! "TransactionQuantity" = Some (VStr txt)
/\ r !! "RawQuantity" = Some (VFloat (default float_zero (float_of_str txt)))
/\ (float_of_str txt = None -> r !! "RawQuantity" = Some (VFloat float_zero)).
Proof.
intros H Ht Hel Htxt. apply parse_xml_file_inv in H as (t' & Ht' & H).
assert (t' = t) as -> by congruence.
apply extract_transaction_inv in H as (disp & key & qdisp & x & _ & Hq & ->).
unfold quantity_fields in Hq. rewrite Hel in Hq.
destruct Hq as (txt' & Htxt' & -> & ->).
assert (txt' = txt) as -> by congruence.
repeat first [rewrite lookup_insert_eq | rewrite lookup_insert_ne by discriminate].
split; [reflexivity|]. split; [reflexivity|].
intros ->. reflexivity.
Qed.

(** X3.  The display date of an extracted record: a date text that the
    format [%Y-%m-%d %H:%M:%S] reads is shown as day, month and year of
    the same date, joined by dots, and its time of day, the year
    without leading zeros; the ISO form of the date is the sort key.
    Any other date text is shown as it stands. *)
Theorem display_date_fields fs file_path (r : record) t el txt :
parse_xml_file fs file_path = Some r ->
located_transaction fs file_path = Some t ->
find_child "TransactionStartDate" t = Some el ->
text el = Some txt ->
match strptime (Some txt) Fmt_Ymd_HMS with
| Ok d =>
    r !! "TransactionStartDate" = Some (VStr (strftime_dmY_HMS d))
    /\ r !! "RawDate" = Some (VStr (isoformat d))
| Raise _ => r !! "TransactionStartDate" = Some (VStr txt)
end.
Proof.
intros H Ht Hel Htxt. apply parse_xml_file_inv in H as (t' & Ht' & H).
assert (t' = t) as -> by congruence.
apply extract_transaction_inv in H as (disp & key & qdisp & x & Hd & _ & ->).
unfold date_fields in Hd. rewrite Hel in Hd.
destruct Hd as (txt' & Htxt' & Hd).
assert (txt' = txt) as -> by congruence.
repeat first [rewrite lookup_insert_eq | rewrite lookup_insert_ne by discriminate].
destruct (strptime (Some txt) Fmt_Ymd_HMS) as [d|e].
- destruct Hd as [-> ->]. split; reflexivity.
- destruct (strptime (Some txt) Fmt_dmY_HMS); destruct Hd as [-> _]; reflexivity.
Qed.

End MoreExtractorFacts.

(* ===================================================================== *)
(** ** Further properties of the pipeline *)
(* ===================================================================== *)

(** A call that downloads a file. *)
Definition is_get (c : Reader.sftp_call) : bool :=
match c with
| Reader.Get _ _ => true
| _ => false
end.

Section MorePipelineFacts.
Import Py ET Reader.
Context `{FM : FloatModel}.

(** X4.  [download_files] never raises.  It asks for every file of the
    list, one [get] each and in order; a download that fails is left out
    of the result and the later files are still fetched.  The result
    holds the local paths of exactly the files whose download returned:
    all of them when no download fails. *)
Theorem download_files_skips_failures sftp remote_path files local_dir s :
fst (download_files sftp remote_path files local_dir s)
= Ok (downloaded_paths sftp remote_path local_dir files)
/\ sftp_calls (snd (download_files sftp remote_path files local_dir s))
   = sftp_calls s
     ++ map (fun f => Get (remote_of remote_path f) (local_of local_dir f)) files
/\ (length (downloaded_paths sftp remote_path local_dir files) <= length files)%nat
/\ (forall p,
      In p (downloaded_paths sftp remote_path local_dir files) <->
      exists f content,
        In f files /\ p = local_of local_dir f
        /\ get sftp (remote_of remote_path f) = Ok content)
/\ ((forall f, In f files ->
       exists content, get sftp (remote_of remote_path f) = Ok content) ->
    downloaded_paths sftp remote_path local_dir files = map (local_of local_dir) files).
Proof.
unfold download_files. rewrite download_loop_eq. simpl.
split; [reflexivity|]. split; [reflexivity|].
split; [apply downloaded_paths_length|].
split; [intros p; apply downloaded_paths_In|apply downloaded_paths_all].
Qed.

Lemma omap_parse_length fs downloaded :
(length (omap (parse_xml_file fs) downloaded) <= length downloaded)%nat.
Proof.
induction downloaded as [|p rest IH]; [reflexivity|].
cbn [omap list_omap]. destruct (parse_xml_file fs p); simpl; lia.
Qed.

Lemma selected_files_length sftp : (length (selected_files sftp) <= 10)%nat.
Proof.
unfold selected_files. destruct (listdir_attr sftp SFTP_PATH); [|simpl; lia].
unfold slice_to, MAX_FILES. simpl. rewrite length_take. lia.
Qed.

(** X5.  A fetch returns at most [MAX_FILES] = 10 records, and each of
    them is what the extractor returns for a file that this fetch
    downloaded into [DATA_DIR]. *)
Theorem fetched_records_bounded w s data_list s' :
fetch_and_process_data w s = (Ok (Some data_list), s') ->
(length data_list <= 10)%nat
/\ forall x, In x data_list ->
     exists sftp f content,
       connect (sftp_server w) = Ok sftp
       /\ In f (selected_files sftp)
       /\ get sftp (remote_of SFTP_PATH f) = Ok content
       /\ parse_xml_file (files s') (local_of DATA_DIR f) = Some x.
Proof.
intros H. destruct (fetched_records_iff w s data_list s' H)
  as (sftp & Hc & _ & -> & _ & Hin).
split.
- rewrite sort_desc_length. unfold extracted.
  pose proof (omap_parse_length
                (downloaded_fs sftp SFTP_PATH DATA_DIR (selected_files sftp) (files s))
                (downloaded_paths sftp SFTP_PATH DATA_DIR (selected_files sftp))).
  pose proof (downloaded_paths_length sftp SFTP_PATH DATA_DIR (selected_files sftp)).
  pose proof (selected_files_length sftp). lia.
- intros x Hx. apply Hin in Hx as (f & content & Hf & Hg & Hx).
  exists sftp, f, content. auto.
Qed.

(** X6.  A fetch raises in two cases only: [DATA_DIR] cannot be made,
    and then nothing is called on the transport, or a session was
    opened and its closing raises.  Otherwise it makes one connection
    attempt; when the connection is made, the calls that follow are the
    listing, then downloads only, at most ten, and the closing as the
    last call, also when nothing matched and when the listing failed.
    The report and the channel are left untouched. *)
Theorem fetch_closes_connection w s :
((exists e, fst (fetch_and_process_data w s) = Raise e) <->
 (exists e, mkdir w DATA_DIR = Raise e)
 \/ (mkdir w DATA_DIR = Ok tt
     /\ exists sftp e, connect (sftp_server w) = Ok sftp /\ close sftp = Raise e))
/\ output_file (snd (fetch_and_process_data w s)) = output_file s
/\ mqtt_calls (snd (fetch_and_process_data w s)) = mqtt_calls s
/\ match mkdir w DATA_DIR with
   | Raise e => fetch_and_process_data w s = (Raise e, s)
   | Ok _ =>
       match connect (sftp_server w) with
       | Raise _ =>
           fetch_and_process_data w s = (Ok None, called [Connect] s)
       | Ok sftp =>
           exists gets,
             sftp_calls (snd (fetch_and_process_data w s))
             = sftp_calls s ++ [Connect; ListDir SFTP_PATH] ++ gets ++ [Close]
             /\ forallb is_get gets = true
             /\ (length gets <= 10)%nat
       end
   end.
Proof.
split.
{ rewrite fetch_and_process_data_eq.
  destruct (mkdir w DATA_DIR) as [[]|e]; [|split; eauto].
  destruct (connect (sftp_server w)) as [sftp|e].
  - destruct (close sftp) as [[]|e'] eqn:Hcl.
    + split.
      * destruct (selected_files sftp); intros [e He]; discriminate.
      * intros [[e He]|[_ (sftp' & e & [= <-] & He)]]; congruence.
    + split; [intros _; right; eauto 10|].
      intros _. destruct (selected_files sftp); eauto.
  - split; [intros [e' He]; discriminate|].
    intros [[e' He]|[_ (sftp & e' & He & _)]]; discriminate. }
split; [apply fetch_keeps|]. split; [apply fetch_keeps|].
rewrite fetch_calls, fetch_and_process_data_eq.
destruct (mkdir w DATA_DIR) as [[]|e]; [|reflexivity].
destruct (connect (sftp_server w)) as [sftp|e]; [|reflexivity].
exists (get_calls SFTP_PATH DATA_DIR (selected_files sftp)).
split; [reflexivity|]. unfold get_calls. split.
- induction (selected_files sftp) as [|f l IH]; [reflexivity|exact IH].
- rewrite length_map. apply selected_files_length.
Qed.

End MorePipelineFacts.

(* ===================================================================== *)
(** ** Further properties of the two sinks *)
(* ===================================================================== *)

Section SinkFacts.
Import Py ET Reader.
Context `{FM : FloatModel}.

(** The count that a category code has in the counts published. *)
Fixpoint count_of (article : value) (article_counts : list (value * nat)) : nat :=
match article_counts with
| [] => 0
| (a, n) :: rest => if decide (a = article) then n else count_of article rest
end.

(** What every extracted record has. *)
Definition shaped (r : record) : Prop :=
truthy r = true
/\ (exists x, r !! "RawQuantity" = Some (VFloat x))
/\ forall k, In k FIELDS -> exists v, r !! k = Some v.

Lemma parse_xml_file_shaped fs file_path (r : record) :
parse_xml_file fs file_path = Some r -> shaped r.
Proof.
intros H. apply parse_xml_file_inv in H as (t & _ & H).
apply extract_transaction_inv in H as (disp & key & qdisp & x & _ & _ & ->).
split; [|split].
- unfold truthy. apply bool_decide_eq_true. apply insert_non_empty.
- exists x.
  repeat first [rewrite lookup_insert_eq | rewrite lookup_insert_ne by discriminate].
  reflexivity.
- intros k Hk. unfold FIELDS in Hk. simpl in Hk.
  repeat (destruct Hk as [<-|Hk];
    [repeat first [rewrite lookup_insert_eq
                  | rewrite lookup_insert_ne by discriminate]; eauto|]).
  destruct Hk.
Qed.

Lemma fetch_shaped w s data_list s' :
fetch_and_process_data w s = (Ok (Some data_list), s') ->
Forall shaped data_list.
Proof.
intros H. destruct (fetched_records_iff w s data_list s' H)
  as (sftp & _ & _ & _ & _ & Hin).
apply List.Forall_forall. intros r Hr.
apply Hin in Hr as (f & content & _ & _ & Hr).
eapply parse_xml_file_shaped, Hr.
Qed.

Lemma shaped_cell (r : record) k :
shaped r -> In k FIELDS -> r !! k = Some (cell r k).
Proof.
intros (_ & _ & H) Hk. destruct (H k Hk) as [v Hv].
unfold cell. rewrite Hv. reflexivity.
Qed.

(** X7.  The report of a fetch has one row per record, in the order of
    the record list, stamped with the time of the run.  The six cells of
    a row are the identifier, display date, station, category, display
    amount and tag stored in the record: no record is skipped and no
    cell falls back to ['N/A'] for a missing key. *)
Theorem report_rows_follow_records w s data_list s' now :
fetch_and_process_data w s = (Ok (Some data_list), s') ->
generated_at (generate_html data_list now) = now
/\ Forall2
     (fun (r : record) row =>
        exists v1 v2 v3 v4 v5 v6,
          row = [v1; v2; v3; v4; v5; v6]
          /\ r !! "TransactionNumber" = Some v1
          /\ r !! "TransactionStartDate" = Some v2
          /\ r !! "DispenserNumber" = Some v3
          /\ r !! "ArticleNumber" = Some v4
          /\ r !! "TransactionQuantity" = Some v5
          /\ r !! "Kennzeichen" = Some v6)
     data_list (rows (generate_html data_list now)).
Proof.
intros H. apply fetch_shaped in H. split; [reflexivity|].
unfold generate_html. simpl.
induction H as [|r l Hr Hl IH]; simpl; [constructor|].
destruct Hr as (Ht & Hq & Hk). rewrite Ht. simpl. constructor; [|exact IH].
assert (Hs : shaped r) by (split; [exact Ht|split; [exact Hq|exact Hk]]).
do 6 eexists. split; [reflexivity|].
repeat split; apply shaped_cell; try exact Hs; unfold FIELDS; simpl; auto 10.
Qed.

Lemma each_messages_shaped (data_list : list record) :
Forall shaped data_list ->
each_messages data_list
= map (fun r => (TTransaction (cell r "TransactionNumber"), PJson r)) data_list.
Proof.
induction 1 as [|r l Hr Hl IH]; [reflexivity|].
simpl. rewrite IH. destruct Hr as (Ht & Hq & Hk). rewrite Ht.
destruct (Hk "TransactionNumber") as [v Hv]; [unfold FIELDS; simpl; auto|].
unfold cell. rewrite Hv. reflexivity.
Qed.

Lemma sum_quantities_shaped (data_list : list record) acc :
Forall shaped data_list -> exists total, sum_quantities acc data_list = Ok total.
Proof.
intros H. revert acc. induction H as [|r l Hr Hl IH]; intros acc; simpl; [eauto|].
destruct Hr as (Ht & [x Hx] & Hk). rewrite Ht, Hx.
destruct acc; simpl; apply IH.
Qed.

(** X8.  For the records of a fetch and a client that accepts every
    message, the publication step performs all five sub-steps: the sum
    of the amounts does not raise, and the calls are the timestamp, the
    full list, one message per record under its identifier, in the order
    of the list, the total and the category counts. *)
Theorem publication_complete w s data_list s' client now s0 :
fetch_and_process_data w s = (Ok (Some data_list), s') ->
(forall t p, accepts client t p = true) ->
exists total_quantity,
  sum_quantities Int0 data_list = Ok total_quantity
  /\ mqtt_calls (snd (publish_to_mqtt (Some client) data_list now s0))
     = mqtt_calls s0
       ++ [(TLastUpdate, PTimestamp now, true);
           (TTransactions, PJsonList data_list, true)]
       ++ map (fun r => (TTransaction (cell r "TransactionNumber"), PJson r, true))
            data_list
       ++ [(TTotalQuantity, PStr total_quantity, true);
           (TArticleCounts, PJsonCounts (count_articles data_list []), true)].
Proof.
intros H Hacc. apply fetch_shaped in H.
destruct (sum_quantities_shaped data_list Int0 H) as [total Htotal].
exists total. split; [exact Htotal|].
rewrite publish_to_mqtt_eq. unfold published. cbn [snd mqtt_calls]. f_equal.
rewrite attempts_all by (apply forallb_forall; intros [t p] _; apply Hacc).
unfold schedule. rewrite Htotal, (each_messages_shaped _ H).
rewrite !map_app, map_map. reflexivity.
Qed.

Lemma count_of_count_article article a (article_counts : list (value * nat)) :
count_of a (count_article article article_counts)
= (count_of a article_counts + if decide (article = a) then 1 else 0)%nat.
Proof.
induction article_counts as [|[b n] rest IH]; simpl.
- destruct (decide (article = a)); reflexivity.
- destruct (decide (b = article)) as [->|Hne]; simpl.
  + destruct (decide (article = a)); lia.
  + destruct (decide (b = a)) as [->|Hne'].
    * destruct (decide (article = a)); [congruence|lia].
    * exact IH.
Qed.

Lemma count_article_keys article (article_counts : list (value * nat)) :
List.NoDup (map fst article_counts) ->
List.NoDup (map fst (count_article article article_counts))
/\ forall b, In b (map fst (count_article article article_counts)) ->
             b = article \/ In b (map fst article_counts).
Proof.
induction article_counts as [|[b n] rest IH]; simpl; intros Hn.
- split; [repeat constructor; intros []|]. intros b [<-|[]]. auto.
- inversion Hn as [|? ? Hb Hrest]; subst.
  destruct (decide (b = article)) as [->|Hne]; simpl.
  + split; [exact Hn|]. intros c [<-|Hc]; auto.
  + destruct (IH Hrest) as [IH1 IH2]. split.
    * constructor; [|exact IH1]. intros Hin. apply IH2 in Hin as [->|Hin]; auto.
    * intros c [<-|Hc]; [auto|]. apply IH2 in Hc as [->|Hc]; auto.
Qed.

(** X9.  The category counts that are published have one entry per
    code, and the count of a code is the number of records of the list
    that carry it under [RawArticleNumber] (empty dicts and records
    without the key are not counted). *)
Theorem article_counts_count (data_list : list record) a :
List.NoDup (map fst (count_articles data_list []))
/\ count_of a (count_articles data_list [])
   = length (List.filter
               (fun d => truthy d && bool_decide (d !! "RawArticleNumber" = Some a))
               data_list).
Proof.
assert (H : forall acc : list (value * nat),
  List.NoDup (map fst acc) ->
  List.NoDup (map fst (count_articles data_list acc))
  /\ count_of a (count_articles data_list acc)
     = (count_of a acc
        + length (List.filter
                    (fun d => truthy d
                              && bool_decide (d !! "RawArticleNumber" = Some a))
                    data_list))%nat).
{ induction data_list as [|d l IH]; intros acc Hacc; simpl; [split; [exact Hacc|lia]|].
  destruct (truthy d); simpl.
  - destruct (d !! "RawArticleNumber") as [article|] eqn:E.
    + destruct (IH (count_article article acc)
                  (proj1 (count_article_keys article acc Hacc))) as [IH1 IH2].
      split; [exact IH1|]. rewrite IH2, count_of_count_article.
      destruct (decide (article = a)) as [->|Hne].
      * rewrite bool_decide_eq_true_2 by reflexivity. simpl. lia.
      * rewrite bool_decide_eq_false_2 by congruence. lia.
    + rewrite bool_decide_eq_false_2 by discriminate. apply IH. exact Hacc.
  - apply IH. exact Hacc. }
destruct (H [] (List.NoDup_nil _)) as [H1 H2]. split; [exact H1|].
rewrite H2. reflexivity.
Qed.

End SinkFacts.

(* ===================================================================== *)
(** ** Further properties of a run and of the server *)
(* ===================================================================== *)

Section MoreServerFacts.
Import Py ET Reader WebServer.
Context `{FM : FloatModel}.
Variable w : world.

Lemma mqtt_calls_greeted (s : io) :
mqtt_calls (greeted w s)
= mqtt_calls s
  ++ match mqtt_setup w, connack (mqtt_broker w) with
     | Ok (Some client), Some rc =>
         if (rc =? 0)%Z
         then [(TStatus, PStatus "online", accepts client TStatus (PStatus "online"))]
         else []
     | _, _ => []
     end.
Proof.
unfold greeted.
destruct (mqtt_setup w) as [[client|]|e]; try (by rewrite app_nil_r).
destruct (connack (mqtt_broker w)) as [rc|]; try (by rewrite app_nil_r).
destruct (rc =? 0)%Z; [reflexivity|by rewrite app_nil_r].
Qed.

Lemma output_file_greeted (s : io) : output_file (greeted w s) = output_file s.
Proof.
unfold greeted.
destruct (mqtt_setup w) as [[client|]|e]; try reflexivity.
destruct (connack (mqtt_broker w)) as [rc|]; try reflexivity.
destruct (rc =? 0)%Z; reflexivity.
Qed.

Lemma greeted_raise (s : io) e : mqtt_setup w = Raise e -> greeted w s = s.
Proof. intros H. unfold greeted. rewrite H. reflexivity. Qed.

(** X10.  What a run of [main] does.  It sets up the MQTT client first:
    when that raises, [main] raises and nothing else is done; when the
    answer of the broker is there as the network thread starts, the
    callback publishes the status message.
    Then it fetches.  Without records (no connection, no listing, no
    matching file, or no document that parses) it returns and leaves
    the report as it is, and so it does when the fetch raises, but
    raising.  With records it opens the report, which empties it, and
    writes the rendering of exactly these records at the time of the
    run: when the report cannot be opened it stays as it was, when it
    cannot be written it is left truncated, and in both cases [main]
    raises and nothing more is published.  After the report it
    publishes the records and shuts the client down; what the shutdown
    raises, [main] raises. *)
Theorem main_effects now (s : io) :
mqtt_calls (greeted w s)
= mqtt_calls s
  ++ match mqtt_setup w, connack (mqtt_broker w) with
     | Ok (Some client), Some rc =>
         if (rc =? 0)%Z
         then [(TStatus, PStatus "online", accepts client TStatus (PStatus "online"))]
         else []
     | _, _ => []
     end
/\ match mqtt_setup w with
   | Raise e => main w now s = (Raise e, s)
   | Ok mqtt_client =>
       match fst (fetch_and_process_data w (greeted w s)) with
       | Raise e =>
           fst (main w now s) = Raise e
           /\ output_file (snd (main w now s)) = output_file s
           /\ mqtt_calls (snd (main w now s)) = mqtt_calls (greeted w s)
       | Ok (Some (x :: l)) =>
           match output_open w, output_write w with
           | Raise e, _ =>
               fst (main w now s) = Raise e
               /\ output_file (snd (main w now s)) = output_file s
               /\ mqtt_calls (snd (main w now s)) = mqtt_calls (greeted w s)
           | Ok _, Raise e =>
               fst (main w now s) = Raise e
               /\ output_file (snd (main w now s)) = Some Truncated
               /\ mqtt_calls (snd (main w now s)) = mqtt_calls (greeted w s)
           | Ok _, Ok _ =>
               output_file (snd (main w now s))
               = Some (Page (generate_html (x :: l) now))
               /\ match mqtt_client with
                  | Some client =>
                      fst (main w now s) = (loop_stop client;; disconnect client)
                      /\ mqtt_calls (snd (main w now s))
                         = mqtt_calls (greeted w s)
                           ++ attempts client (schedule (x :: l) now)
                  | None =>
                      fst (main w now s) = Ok tt
                      /\ mqtt_calls (snd (main w now s)) = mqtt_calls (greeted w s)
                  end
           end
       | Ok _ =>
           fst (main w now s) = Ok tt
           /\ output_file (snd (main w now s)) = output_file s
           /\ mqtt_calls (snd (main w now s)) = mqtt_calls (greeted w s)
       end
   end.
Proof.
split; [apply mqtt_calls_greeted|].
rewrite main_eq.
destruct (mqtt_setup w) as [mqtt_client|e] eqn:Hm;
  [|by rewrite (greeted_raise s e Hm)].
destruct (fetch_keeps w (greeted w s)) as [Ho Hc].
rewrite output_file_greeted in Ho.
destruct (fetch_and_process_data w (greeted w s)) as [r s1].
cbn [fst snd] in *. destruct r as [[[|x l]|]|e]; cbn [fst snd]; auto.
unfold written.
destruct (output_open w) as [[]|e]; [|cbn [fst snd]; auto].
destruct (output_write w) as [[]|e]; [|cbn [fst snd wrote output_file mqtt_calls]; auto].
destruct mqtt_client as [client|];
  cbn [fst snd wrote published output_file mqtt_calls]; rewrite ?Hc; auto.
Qed.

(** X11.  [update_data] reports a failure exactly when [main] raises:
    the set-up of the MQTT client raises, the fetch raises, the report
    cannot be opened or written after records were fetched, or the
    shutdown of the client raises after they were published.  It then
    leaves [last_update_time] as it was.  In every other case it
    reports success and assigns the time: a server that cannot be
    reached is one of them. *)
Theorem update_data_reports_failure now t a :
(fst (fst (update_data w now t a)) = false <->
 (exists e, mqtt_setup w = Raise e)
 \/ exists mqtt_client,
      mqtt_setup w = Ok mqtt_client
      /\ ((exists e, fst (fetch_and_process_data w (greeted w (disk a))) = Raise e)
          \/ exists x l,
               fst (fetch_and_process_data w (greeted w (disk a))) = Ok (Some (x :: l))
               /\ ((exists e, output_open w = Raise e)
                   \/ (output_open w = Ok tt /\ exists e, output_write w = Raise e)
                   \/ (output_open w = Ok tt /\ output_write w = Ok tt
                       /\ exists client e,
                            mqtt_client = Some client
                            /\ (loop_stop client;; disconnect client) = Raise e))))
/\ (fst (fst (update_data w now t a)) = true ->
    update_data w now t a
    = ((true, DataUpdated),
       {| last_update_time := t; disk := snd (main w now (disk a)) |}))
/\ (fst (fst (update_data w now t a)) = false ->
    exists e,
      fst (main w now (disk a)) = Raise e
      /\ fst (update_data w now t a) = (false, ErrorUpdating e)
      /\ last_update_time (snd (update_data w now t a)) = last_update_time a)
/\ (forall mqtt_client e,
      mqtt_setup w = Ok mqtt_client ->
      mkdir w DATA_DIR = Ok tt ->
      connect (sftp_server w) = Raise e ->
      fst (update_data w now t a) = (true, DataUpdated)).
Proof.
split; [|split; [|split]].
- unfold update_data. rewrite main_eq.
  destruct (mqtt_setup w) as [mqtt_client|e]; cbn [fst];
    [|split; [eauto|reflexivity]].
  destruct (fetch_and_process_data w (greeted w (disk a))) as [r s1].
  cbn [fst]. destruct r as [[[|x l]|]|e]; cbn [fst].
  + split; [discriminate|].
    intros [[e He]|(mc & _ & [[e He]|(x & l & He & _)])]; discriminate.
  + unfold written.
    destruct (output_open w) as [[]|e]; cbn [fst];
      [|split; [intros _; right; eauto 15|reflexivity]].
    destruct (output_write w) as [[]|e]; cbn [fst];
      [|split; [intros _; right; eauto 15|reflexivity]].
    destruct mqtt_client as [client|]; cbn [fst].
    * destruct (loop_stop client;; disconnect client) as [[]|e] eqn:Hs; cbn [fst].
      -- split; [discriminate|].
         intros [[e He]|(mc & [= <-] & [[e He]|(x' & l' & _ & [[e He]|[[_ [e He]]|H]])])];
           try discriminate.
         destruct H as (_ & _ & client' & e & [= <-] & He). congruence.
      -- split; [intros _; right; eauto 20|reflexivity].
    * split; [discriminate|].
      intros [[e He]|(mc & [= <-] & [[e He]|(x' & l' & _ & [[e He]|[[_ [e He]]|H]])])];
        try discriminate.
      destruct H as (_ & _ & client' & e & [=] & _).
  + split; [discriminate|].
    intros [[e He]|(mc & _ & [[e He]|(x & l & He & _)])]; discriminate.
  + split; [intros _; right; eauto 10|reflexivity].
- unfold update_data.
  destruct (main w now (disk a)) as [[[]|e] d]; cbn [fst snd];
    [reflexivity|discriminate].
- unfold update_data.
  destruct (main w now (disk a)) as [[[]|e] d]; cbn [fst snd];
    [discriminate|eauto].
- intros mqtt_client e Hm Hd Hc. unfold update_data.
  rewrite (main_no_data w now (disk a) mqtt_client Hm); [reflexivity|].
  rewrite fetch_and_process_data_eq, Hd, Hc. reflexivity.
Qed.

End MoreServerFacts.

(* ===================================================================== *)
(** ** The display date read back *)
(* ===================================================================== *)

Section DateRoundTrip.
Import Py ET Reader.
Local Open Scope Z_scope.

(** The first match of a pattern. *)
Definition heads {A} (l : list (A * list N)) (x : A * list N) : Prop :=
exists tl, l = x :: tl.

(** The code point of a digit. *)
Definition code (k : Z) : N := N_of_ascii (digit_char k).

Lemma code_eq k : 0 <= k < 10 -> code k = Z.to_N (48 + k).
Proof.
intros Hk. unfold code, digit_char, ascii_of_nat.
rewrite N_ascii_embedding by lia. lia.
Qed.

(** The characters of a text of ASCII are its bytes. *)
Lemma utf8_decode_ascii (l : list ascii) :
Forall (fun c => (N_of_ascii c < 128)%N) l ->
utf8_decode 0 0 l = map N_of_ascii l.
Proof.
induction 1 as [|c l Hc _ IH]; [reflexivity|].
cbn [utf8_decode map]. rewrite (proj2 (N.ltb_lt _ _) Hc), IH. reflexivity.
Qed.

Lemma ascii_digit k : 0 <= k < 10 -> (N_of_ascii (digit_char k) < 128)%N.
Proof. intros Hk. fold (code k). rewrite code_eq by exact Hk. lia. Qed.

Lemma ascii_pad2 n : Forall (fun c => (N_of_ascii c < 128)%N) (pad2 n).
Proof.
unfold pad2. repeat constructor; apply ascii_digit, Z.mod_pos_bound; lia.
Qed.

Lemma ascii_pad4 n : Forall (fun c => (N_of_ascii c < 128)%N) (pad4 n).
Proof.
unfold pad4. repeat constructor; apply ascii_digit, Z.mod_pos_bound; lia.
Qed.

Lemma heads_bind {A B} (p : rx A) (f : A -> rx B) s a r x :
heads (p s) (a, r) -> heads (f a r) x -> heads (rx_bind p f s) x.
Proof.
intros [tl Hp] [tl' Hf]. unfold rx_bind. rewrite Hp. simpl. rewrite Hf.
eexists. reflexivity.
Qed.

Lemma heads_alt_l {A} (p q : rx A) s x : heads (p s) x -> heads (rx_alt p q s) x.
Proof. intros [tl Hp]. unfold rx_alt. rewrite Hp. eexists. reflexivity. Qed.

Lemma heads_alt_r {A} (p q : rx A) s x :
p s = [] -> heads (q s) x -> heads (rx_alt p q s) x.
Proof. intros Hp [tl Hq]. unfold rx_alt. rewrite Hp, Hq. eexists. reflexivity. Qed.

Lemma rx_digit_code (lo hi : N) k r :
0 <= k < 10 ->
rx_digit lo hi (code k :: r)
= if (Z.of_N lo <=? k) && (k <=? Z.of_N hi) then [(k, r)] else [].
Proof.
intros Hk. unfold rx_digit. rewrite code_eq by exact Hk.
destruct (Z.leb_spec (Z.of_N lo) k), (Z.leb_spec k (Z.of_N hi)); cbn [andb].
- rewrite (proj2 (N.leb_le _ _)) by lia. rewrite (proj2 (N.leb_le _ _)) by lia.
  cbn [andb]. do 2 f_equal. lia.
- rewrite (proj2 (N.leb_gt _ (48 + hi))) by lia.
  rewrite andb_false_r. reflexivity.
- rewrite (proj2 (N.leb_gt (48 + lo) _)) by lia. reflexivity.
- rewrite (proj2 (N.leb_gt (48 + lo) _)) by lia. reflexivity.
Qed.

Lemma ten_cases k : 0 <= k < 10 ->
k = 0 \/ k = 1 \/ k = 2 \/ k = 3 \/ k = 4 \/ k = 5 \/ k = 6 \/ k = 7 \/ k = 8 \/ k = 9.
Proof. lia. Qed.

Lemma rx_decimal_code k r : 0 <= k < 10 -> rx_decimal (code k :: r) = [(k, r)].
Proof.
intros Hk. unfold rx_decimal.
assert (H : decimal (code k) = Some k).
{ destruct (ten_cases k Hk) as [->|[->|[->|[->|[->|[->|[->|[->|[->| ->]]]]]]]]];
    reflexivity. }
rewrite H. reflexivity.
Qed.

Lemma is_space_code k : 0 <= k < 10 -> is_space (code k) = false.
Proof.
intros Hk.
destruct (ten_cases k Hk) as [->|[->|[->|[->|[->|[->|[->|[->|[->| ->]]]]]]]]];
  reflexivity.
Qed.

Lemma rx_pair_digits (lo1 hi1 lo2 hi2 : N) a b r :
0 <= a < 10 -> 0 <= b < 10 ->
rx_pair (rx_digit lo1 hi1) (rx_digit lo2 hi2) (code a :: code b :: r)
= if (Z.of_N lo1 <=? a) && (a <=? Z.of_N hi1)
     && ((Z.of_N lo2 <=? b) && (b <=? Z.of_N hi2))
  then [(10 * a + b, r)] else [].
Proof.
intros Ha Hb. unfold rx_pair, rx_bind. rewrite rx_digit_code by exact Ha.
destruct ((Z.of_N lo1 <=? a) && (a <=? Z.of_N hi1));
  cbn [andb flat_map fst snd app]; [|reflexivity].
rewrite rx_digit_code by exact Hb.
destruct ((Z.of_N lo2 <=? b) && (b <=? Z.of_N hi2)); reflexivity.
Qed.

Lemma rx_pair_decimal (lo hi : N) a b r :
0 <= a < 10 -> 0 <= b < 10 ->
rx_pair (rx_digit lo hi) rx_decimal (code a :: code b :: r)
= if (Z.of_N lo <=? a) && (a <=? Z.of_N hi) then [(10 * a + b, r)] else [].
Proof.
intros Ha Hb. unfold rx_pair, rx_bind. rewrite rx_digit_code by exact Ha.
destruct ((Z.of_N lo <=? a) && (a <=? Z.of_N hi));
  cbn [andb flat_map fst snd app]; [|reflexivity].
rewrite rx_decimal_code by exact Hb. reflexivity.
Qed.

Ltac decide_range :=
repeat match goal with
| |- context [(?x <=? ?y)] =>
    first [rewrite (proj2 (Z.leb_le x y)) by lia
          | rewrite (proj2 (Z.leb_gt x y)) by lia]
end; cbn [andb].

Lemma two_digits n : 0 <= n < 100 ->
0 <= n / 10 mod 10 < 10 /\ 0 <= n mod 10 < 10
/\ 10 * (n / 10 mod 10) + n mod 10 = n.
Proof. intros. Z.div_mod_to_equations. lia. Qed.

(** The code points of a number of two digits. *)
Definition codes2 (n : Z) : list N := [code (n / 10 mod 10); code (n mod 10)].

Definition codes4 (n : Z) : list N :=
[code (n / 1000 mod 10); code (n / 100 mod 10); code (n / 10 mod 10); code (n mod 10)].

Ltac pair_digits :=
rewrite rx_pair_digits by assumption; simpl Z.of_N; decide_range.

Ltac pair_decimal :=
rewrite rx_pair_decimal by assumption; simpl Z.of_N; decide_range.

Lemma rx_d_pad n r : 1 <= n <= 31 -> heads (rx_d (codes2 n ++ r)) (n, r).
Proof.
intros Hn. destruct (two_digits n) as (Ha & Hb & E); [lia|].
unfold codes2. cbn [app]. set (a := n / 10 mod 10) in *. set (b := n mod 10) in *.
unfold rx_d.
assert (Hc : a = 3 \/ 1 <= a <= 2 \/ a = 0) by lia.
destruct Hc as [Hc|[Hc|Hc]].
- apply heads_alt_l. pair_digits. rewrite E. eexists. reflexivity.
- apply heads_alt_r; [pair_digits; reflexivity|].
  apply heads_alt_l. pair_decimal. rewrite E. eexists. reflexivity.
- apply heads_alt_r; [pair_digits; reflexivity|].
  apply heads_alt_r; [pair_decimal; reflexivity|].
  apply heads_alt_l. pair_digits. rewrite E. eexists. reflexivity.
Qed.

Lemma rx_m_pad n r : 1 <= n <= 12 -> heads (rx_m (codes2 n ++ r)) (n, r).
Proof.
intros Hn. destruct (two_digits n) as (Ha & Hb & E); [lia|].
unfold codes2. cbn [app]. set (a := n / 10 mod 10) in *. set (b := n mod 10) in *.
unfold rx_m.
assert (Hc : a = 1 \/ a = 0) by lia.
destruct Hc as [Hc|Hc].
- apply heads_alt_l. pair_digits. rewrite E. eexists. reflexivity.
- apply heads_alt_r; [pair_digits; reflexivity|].
  apply heads_alt_l. pair_digits. rewrite E. eexists. reflexivity.
Qed.

Lemma rx_H_pad n r : 0 <= n <= 23 -> heads (rx_H (codes2 n ++ r)) (n, r).
Proof.
intros Hn. destruct (two_digits n) as (Ha & Hb & E); [lia|].
unfold codes2. cbn [app]. set (a := n / 10 mod 10) in *. set (b := n mod 10) in *.
unfold rx_H.
assert (Hc : a = 2 \/ 0 <= a <= 1) by lia.
destruct Hc as [Hc|Hc].
- apply heads_alt_l. pair_digits. rewrite E. eexists. reflexivity.
- apply heads_alt_r; [pair_digits; reflexivity|].
  apply heads_alt_l. pair_decimal. rewrite E. eexists. reflexivity.
Qed.

Lemma rx_M_pad n r : 0 <= n <= 59 -> heads (rx_M (codes2 n ++ r)) (n, r).
Proof.
intros Hn. destruct (two_digits n) as (Ha & Hb & E); [lia|].
unfold codes2. cbn [app]. set (a := n / 10 mod 10) in *. set (b := n mod 10) in *.
unfold rx_M. apply heads_alt_l. pair_decimal. rewrite E. eexists. reflexivity.
Qed.

Lemma rx_S_pad n r : 0 <= n <= 59 -> heads (rx_S (codes2 n ++ r)) (n, r).
Proof.
intros Hn. destruct (two_digits n) as (Ha & Hb & E); [lia|].
unfold codes2. cbn [app]. set (a := n / 10 mod 10) in *. set (b := n mod 10) in *.
unfold rx_S.
apply heads_alt_r; [pair_digits; reflexivity|].
apply heads_alt_l. pair_decimal. rewrite E. eexists. reflexivity.
Qed.

Lemma rx_Y_pad n r : 0 <= n <= 9999 -> heads (rx_Y (codes4 n ++ r)) (n, r).
Proof.
intros Hn. unfold codes4, rx_Y, rx_bind. cbn [app].
assert (H1 : 0 <= n / 1000 mod 10 < 10) by (apply Z.mod_pos_bound; lia).
assert (H2 : 0 <= n / 100 mod 10 < 10) by (apply Z.mod_pos_bound; lia).
assert (H3 : 0 <= n / 10 mod 10 < 10) by (apply Z.mod_pos_bound; lia).
assert (H4 : 0 <= n mod 10 < 10) by (apply Z.mod_pos_bound; lia).
rewrite rx_decimal_code by exact H1. cbn [flat_map fst snd app].
rewrite rx_decimal_code by exact H2. cbn [flat_map fst snd app].
rewrite rx_decimal_code by exact H3. cbn [flat_map fst snd app].
rewrite rx_decimal_code by exact H4. cbn [flat_map fst snd app].
unfold rx_ret. cbn [app]. eexists. do 2 f_equal.
clear H1 H2 H3 H4.
replace (n / 1000) with (n / 10 / 10 / 10)
  by (rewrite !Z.div_div by lia; reflexivity).
replace (n / 100) with (n / 10 / 10) by (rewrite !Z.div_div by lia; reflexivity).
Z.div_mod_to_equations. lia.
Qed.

Lemma rx_char_head c r : heads (rx_char c (N_of_ascii c :: r)) (tt, r).
Proof. unfold rx_char. rewrite N.eqb_refl. eexists. reflexivity. Qed.

Lemma rx_spaces_one n r :
0 <= n < 100 ->
heads (rx_spaces (N_of_ascii " " :: codes2 n ++ r)) (tt, codes2 n ++ r).
Proof.
intros Hn. destruct (two_digits n) as (Ha & _ & _); [exact Hn|].
unfold rx_spaces, codes2. cbn [app].
change (is_space (N_of_ascii " ")) with true. cbn iota.
cbn [spaces_star]. rewrite is_space_code by exact Ha.
eexists. reflexivity.
Qed.

Lemma rx_time_head mk h mi sc :
0 <= h <= 23 -> 0 <= mi <= 59 -> 0 <= sc <= 59 ->
heads (rx_time mk (N_of_ascii " " :: codes2 h ++ N_of_ascii ":" :: codes2 mi
                   ++ N_of_ascii ":" :: codes2 sc))
  (mk h mi sc, []).
Proof.
intros Hh Hmi Hs. unfold rx_time.
eapply heads_bind; [apply rx_spaces_one; lia|].
eapply heads_bind; [apply rx_H_pad; exact Hh|].
eapply heads_bind; [apply rx_char_head|].
eapply heads_bind; [apply rx_M_pad; exact Hmi|].
eapply heads_bind; [apply rx_char_head|].
eapply heads_bind.
{ rewrite <- (app_nil_r (codes2 sc)). apply rx_S_pad. exact Hs. }
eexists. reflexivity.
Qed.

(** The characters of a display date of the year 1000 or later. *)
Lemma chars_strftime (d : datetime) :
1000 <= year d ->
chars (strftime_dmY_HMS d)
= codes2 (day d) ++ N_of_ascii "." :: codes2 (month d) ++ N_of_ascii "."
  :: codes4 (year d) ++ N_of_ascii " " :: codes2 (hour d) ++ N_of_ascii ":"
  :: codes2 (minute d) ++ N_of_ascii ":" :: codes2 (second d).
Proof.
intros Hy. unfold chars, strftime_dmY_HMS, strftime_Y.
rewrite list_ascii_of_string_of_list_ascii.
rewrite (proj2 (Z.ltb_ge _ _)) by lia.
rewrite (proj2 (Z.ltb_ge _ _)) by lia.
rewrite (proj2 (Z.ltb_ge _ _)) by lia.
rewrite utf8_decode_ascii.
- unfold sep. rewrite !map_app. reflexivity.
- unfold sep. repeat (apply Forall_app; split);
    first [apply ascii_pad2 | apply ascii_pad4 | by repeat constructor].
Qed.

(** A rendered display date is read back by the second format as the
    date it was rendered from, and is refused by the first. *)
Lemma strptime_strftime (d : datetime) :
valid_datetime d = true ->
1000 <= year d ->
strptime (Some (strftime_dmY_HMS d)) Fmt_dmY_HMS = Ok d
/\ strptime (Some (strftime_dmY_HMS d)) Fmt_Ymd_HMS = Raise ValueError.
Proof.
intros Hv Hy1000.
pose proof (valid_datetime_bounds d Hv) as (Hy & Hm & Hd & Hh & Hmi & Hs).
pose proof (days_in_month_le (year d) (month d)) as Hdim.
unfold strptime. rewrite chars_strftime by exact Hy1000. split.
- assert (H : heads
    (format_regex Fmt_dmY_HMS
       (codes2 (day d) ++ N_of_ascii "." :: codes2 (month d) ++ N_of_ascii "."
        :: codes4 (year d) ++ N_of_ascii " " :: codes2 (hour d) ++ N_of_ascii ":"
        :: codes2 (minute d) ++ N_of_ascii ":" :: codes2 (second d)))
    (Datetime (year d) (month d) (day d) (hour d) (minute d) (second d), [])).
  { unfold format_regex.
    eapply heads_bind; [apply rx_d_pad; lia|].
    eapply heads_bind; [apply rx_char_head|].
    eapply heads_bind; [apply rx_m_pad; lia|].
    eapply heads_bind; [apply rx_char_head|].
    eapply heads_bind; [apply rx_Y_pad; lia|].
    apply rx_time_head; assumption. }
  destruct H as [tl ->]. destruct d; simpl in *. rewrite Hv. reflexivity.
- assert (H : format_regex Fmt_Ymd_HMS
    (codes2 (day d) ++ N_of_ascii "." :: codes2 (month d) ++ N_of_ascii "."
     :: codes4 (year d) ++ N_of_ascii " " :: codes2 (hour d) ++ N_of_ascii ":"
     :: codes2 (minute d) ++ N_of_ascii ":" :: codes2 (second d)) = []).
  { destruct (two_digits (day d)) as (Ha & Hb & _); [lia|].
    unfold format_regex, codes2 at 1. cbn [app].
    unfold rx_bind at 1. unfold rx_Y, rx_bind.
    rewrite rx_decimal_code by exact Ha. cbn [flat_map fst snd app].
    rewrite rx_decimal_code by exact Hb. reflexivity. }
  rewrite H. reflexivity.
Qed.

End DateRoundTrip.

Section DisplayDateFacts.
Import Py ET Reader.
Context `{FM : FloatModel}.

(** X13.  Reading back what the extractor displays.  When the date text
    of a document is the display form [DD.MM.YYYY HH:MM:SS] of a date of
    the year 1000 or later, as the extractor itself writes it, the
    first format refuses it, the second reads that same date back, the
    display field keeps the text and the sort key is the ISO form of
    the date. *)
Theorem displayed_date_read_back fs file_path (r : record) t el d :
parse_xml_file fs file_path = Some r ->
located_transaction fs file_path = Some t ->
find_child "TransactionStartDate" t = Some el ->
text el = Some (strftime_dmY_HMS d) ->
valid_datetime d = true ->
(1000 <= year d)%Z ->
strptime (Some (strftime_dmY_HMS d)) Fmt_Ymd_HMS = Raise ValueError
/\ strptime (Some (strftime_dmY_HMS d)) Fmt_dmY_HMS = Ok d
/\ r !! "TransactionStartDate" = Some (VStr (strftime_dmY_HMS d))
/\ r !! "RawDate" = Some (VStr (isoformat d)).
Proof.
intros H Ht Hel Htxt Hv Hy.
destruct (strptime_strftime d Hv Hy) as [H2 H1].
split; [exact H1|]. split; [exact H2|].
apply parse_xml_file_inv in H as (t' & Ht' & H).
assert (t' = t) as -> by congruence.
apply extract_transaction_inv in H as (disp & key & qdisp & x & Hd & _ & ->).
unfold date_fields in Hd. rewrite Hel in Hd.
destruct Hd as (txt & Htxt' & Hd).
assert (txt = strftime_dmY_HMS d) as -> by congruence.
rewrite H1, H2 in Hd. destruct Hd as [-> ->].
repeat first [rewrite lookup_insert_eq | rewrite lookup_insert_ne by discriminate].
split; reflexivity.
Qed.

End DisplayDateFacts.

(* ===================================================================== *)
(** ** The further properties on the sample inputs *)
(* ===================================================================== *)

Section MoreExamples.
Import Py ET Reader WebServer Examples.

(** The transaction elements of two sample documents. *)
Definition full_transaction : element :=
Element "Transaction" None
  [leaf "TransactionNumber" "4711";
   leaf "TransactionStartDate" "2024-03-05 10:11:12";
   Element "DispenserData" None [leaf "DispenserNumber" "2"];
   Element "ArticleData" None [leaf "ArticleNumber" "7"];
   leaf "TransactionQuantity" "12.5";
   Element "MediaData" None [leaf "AdditionalEntry" "D-EABC"]].

Definition dotted_transaction : element :=
Element "Transaction" None
  [Element "TransactionNumber" None [];
   leaf "TransactionStartDate" "05.03.2024 10:11:12";
   leaf "ArticleNumber" "2"].

(** X2, witness: the amount "12.5". *)
Lemma amount_fields_witness :
parse_xml_file (one_file doc_full) "t.xml" = Some (record_of doc_full)
/\ record_of doc_full !! "TransactionQuantity" = Some (VStr "12.5")
/\ record_of doc_full !! "RawQuantity" = Some (VFloat (Qmake 125 10)).
Proof.
assert (H : parse_xml_file (one_file doc_full) "t.xml" = Some (record_of doc_full))
  by reflexivity.
split; [exact H|].
destruct (amount_fields (one_file doc_full) "t.xml" (record_of doc_full)
            full_transaction (leaf "TransactionQuantity" "12.5") "12.5" H)
  as (H1 & H2 & _); try reflexivity.
split; [exact H1|exact H2].
Defined.

(** X3, witness: a date in the first format. *)
Lemma display_date_fields_witness :
parse_xml_file (one_file doc_full) "t.xml" = Some (record_of doc_full)
/\ record_of doc_full !! "TransactionStartDate" = Some (VStr "05.03.2024 10:11:12")
/\ record_of doc_full !! "RawDate" = Some (VStr "2024-03-05T10:11:12").
Proof.
assert (H : parse_xml_file (one_file doc_full) "t.xml" = Some (record_of doc_full))
  by reflexivity.
split; [exact H|].
exact (display_date_fields (one_file doc_full) "t.xml" (record_of doc_full)
         full_transaction (leaf "TransactionStartDate" "2024-03-05 10:11:12")
         "2024-03-05 10:11:12" H eq_refl eq_refl eq_refl).
Defined.

(** X13, witness: a date text in the display form. *)
Lemma displayed_date_read_back_witness :
parse_xml_file (one_file doc_empty_number) "t.xml" = Some (record_of doc_empty_number)
/\ valid_datetime (Datetime 2024 3 5 10 11 12) = true
/\ (1000 <= year (Datetime 2024 3 5 10 11 12))%Z
/\ record_of doc_empty_number !! "RawDate" = Some (VStr "2024-03-05T10:11:12").
Proof.
assert (H : parse_xml_file (one_file doc_empty_number) "t.xml"
            = Some (record_of doc_empty_number)) by reflexivity.
assert (Hv : valid_datetime (Datetime 2024 3 5 10 11 12) = true) by reflexivity.
assert (Hy : (1000 <= year (Datetime 2024 3 5 10 11 12))%Z) by (simpl; lia).
split; [exact H|]. split; [exact Hv|]. split; [exact Hy|].
exact (proj2 (proj2 (proj2
         (displayed_date_read_back (one_file doc_empty_number) "t.xml"
            (record_of doc_empty_number) dotted_transaction
            (leaf "TransactionStartDate" "05.03.2024 10:11:12")
            (Datetime 2024 3 5 10 11 12) H eq_refl eq_refl eq_refl Hv Hy)))).
Defined.

(** Before the year 1000 the display form has fewer than four digits of
    the year, and no format reads it back: a document that carries the
    display text of the year 999 keeps it and gets the text itself as
    sort key. *)
Example year_999_not_read_back :
strftime_dmY_HMS (Datetime 999 3 5 10 11 12) = "05.03.999 10:11:12"
/\ strptime (Some "05.03.999 10:11:12") Fmt_Ymd_HMS = Raise ValueError
/\ strptime (Some "05.03.999 10:11:12") Fmt_dmY_HMS = Raise ValueError
/\ strptime (Some "05.03.0999 10:11:12") Fmt_dmY_HMS = Ok (Datetime 999 3 5 10 11 12).
Proof. repeat split; reflexivity. Qed.

Lemma fetch_two_docs :
fetch_and_process_data (plain_world two_docs) disk0
= (Ok (Some (fetched_records two_docs)),
   snd (fetch_and_process_data (plain_world two_docs) disk0)).
Proof. reflexivity. Qed.

(** X5, witness: the server with two documents. *)
Lemma fetched_records_bounded_witness :
fetch_and_process_data (plain_world two_docs) disk0
= (Ok (Some (fetched_records two_docs)),
   snd (fetch_and_process_data (plain_world two_docs) disk0))
/\ (length (fetched_records two_docs) <= 10)%nat.
Proof.
split; [exact fetch_two_docs|].
exact (proj1 (fetched_records_bounded _ _ _ _ fetch_two_docs)).
Defined.

(** X6 on the samples.  The calls of a fetch of two documents. *)
Example two_docs_calls :
sftp_calls (snd (fetch_and_process_data (plain_world two_docs) disk0))
= [Connect; ListDir SFTP_PATH;
   Get (SFTP_PATH +:+ "/new.xml") (DATA_DIR +:+ "/new.xml");
   Get (SFTP_PATH +:+ "/old.xml") (DATA_DIR +:+ "/old.xml");
   Close].
Proof. reflexivity. Qed.

(** When [DATA_DIR] cannot be made the fetch raises before any call on
    the transport, and [/api/tankdata] answers with the error. *)
Example no_data_dir_raises :
fetch_and_process_data (no_data_dir_world two_docs) disk0 = (Raise OSError, disk0)
/\ fst (api_tankdata (no_data_dir_world two_docs) app0) = ErrorRetrieving OSError.
Proof. split; reflexivity. Qed.

(** When the session does not close, the records that were fetched are
    lost: the fetch raises what the closing raised. *)
Example stuck_session_raises :
fst (fetch_and_process_data (plain_world two_docs_stuck) disk0) = Raise TransportError
/\ sftp_calls (snd (fetch_and_process_data (plain_world two_docs_stuck) disk0))
   = [Connect; ListDir SFTP_PATH;
      Get (SFTP_PATH +:+ "/new.xml") (DATA_DIR +:+ "/new.xml");
      Get (SFTP_PATH +:+ "/old.xml") (DATA_DIR +:+ "/old.xml");
      Close].
Proof. split; reflexivity. Qed.

(** X7, witness: the report of the two documents. *)
Lemma report_rows_follow_records_witness :
fetch_and_process_data (plain_world two_docs) disk0
= (Ok (Some (fetched_records two_docs)),
   snd (fetch_and_process_data (plain_world two_docs) disk0))
/\ generated_at (generate_html (fetched_records two_docs) 400) = 400%Z.
Proof.
split; [exact fetch_two_docs|].
exact (proj1 (report_rows_follow_records _ _ _ _ 400%Z fetch_two_docs)).
Defined.

Example two_docs_rows :
rows (generate_html (fetched_records two_docs) 400)
= [[VStr "4712"; VStr "5 March 2024"; VStr "N/A"; VStr "AVGAS"; VStr "N/A"; VStr "N/A"];
   [VStr "4711"; VStr "05.03.2024 10:11:12"; VStr "2"; VStr "7"; VStr "12.5";
    VStr "D-EABC"]].
Proof. reflexivity. Qed.

(** X8, witness: the two documents and a client that accepts all. *)
Lemma publication_complete_witness :
fetch_and_process_data (plain_world two_docs) disk0
= (Ok (Some (fetched_records two_docs)),
   snd (fetch_and_process_data (plain_world two_docs) disk0))
/\ (forall t p, accepts accept_all t p = true)
/\ exists total_quantity,
     sum_quantities Int0 (fetched_records two_docs) = Ok total_quantity.
Proof.
assert (Hacc : forall t p, accepts accept_all t p = true) by reflexivity.
split; [exact fetch_two_docs|]. split; [exact Hacc|].
destruct (publication_complete _ _ _ _ accept_all 400%Z disk0 fetch_two_docs Hacc)
  as [total [Htotal _]].
exists total. exact Htotal.
Defined.

Example two_docs_counts :
count_articles (fetched_records two_docs) [] = [(VStr "1", 1%nat); (VStr "7", 1%nat)].
Proof. reflexivity. Qed.

(** X10 on the samples.  A broker that has answered when the network
    thread starts: the status message is the first that is published,
    before the fetch. *)
Example greeting_comes_first :
mqtt_calls (greeted (answering_world two_docs) disk0)
= [(TStatus, PStatus "online", true)]
/\ firstn 2 (mqtt_calls (snd (main (answering_world two_docs) 400 disk0)))
   = [(TStatus, PStatus "online", true); (TLastUpdate, PTimestamp 400, true)]
/\ fst (main (answering_world two_docs) 400 disk0) = Ok tt.
Proof. repeat split; reflexivity. Qed.

(** A report that is opened and cannot be written is left empty, and
    nothing is published. *)
Example full_disk_truncates :
fst (main (full_disk_world two_docs) 400 (disk app0)) = Raise OSError
/\ output_file (snd (main (full_disk_world two_docs) 400 (disk app0))) = Some Truncated
/\ mqtt_calls (snd (main (full_disk_world two_docs) 400 (disk app0))) = [].
Proof. repeat split; reflexivity. Qed.

(** A report that cannot be opened stays as it was. *)
Example read_only_keeps_report :
fst (main (read_only_world two_docs) 400 (disk app0)) = Raise OSError
/\ output_file (snd (main (read_only_world two_docs) 400 (disk app0)))
   = Some (Page report0).
Proof. split; reflexivity. Qed.

(** X11 on the samples.  Each failure is reported with its cause, and
    the time of the last update stays. *)
Example failures_reported :
update_data (no_data_dir_world two_docs) 400 401 app0
= ((false, ErrorUpdating OSError), app0)
/\ fst (update_data (plain_world two_docs_stuck) 400 401 app0)
   = (false, ErrorUpdating TransportError)
/\ fst (update_data (full_disk_world two_docs) 400 401 app0)
   = (false, ErrorUpdating OSError)
/\ last_update_time (snd (update_data (full_disk_world two_docs) 400 401 app0)) = 100%Z
/\ fst (update_data (plain_world two_docs) 400 401 app0) = (true, DataUpdated)
/\ last_update_time (snd (update_data (plain_world two_docs) 400 401 app0)) = 401%Z.
Proof. repeat split; reflexivity. Qed.

(** A document whose root is the [Transaction] element itself: the
    lookup searches below the root only. *)
Example root_transaction_not_found :
parse_xml_file (one_file full_transaction) "t.xml" = None.
Proof. reflexivity. Qed.

End MoreExamples.
